(** * TheodoraQ: the class and assignment controllers

    A shallow embedding of the request handlers of
    [backend/controllers/classController.js] (class handlers followed by
    the assignment handlers), of the class schema ([unnamed/part_000]),
    of the schemas and the invite route of [backend/models/Assignment.js],
    of the sheet parser of
    [backend/controllers/candidateController.js], of the quiz page
    [src/features/candidate/pages/TakeQuizPage.jsx] and of the Kafka
    consumer of [backend/utils/quizSubmissionConsumer.js].

    Conventions.
    - A JavaScript string is a [string] of 7-bit characters: [trim],
      [toUpperCase] and [toLowerCase] are those of JavaScript on the
      ASCII range ([JS.isAscii]) and are not meant beyond it.
    - A JavaScript number that the code computes with floating point
      (scores, weightage, marks) is a binary64 [float].
    - A MongoDB collection is an association list from [_id] to document,
      in natural order; [findOne] returns the first match. An [_id] of a
      request is taken to be well formed: one that is not makes the cast
      of the query throw, and the handler answers 500.
    - A document holds the paths its schema declares and no other: the
      schemas are strict, so what a handler writes under another name is
      dropped, and what it reads under another name is [undefined].
    - A handler is a function from the database to a response and a
      database, the request running from its first read to its last
      write by itself; [new Date()] and [Math.random()] are inputs.
      Where the order of two requests' reads and writes matters
      ([submitQuiz]), the handler is also given in two halves. *)

From Stdlib Require Import ZArith QArith String Ascii List Permutation Bool Lia.
From Stdlib Require Import Floats.PrimFloat Floats.FloatOps Floats.SpecFloat.
From Stdlib Require Import Numbers.Cyclic.Int63.Uint63.
From Stdlib Require Import Sorting.Sorted.
From Stdlib Require Import Numbers.DecimalString Numbers.DecimalNat.
From stdpp Require Import gmap strings list fin_maps.

Close Scope Q_scope.
Open Scope string_scope.

(** ** JavaScript string primitives *)

Module JS.

(** White space removed by [String.prototype.trim] (ASCII range):
    TAB, LF, VT, FF, CR and SPACE. *)
Definition isSpace (c : ascii) : bool :=
  let n := nat_of_ascii c in
  ((9 <=? n)%nat && (n <=? 13)%nat) || (n =? 32)%nat.

Definition isDigit (c : ascii) : bool :=
  let n := nat_of_ascii c in (48 <=? n)%nat && (n <=? 57)%nat.

Definition isUpper (c : ascii) : bool :=
  let n := nat_of_ascii c in (65 <=? n)%nat && (n <=? 90)%nat.

Definition isLower (c : ascii) : bool :=
  let n := nat_of_ascii c in (97 <=? n)%nat && (n <=? 122)%nat.

Definition upperChar (c : ascii) : ascii :=
  if isLower c then ascii_of_nat (nat_of_ascii c - 32) else c.

Definition lowerChar (c : ascii) : ascii :=
  if isUpper c then ascii_of_nat (nat_of_ascii c + 32) else c.

Fixpoint mapChars (f : ascii -> ascii) (s : string) : string :=
  match s with
  | EmptyString => EmptyString
  | String c r => String (f c) (mapChars f r)
  end.

Definition toUpperCase : string -> string := mapChars upperChar.
Definition toLowerCase : string -> string := mapChars lowerChar.

Fixpoint trimStart (s : string) : string :=
  match s with
  | EmptyString => EmptyString
  | String c r => if isSpace c then trimStart r else s
  end.

Fixpoint trimEnd (s : string) : string :=
  match s with
  | EmptyString => EmptyString
  | String c r =>
      match trimEnd r with
      | EmptyString => if isSpace c then EmptyString else String c EmptyString
      | r' => String c r'
      end
  end.

Definition trim (s : string) : string := trimEnd (trimStart s).

(** [s.includes(',')] for a one-character needle. *)
Fixpoint includesChar (needle : ascii) (s : string) : bool :=
  match s with
  | EmptyString => false
  | String c r => if Ascii.eqb c needle then true else includesChar needle r
  end.

(** [s.split(sep)] for a one-character separator: never empty. *)
Fixpoint split (sep : ascii) (s : string) : list string :=
  match s with
  | EmptyString => [EmptyString]
  | String c r =>
      if Ascii.eqb c sep then EmptyString :: split sep r
      else match split sep r with
           | h :: t => String c h :: t
           | [] => [String c EmptyString]
           end
  end.

(** [arr.includes(x)] on an array of strings. *)
Definition includes (x : string) (arr : list string) : bool :=
  existsb (String.eqb x) arr.

(** Truthiness of a string value: only [''] is falsy. *)
Definition truthy (s : string) : bool := negb (String.eqb s "").

(** Truthiness of a possibly [undefined] string. *)
Definition truthyOpt (o : option string) : bool :=
  match o with Some s => truthy s | None => false end.

(** Truthiness of a possibly [undefined] boolean. *)
Definition truthyBool (o : option bool) : bool :=
  match o with Some b => b | None => false end.

(** The strings on which the primitives above are those of JavaScript:
    every character below 128. *)
Definition isAsciiChar (c : ascii) : bool := (nat_of_ascii c <? 128)%nat.

Fixpoint isAscii (s : string) : bool :=
  match s with
  | EmptyString => true
  | String c r => isAsciiChar c && isAscii r
  end.

End JS.

(** ** Values of a request body used as query conditions

    [express.json()] delivers whatever JSON the client sent, and a
    handler that puts such a value into a Mongoose filter unchecked
    passes a query object through: [{ inviteCode: { $ne: null } }] asks
    for the documents whose code is not [null].  The values told apart
    here are a JSON string and the object [{ "$ne": v }] of a string or
    [null]. *)

Module Query.

Inductive value :=
| Str (s : string)
| Ne (v : option string).

(** Truthiness: an object is truthy, a string unless it is empty. *)
Definition truthy (v : value) : bool :=
  match v with
  | Str s => JS.truthy s
  | Ne _ => true
  end.

(** Truthiness of a possibly [undefined] value. *)
Definition truthyOpt (o : option value) : bool :=
  match o with Some v => truthy v | None => false end.

(** Does the stored string [x] satisfy the condition [{ path: v }]? *)
Definition holds (v : value) (x : string) : bool :=
  match v with
  | Str s => x =? s
  | Ne None => true
  | Ne (Some s) => negb (x =? s)
  end.

(** The same for a possibly [undefined] value, which no stored string
    satisfies. *)
Definition holdsOpt (o : option value) (x : string) : bool :=
  match o with Some v => holds v x | None => false end.

End Query.

(** ** The regular expressions of [extractBranch]

    The four patterns are sequences of character classes with bounded or
    unbounded greedy repetition, one of them captured, anchored or not.
    [matchItems] is the backtracking matcher: each item first takes the
    longest run it may and gives characters back one by one. *)

Module Regex.

Record item := Item {
  cls : ascii -> bool;        (* the character class *)
  rmin : nat;                 (* least number of repetitions *)
  rmax : option nat;          (* most, [None] for [+] *)
  captured : bool             (* inside the capture group *)
}.

(** Length of the longest prefix of [s] in class [p], at most [cap]. *)
Fixpoint run (p : ascii -> bool) (cap : option nat) (s : list ascii) : nat :=
  match s with
  | [] => 0
  | c :: r =>
      match cap with
      | Some 0 => 0
      | _ => if p c then S (run p (pred <$> cap) r) else 0
      end
  end.

(** Try [k n], [k (n-1)], ... down to [k lo]: greedy, then backtrack. *)
Fixpoint tryDown {R} (n lo : nat) (k : nat -> option R) : option R :=
  if (n <? lo)%nat then None
  else match k n with
       | Some r => Some r
       | None => match n with
                 | 0 => None
                 | S n' => tryDown n' lo k
                 end
       end.

(** [matchItems atEnd its s]: the items match a prefix of [s] (all of
    [s] when [atEnd]); the result is the captured text, if any item is
    captured. *)
Fixpoint matchItems (atEnd : bool) (its : list item) (s : list ascii)
  : option (option (list ascii)) :=
  match its with
  | [] => if atEnd then match s with [] => Some None | _ => None end
          else Some None
  | it :: rest =>
      tryDown (run (cls it) (rmax it) s) (rmin it) (fun n =>
        match matchItems atEnd rest (drop n s) with
        | Some cap => Some (if captured it then Some (take n s) else cap)
        | None => None
        end)
  end.

(** A pattern without [^]: the leftmost position where it matches. *)
Fixpoint searchItems (atEnd : bool) (its : list item) (s : list ascii)
  : option (option (list ascii)) :=
  match matchItems atEnd its s with
  | Some cap => Some cap
  | None => match s with
            | [] => None
            | _ :: r => searchItems atEnd its r
            end
  end.

Record regex := Regex {
  anchoredStart : bool;
  anchoredEnd : bool;
  items : list item
}.

(** [str.match(re)] read at its first group: [match[1]]. *)
Definition group1 (re : regex) (str : string) : option string :=
  let s := list_ascii_of_string str in
  let m := if anchoredStart re then matchItems (anchoredEnd re) (items re) s
           else searchItems (anchoredEnd re) (items re) s in
  match m with
  | Some (Some cap) => Some (string_of_list_ascii cap)
  | _ => None
  end.

Definition digits (lo : nat) (hi : option nat) : item := Item JS.isDigit lo hi false.
Definition branchGroup : item := Item JS.isUpper 2 (Some 4) true.

(** [/^\d{2}([A-Z]{2,4})\d+$/], e.g. 22BCE10100 *)
Definition pattern1 : regex :=
  Regex true true [digits 2 (Some 2); branchGroup; digits 1 None].
(** [/^\d{4}([A-Z]{2,4})\d+$/], e.g. 2024BCE001 *)
Definition pattern2 : regex :=
  Regex true true [digits 4 (Some 4); branchGroup; digits 1 None].
(** [/^([A-Z]{2,4})\d+$/], e.g. BCE001 *)
Definition pattern3 : regex :=
  Regex true true [branchGroup; digits 1 None].
(** [/([A-Z]{2,4})/]: any 2 to 4 capital letters *)
Definition pattern4 : regex :=
  Regex false false [branchGroup].

(** The four attempts, in the order both controllers make them. *)
Definition firstBranch (regNum : string) : option string :=
  match group1 pattern1 regNum with
  | Some b => Some b
  | None =>
      match group1 pattern2 regNum with
      | Some b => Some b
      | None =>
          match group1 pattern3 regNum with
          | Some b => Some b
          | None => group1 pattern4 regNum
          end
      end
  end.

End Regex.

(** ** Documents *)

(** A Mongo [ObjectId] in the form the controllers compare it:
    [id.toString()]. *)
Abbreviation ObjectId := string (only parsing).

(** [req.user], as the [protect] middleware attaches it. *)
Record AuthUser := { uid : ObjectId; urole : string }.

(** The fields of a user document the controllers select. *)
Module User.
Record t := mk { registrationNumber : option string }.
End User.

(** A question of a quiz: the fields the controllers read. *)
Module Question.
Record t := mk {
  _id : ObjectId;
  type : string;
  text : string;
  options : list string;
  answer : string
}.
End Question.

Module Quiz.
Record t := mk {
  title : string;
  adminId : ObjectId;
  questions : list Question.t
}.
End Quiz.

(** [answerSchema] (models/Assignment.js) *)
Module Answer.
Record t := mk {
  questionId : string;
  selectedAnswer : string;
  isCorrect : bool
}.
End Answer.

(** [submissionSchema] (models/Assignment.js): the paths it declares. *)
Module Submission.
Record t := mk {
  candidateId : ObjectId;
  score : float;
  submittedAt : Z;
  answers : list Answer.t
}.
End Submission.

(** [assignmentSchema] (models/Assignment.js) *)
Module Assignment.
Record t := mk {
  quizId : ObjectId;
  classId : ObjectId;
  adminId : ObjectId;
  subgroup : string;
  subclasses : list string;
  dueDate : Z;
  timeLimit : Z;
  weightage : float;
  weightageType : string;
  submissions : list Submission.t
}.

Definition setSubmissions (subs : list Submission.t) (a : t) : t :=
  mk (quizId a) (classId a) (adminId a) (subgroup a) (subclasses a)
     (dueDate a) (timeLimit a) (weightage a) (weightageType a) subs.
End Assignment.

(** The class document: the paths of [classSchema].  The schema is strict
    and declares no settings: [semester], [allowLateSubmissions],
    [showResults] and the like are never stored, whatever a request
    writes, and a handler that reads one of them gets [undefined]. *)
Module Class.
Record t := mk {
  title : string;
  courseCode : string;
  description : string;
  adminId : ObjectId;
  students : list ObjectId;
  inviteCode : string;
  isActive : bool
}.

Definition setStudents (l : list ObjectId) (c : t) : t :=
  mk (title c) (courseCode c) (description c) (adminId c) l
     (inviteCode c) (isActive c).

(** [classData.allowLateSubmissions] and [classData.showResults]: reads
    of paths the schema does not declare, [undefined] on every class. *)
Definition allowLateSubmissions (c : t) : option bool := None.
Definition showResults (c : t) : option bool := None.
End Class.

(** ** Collections *)

Module Coll.
Section Collection.
Context {D : Type}.
Definition t := list (ObjectId * D).

(** [Model.findOne(filter)]: the first document the filter accepts. *)
Definition findOne (f : ObjectId -> D -> bool) (c : t) : option (ObjectId * D) :=
  List.find (fun p => f (fst p) (snd p)) c.

(** [Model.find(filter)] *)
Definition find (f : ObjectId -> D -> bool) (c : t) : t :=
  List.filter (fun p => f (fst p) (snd p)) c.

(** [Model.findById(id)] *)
Definition findById (id : ObjectId) (c : t) : option D :=
  snd <$> findOne (fun i _ => String.eqb i id) c.

(** [doc.save()] of a document that was read from the collection. *)
Definition save (id : ObjectId) (d : D) (c : t) : t :=
  List.map (fun p => if String.eqb (fst p) id then (id, d) else p) c.

(** [doc.save()] of a new document. *)
Definition insert (id : ObjectId) (d : D) (c : t) : t := (c ++ [(id, d)])%list.

(** [Model.findByIdAndDelete(id)] *)
Definition deleteById (id : ObjectId) (c : t) : t :=
  List.filter (fun p => negb (String.eqb (fst p) id)) c.
End Collection.
Arguments t : clear implicits.
End Coll.

Record DB := mkDB {
  classes : Coll.t Class.t;
  assignments : Coll.t Assignment.t;
  quizzes : Coll.t Quiz.t;
  users : Coll.t User.t
}.

Definition withClasses (f : Coll.t Class.t -> Coll.t Class.t) (db : DB) : DB :=
  mkDB (f (classes db)) (assignments db) (quizzes db) (users db).

Definition withAssignments (f : Coll.t Assignment.t -> Coll.t Assignment.t) (db : DB) : DB :=
  mkDB (classes db) (f (assignments db)) (quizzes db) (users db).

(** ** Handlers

    A handler ends in [res.status(s).json(...)]: [Ok] is a success
    response (200 or 201) with its payload, [Fail] an error response with
    its status and message. The database after the request comes with it. *)

Inductive Result (A : Type) : Type :=
| Ok (payload : A)
| Fail (status : nat) (message : string).
Arguments Ok {A} payload.
Arguments Fail {A} status message.

Definition isOk {A} (r : Result A) : bool :=
  match r with Ok _ => true | Fail _ _ => false end.

Definition statusOf {A} (r : Result A) : option nat :=
  match r with Ok _ => None | Fail s _ => Some s end.

Definition Handler (A : Type) : Type := DB -> Result A * DB.

#[global] Instance handler_ret : MRet Handler := fun A a db => (Ok a, db).

#[global] Instance handler_bind : MBind Handler := fun A B k m db =>
  match m db with
  | (Ok a, db') => k a db'
  | (Fail s msg, db') => (Fail s msg, db')
  end.

(** [return res.status(s).json({ success: false, message })] *)
Definition fail {A} (s : nat) (msg : string) : Handler A := fun db => (Fail s msg, db).

(** [if (c) return res.status(s).json(...)] *)
Definition rejectIf (c : bool) (s : nat) (msg : string) : Handler unit :=
  if c then fail s msg else mret tt.

(** A read of the database. *)
Definition query {A} (f : DB -> A) : Handler A := fun db => (Ok (f db), db).

(** A write to the database. *)
Definition update (f : DB -> DB) : Handler unit := fun db => (Ok tt, f db).

(** [const x = await ...; if (!x) return res.status(s).json(...)] *)
Definition orFail {A} (o : option A) (s : nat) (msg : string) : Handler A :=
  match o with Some a => mret a | None => fail s msg end.

(** ** controllers/classController.js *)

Module ClassController.

(** POST /api/classes. [newId] is the [_id] Mongoose generates and
    [suffix] the six random characters of the invite code; the unique
    index on [inviteCode] refuses a second class with the same code. *)
Definition createClass (user : AuthUser) (newId : ObjectId) (suffix : string)
    (title courseCode : string) (description : option string)
  : Handler (ObjectId * Class.t) :=
  rejectIf (negb (JS.truthy title) || negb (JS.truthy courseCode)) 400
    "Title and course code are required";;
  let inviteCode := (JS.toUpperCase courseCode ++ "-" ++ suffix)%string in
  rejectIf (negb (JS.truthy (uid user))) 401 "You must be logged in to create a class";;
  taken ← query (fun db =>
    Coll.findOne (fun _ c => Class.inviteCode c =? inviteCode) (classes db));
  rejectIf (bool_decide (is_Some taken)) 500 "Failed to create class";;
  let newClass :=
    Class.mk title courseCode (default "" description) (uid user) [] inviteCode true in
  update (withClasses (Coll.insert newId newClass));;
  mret (newId, newClass).

(** [req.body] of [updateClass]: [None] is [undefined]. *)
Record UpdateClassBody := {
  title : option string;
  courseCode : option string;
  description : option string;
  semester : option string;
  academicYear : option string;
  allowLateSubmissions : option bool;
  autoGrading : option bool;
  showResults : option bool;
  showRosterToCandidates : option bool;
  showLeaderboardToCandidates : option bool
}.

(** [updateData] applied by [findByIdAndUpdate]: only provided fields,
    and of those only the paths of the schema.  The seven settings of
    the body are put into [updateData] and dropped by the strict schema
    when the update is cast. *)
Definition applyUpdate (b : UpdateClassBody) (c : Class.t) : Class.t :=
  Class.mk
    (default (Class.title c) (title b))
    (default (Class.courseCode c) (courseCode b))
    (default (Class.description c) (description b))
    (Class.adminId c) (Class.students c) (Class.inviteCode c) (Class.isActive c).

(** [runValidators: true]: the required paths may not become empty. *)
Definition updateValid (b : UpdateClassBody) : bool :=
  match title b with Some "" => false | _ => true end
  && match courseCode b with Some "" => false | _ => true end.

(** PUT /api/classes/:id *)
Definition updateClass (user : AuthUser) (id : ObjectId) (body : UpdateClassBody)
  : Handler Class.t :=
  found ← query (fun db => Coll.findById id (classes db));
  classToUpdate ← orFail found 404 "Class not found";
  rejectIf (negb (Class.adminId classToUpdate =? uid user)) 403
    "Not authorized to update this class. Only the class creator can update it.";;
  rejectIf (negb (updateValid body)) 500 "Failed to update class";;
  let updatedClass := applyUpdate body classToUpdate in
  update (withClasses (Coll.save id updatedClass));;
  mret updatedClass.

(** DELETE /api/classes/:id *)
Definition deleteClass (user : AuthUser) (id : ObjectId) : Handler unit :=
  found ← query (fun db => Coll.findById id (classes db));
  classToDelete ← orFail found 404 "Class not found";
  rejectIf (negb (Class.adminId classToDelete =? uid user)) 403
    "Not authorized to delete this class. Only the class creator can delete it.";;
  update (withClasses (Coll.deleteById id)).

(** POST /api/classes/join.  [inviteCode] is [req.body.inviteCode] as
    it arrives: the handler tests its truthiness and hands it to
    [Class.findOne({ inviteCode, isActive: true })]. *)
Definition joinClass (user : AuthUser) (inviteCode : option Query.value)
  : Handler (ObjectId * Class.t) :=
  rejectIf (negb (Query.truthyOpt inviteCode)) 400 "Invite code is required";;
  rejectIf (negb (urole user =? "candidate")) 403 "Only candidates can join a class";;
  found ← query (fun db =>
    Coll.findOne (fun _ c => Query.holdsOpt inviteCode (Class.inviteCode c)
                             && Class.isActive c) (classes db));
  '(cid, classToJoin) ← orFail found 404 "Class not found. Please check the invite code.";
  rejectIf (JS.includes (uid user) (Class.students classToJoin)) 400
    "You are already enrolled in this class";;
  let joined := Class.setStudents (Class.students classToJoin ++ [uid user])%list classToJoin in
  update (withClasses (Coll.save cid joined));;
  mret (cid, joined).

(** The loop over the class's assignments in [removeStudentFromClass]:
    the student's submissions are filtered out, and the assignment is
    saved when that removed any. *)
Definition dropSubmissionsOf (id studentId : ObjectId) (p : ObjectId * Assignment.t)
  : ObjectId * Assignment.t :=
  let assignment := snd p in
  if Assignment.classId assignment =? id then
    let kept := List.filter (fun sub => negb (Submission.candidateId sub =? studentId))
                  (Assignment.submissions assignment) in
    let removedCount := (length (Assignment.submissions assignment) - length kept)%nat in
    if (0 <? removedCount)%nat then (fst p, Assignment.setSubmissions kept assignment)
    else p
  else p.

Definition removedCount (id studentId : ObjectId) (p : ObjectId * Assignment.t) : nat :=
  if Assignment.classId (snd p) =? id then
    length (List.filter (fun sub => Submission.candidateId sub =? studentId)
              (Assignment.submissions (snd p)))
  else 0%nat.

(** POST /api/classes/:id/remove-student; the payload is the class and
    [totalSubmissionsRemoved]. *)
Definition removeStudentFromClass (user : AuthUser) (id : ObjectId)
    (studentId : option string) : Handler (Class.t * nat) :=
  rejectIf (negb (JS.truthyOpt studentId)) 400 "Student ID is required";;
  let sid := default "" studentId in
  found ← query (fun db => Coll.findById id (classes db));
  classDoc ← orFail found 404 "Class not found";
  rejectIf (negb (Class.adminId classDoc =? uid user)) 403
    "Not authorized to modify this class. Only the class creator can remove students.";;
  rejectIf (negb (JS.includes sid (Class.students classDoc))) 400
    "Student is not enrolled in this class";;
  let classDoc' :=
    Class.setStudents (List.filter (fun s => negb (s =? sid)) (Class.students classDoc))
      classDoc in
  update (withClasses (Coll.save id classDoc'));;
  totalSubmissionsRemoved ← query (fun db =>
    list_sum (List.map (removedCount id sid) (assignments db)));
  update (withAssignments (List.map (dropSubmissionsOf id sid)));;
  mret (classDoc', totalSubmissionsRemoved).

End ClassController.

(** ** Numbers *)

Module Num.
(** A count as a JavaScript number. *)
Definition ofNat (n : nat) : float := PrimFloat.of_uint63 (Uint63.of_Z (Z.of_nat n)).

Definition hundred : float := ofNat 100.

(** [x || 0] on a number: [NaN] and [0] are falsy. *)
Definition orZero (x : float) : float :=
  if PrimFloat.is_nan x || PrimFloat.eqb x PrimFloat.zero then PrimFloat.zero else x.

Definition ofZ (z : Z) : float :=
  if (z <? 0)%Z then PrimFloat.opp (PrimFloat.of_uint63 (Uint63.of_Z (- z)))
  else PrimFloat.of_uint63 (Uint63.of_Z z).

(** [Math.round(x)]: the integer nearest to [x], a tie going up. A
    number with a non-negative exponent is an integer already. *)
Definition round (x : float) : float :=
  match Prim2SF x with
  | S754_finite s m e =>
      if (0 <=? e)%Z then x
      else let num := if s then Z.neg m else Z.pos m in
           ofZ ((2 * num + 2 ^ (- e)) / 2 ^ (- e + 1))%Z
  | _ => x
  end.

(** The two operations of the weightage conversion, so that the same
    formula is read in the machine's arithmetic and in exact
    arithmetic. *)
Class Arith (N : Type) := {
  times : N -> N -> N;
  over : N -> N -> N;
  oneHundred : N
}.

#[global] Instance binary64 : Arith float :=
  {| times := PrimFloat.mul; over := PrimFloat.div; oneHundred := hundred |}.

#[global] Instance exact : Arith Q :=
  {| times := Qmult; over := Qdiv; oneHundred := 100%Q |}.
End Num.

(** ** What Mongoose keeps of a pushed submission

    [assignment.submissions.push(submission)] casts the object to a
    sub-document of [submissionSchema]; the schema is strict (the
    default), so only the paths it declares are kept. [assignment.save()]
    then runs the validators of the declared paths. *)

Module Mongoose.

(** The object literal [submitQuiz] builds (step 5). *)
Record SubmissionInput := {
  candidateId : ObjectId;
  score : float;
  submittedAt : Z;
  isLateSubmission : bool;
  tabSwitchCount : Z;
  escCount : Z;
  wasFullscreen : bool;
  answers : list Answer.t;
  proctoringData : option string
}.

(** The declared paths: candidateId, score, submittedAt, answers. *)
Definition castSubmission (s : SubmissionInput) : Submission.t :=
  Submission.mk (candidateId s) (score s) (submittedAt s) (answers s).

(** [answerSchema]: questionId and selectedAnswer are required strings,
    and the required validator of a string refuses ['']. *)
Definition validAnswer (a : Answer.t) : bool :=
  JS.truthy (Answer.questionId a) && JS.truthy (Answer.selectedAnswer a).

(** [submissionSchema]: candidateId and score are required; a Number
    path does not cast [NaN]. *)
Definition validSubmission (s : Submission.t) : bool :=
  JS.truthy (Submission.candidateId s)
  && negb (PrimFloat.is_nan (Submission.score s))
  && forallb validAnswer (Submission.answers s).

End Mongoose.

(** ** controllers: the assignment handlers *)

Module AssignmentController.

(** *** createAssignment *)

Record CreateAssignmentBody := {
  ca_quizId : string;
  ca_classId : string;
  ca_dueDate : option Z;          (* [None]: missing *)
  ca_timeLimit : Z;               (* [0] is falsy *)
  ca_weightage : option float;
  ca_weightageType : option string;
  ca_subgroup : option string;
  ca_subclasses : option (list string)
}.

(** POST /api/assignments. [newId] is the [_id] Mongoose generates. The
    [filteredStudents] the source computes (two queries with a regular
    expression made of the subgroup) are not used afterwards; the
    subgroup is taken to be text those queries accept. *)
Definition createAssignment (user : AuthUser) (newId : ObjectId)
    (body : CreateAssignmentBody) : Handler (ObjectId * Assignment.t) :=
  rejectIf (negb (JS.truthy (ca_quizId body)) || negb (JS.truthy (ca_classId body))
            || negb (bool_decide (is_Some (ca_dueDate body)))
            || (ca_timeLimit body =? 0)%Z) 400
    "All fields are required (quizId, classId, dueDate, timeLimit)";;
  rejectIf (negb (JS.truthy (uid user))) 401
    "You must be logged in to create an assignment";;
  quiz ← query (fun db =>
    Coll.findOne (fun i q => (i =? ca_quizId body) && (Quiz.adminId q =? uid user))
      (quizzes db));
  _ ← orFail quiz 404 "Quiz not found or you are not the owner";
  classData ← query (fun db =>
    Coll.findOne (fun i c => (i =? ca_classId body) && (Class.adminId c =? uid user))
      (classes db));
  _ ← orFail classData 404 "Class not found or you are not the owner";
  let weightage := default PrimFloat.zero (ca_weightage body) in
  let weightageType :=
    if JS.truthyOpt (ca_weightageType body) then default "" (ca_weightageType body)
    else "percentage" in
  (* schema validation on save: weightage min 0, weightageType enum *)
  rejectIf (PrimFloat.is_nan weightage || PrimFloat.ltb weightage PrimFloat.zero
            || negb (JS.includes weightageType ["percentage"; "marks"])) 500
    "Failed to create assignment";;
  let newAssignment :=
    Assignment.mk (ca_quizId body) (ca_classId body) (uid user)
      (JS.trim (default "" (ca_subgroup body)))
      (default [] (ca_subclasses body))
      (default 0%Z (ca_dueDate body)) (ca_timeLimit body)
      weightage weightageType [] in
  update (withAssignments (Coll.insert newId newAssignment));;
  mret (newId, newAssignment).

(** *** updateAssignment *)

Record UpdateAssignmentBody := {
  ua_dueDate : option (option Z);     (* undefined, or [new Date(dueDate)]: [None] is Invalid Date *)
  ua_timeLimit : option (option Z);   (* undefined, or [parseInt(timeLimit)]: [None] is NaN *)
  ua_weightage : option float;        (* undefined, or [parseFloat(weightage)] *)
  ua_weightageType : option string;
  ua_allowRetake : bool;              (* [allowRetake === true] *)
  ua_subgroup : option string
}.

(** The edits [updateAssignment] makes to the document it read, before
    it saves; an invalid field ends the request with status 400 (the
    last message is given without its quotation marks). The
    [proctoringEnabled] it also sets is not a path of the schema. *)
Definition editAssignment (body : UpdateAssignmentBody) (a : Assignment.t)
  : Result Assignment.t :=
  match ua_dueDate body with
  | Some None => Fail 400 "Invalid due date format"
  | d =>
    let dueDate := match d with Some (Some t) => t | _ => Assignment.dueDate a end in
    match ua_timeLimit body with
    | Some None => Fail 400 "Time limit must be a positive number"
    | tl =>
      let timeLimit := match tl with Some (Some n) => n | _ => Assignment.timeLimit a end in
      if (timeLimit <=? 0)%Z && bool_decide (is_Some tl)
      then Fail 400 "Time limit must be a positive number"
      else
        let badWeight := match ua_weightage body with
                         | Some w => PrimFloat.is_nan w || PrimFloat.leb w PrimFloat.zero
                         | None => false end in
        if badWeight then Fail 400 "Weightage must be a positive number"
        else
          let overHundred := match ua_weightage body, ua_weightageType body with
                             | Some w, Some "percentage" => PrimFloat.ltb Num.hundred w
                             | _, _ => false end in
          if overHundred then Fail 400 "Percentage weightage cannot exceed 100%"
          else
            let weightage := default (Assignment.weightage a) (ua_weightage body) in
            let badType := match ua_weightageType body with
                           | Some ty => negb (JS.includes ty ["percentage"; "marks"])
                           | None => false end in
            if badType
            then Fail 400 "Weightage type must be either percentage or marks"
            else
              let weightageType :=
                default (Assignment.weightageType a) (ua_weightageType body) in
              let subgroup := match ua_subgroup body with
                              | Some s => JS.trim s
                              | None => Assignment.subgroup a end in
              let submissions := if ua_allowRetake body then []
                                 else Assignment.submissions a in
              Ok (Assignment.mk (Assignment.quizId a) (Assignment.classId a)
                    (Assignment.adminId a) subgroup (Assignment.subclasses a)
                    dueDate timeLimit weightage weightageType submissions)
    end
  end.

(** PUT /api/assignments/:id *)
Definition updateAssignment (user : AuthUser) (id : ObjectId)
    (body : UpdateAssignmentBody) : Handler Assignment.t :=
  found ← query (fun db => Coll.findById id (assignments db));
  assignment ← orFail found 404 "Assignment not found";
  rejectIf (negb (Assignment.adminId assignment =? uid user)) 403
    "Not authorized to update this assignment";;
  match editAssignment body assignment with
  | Fail s msg => fail s msg
  | Ok edited =>
      update (withAssignments (Coll.save id edited));;
      mret edited
  end.

(** DELETE /api/assignments/:id *)
Definition deleteAssignment (user : AuthUser) (id : ObjectId) : Handler unit :=
  found ← query (fun db => Coll.findById id (assignments db));
  assignment ← orFail found 404 "Assignment not found";
  rejectIf (negb (Assignment.adminId assignment =? uid user)) 403
    "Not authorized to delete this assignment";;
  update (withAssignments (Coll.deleteById id)).

(** *** submitQuiz *)

(** [req.body] of [submitQuiz]; [answers] maps a question's id to the
    answer chosen. *)
Record SubmitBody := {
  answers : option (gmap string string);
  tabSwitchCount : option Z;
  escCount : option Z;
  wasFullscreen : option bool;
  proctoringData : option string
}.

Record SubmitResponse := {
  sr_message : string;
  sr_score : option float;
  sr_totalQuestions : option nat;
  sr_correctCount : option nat;
  sr_showResults : option bool;
  sr_isLateSubmission : bool
}.

(** The comparison of step 4: short answers are compared trimmed and
    lower-cased, the other types exactly. *)
Definition isCorrectAnswer (question : Question.t) (candidateAnswer : string) : bool :=
  if Question.type question =? "short_answer"
  then JS.toLowerCase (JS.trim candidateAnswer)
       =? JS.toLowerCase (JS.trim (Question.answer question))
  else candidateAnswer =? Question.answer question.

(** One turn of the grading loop: [score] and [formattedAnswers] are
    the loop's two variables. *)
Definition gradeQuestion (answers : gmap string string)
    (acc : nat * list Answer.t) (question : Question.t) : nat * list Answer.t :=
  let '(score, formattedAnswers) := acc in
  let candidateAnswer := answers !! Question._id question in
  if JS.truthyOpt candidateAnswer then
    let given := default "" candidateAnswer in
    let isCorrect := isCorrectAnswer question given in
    ((if isCorrect then score + 1 else score)%nat,
     (formattedAnswers ++ [Answer.mk (Question._id question) given isCorrect])%list)
  else
    (score, (formattedAnswers ++ [Answer.mk (Question._id question) "" false])%list).

Definition gradeQuiz (answers : gmap string string) (correctAnswers : list Question.t)
  : nat * list Answer.t :=
  fold_left (gradeQuestion answers) correctAnswers (0%nat, []).

(** [(score / totalQuestions) * 100] *)
Definition percentageScore (score totalQuestions : nat) : float :=
  PrimFloat.mul (PrimFloat.div (Num.ofNat score) (Num.ofNat totalQuestions)) Num.hundred.

(** POST /api/candidate/submit-quiz/:assignmentId, received at [now],
    when no other request runs between its reads and its save. *)
Definition submitQuiz (now : Z) (user : AuthUser) (assignmentId : ObjectId)
    (body : SubmitBody) : Handler SubmitResponse :=
  let candidateId := uid user in
  (* 1. the assignment and the full quiz *)
  found ← query (fun db => Coll.findById assignmentId (assignments db));
  assignment ← orFail found 404 "Assignment not found";
  quiz ← query (fun db => Coll.findById (Assignment.quizId assignment) (quizzes db));
  (* 2. enrolled? *)
  classData ← query (fun db =>
    Coll.findOne (fun i c => (i =? Assignment.classId assignment)
                             && JS.includes candidateId (Class.students c)) (classes db));
  '(_, classData) ← orFail classData 403 "You are not enrolled in this class";
  (* 3. already submitted? *)
  let existingSubmission :=
    List.find (fun sub => Submission.candidateId sub =? candidateId)
      (Assignment.submissions assignment) in
  rejectIf (bool_decide (is_Some existingSubmission)) 400
    "You have already submitted this quiz";;
  (* 3.5. past due and late submissions not allowed? *)
  let isPastDue := (Assignment.dueDate assignment <? now)%Z in
  let isLateSubmission := isPastDue in
  rejectIf (isPastDue && negb (JS.truthyBool (Class.allowLateSubmissions classData))) 403
    "This assignment is past due and late submissions are not allowed";;
  (* 4. grading; a missing quiz, or missing answers with a question to
     look up, throws: the catch block answers 500 *)
  quiz ← orFail quiz 500 "Server error";
  let correctAnswers := Quiz.questions quiz in
  let totalQuestions := length correctAnswers in
  rejectIf (negb (bool_decide (is_Some (answers body)))
            && negb (totalQuestions =? 0)%nat) 500 "Server error";;
  let '(score, formattedAnswers) := gradeQuiz (default ∅ (answers body)) correctAnswers in
  let percentageScore := percentageScore score totalQuestions in
  (* 5. the submission record *)
  let submission :=
    {| Mongoose.candidateId := candidateId;
       Mongoose.score := percentageScore;
       Mongoose.submittedAt := now;
       Mongoose.isLateSubmission := isLateSubmission;
       Mongoose.tabSwitchCount := default 0%Z (tabSwitchCount body);
       Mongoose.escCount := default 0%Z (escCount body);
       Mongoose.wasFullscreen := default false (wasFullscreen body);
       Mongoose.answers := formattedAnswers;
       Mongoose.proctoringData := proctoringData body |} in
  (* 6. push and save *)
  let stored := Mongoose.castSubmission submission in
  rejectIf (negb (Mongoose.validSubmission stored)) 500 "Server error";;
  update (withAssignments (Coll.save assignmentId
    (Assignment.setSubmissions (Assignment.submissions assignment ++ [stored])%list
       assignment)));;
  (* 7, 8. the response *)
  let showScore := Class.showResults classData in
  mret {| sr_message := if isLateSubmission then "Late submission recorded successfully!"
                        else "Quiz submitted successfully!";
          sr_score := if JS.truthyBool showScore then Some percentageScore else None;
          sr_totalQuestions := if JS.truthyBool showScore then Some totalQuestions else None;
          sr_correctCount := if JS.truthyBool showScore then Some score else None;
          sr_showResults := showScore;
          sr_isLateSubmission := isLateSubmission |}.

(** *** submitQuiz on the event loop

    The handler awaits the read of the assignment, the read of the
    class and the save; between two awaits the server runs other
    requests.  [submitQuizRead] is the handler up to the save: the
    checks, the grading and the validation, all on the documents it has
    read.  [submitQuizSave] is [assignment.save()] after
    [assignment.submissions.push(submission)]: the push is sent as an
    update of the stored array, which appends to whatever the array
    holds by then; nothing compares it with the array that was read,
    and the schema has no unique index on the candidate. *)
Definition submitQuizRead (now : Z) (user : AuthUser) (assignmentId : ObjectId)
    (body : SubmitBody) : Handler (Submission.t * SubmitResponse) :=
  let candidateId := uid user in
  found ← query (fun db => Coll.findById assignmentId (assignments db));
  assignment ← orFail found 404 "Assignment not found";
  quiz ← query (fun db => Coll.findById (Assignment.quizId assignment) (quizzes db));
  classData ← query (fun db =>
    Coll.findOne (fun i c => (i =? Assignment.classId assignment)
                             && JS.includes candidateId (Class.students c)) (classes db));
  '(_, classData) ← orFail classData 403 "You are not enrolled in this class";
  let existingSubmission :=
    List.find (fun sub => Submission.candidateId sub =? candidateId)
      (Assignment.submissions assignment) in
  rejectIf (bool_decide (is_Some existingSubmission)) 400
    "You have already submitted this quiz";;
  let isPastDue := (Assignment.dueDate assignment <? now)%Z in
  let isLateSubmission := isPastDue in
  rejectIf (isPastDue && negb (JS.truthyBool (Class.allowLateSubmissions classData))) 403
    "This assignment is past due and late submissions are not allowed";;
  quiz ← orFail quiz 500 "Server error";
  let correctAnswers := Quiz.questions quiz in
  let totalQuestions := length correctAnswers in
  rejectIf (negb (bool_decide (is_Some (answers body)))
            && negb (totalQuestions =? 0)%nat) 500 "Server error";;
  let '(score, formattedAnswers) := gradeQuiz (default ∅ (answers body)) correctAnswers in
  let percentageScore := percentageScore score totalQuestions in
  let submission :=
    {| Mongoose.candidateId := candidateId;
       Mongoose.score := percentageScore;
       Mongoose.submittedAt := now;
       Mongoose.isLateSubmission := isLateSubmission;
       Mongoose.tabSwitchCount := default 0%Z (tabSwitchCount body);
       Mongoose.escCount := default 0%Z (escCount body);
       Mongoose.wasFullscreen := default false (wasFullscreen body);
       Mongoose.answers := formattedAnswers;
       Mongoose.proctoringData := proctoringData body |} in
  let stored := Mongoose.castSubmission submission in
  rejectIf (negb (Mongoose.validSubmission stored)) 500 "Server error";;
  let showScore := Class.showResults classData in
  mret (stored,
        {| sr_message := if isLateSubmission then "Late submission recorded successfully!"
                         else "Quiz submitted successfully!";
           sr_score := if JS.truthyBool showScore then Some percentageScore else None;
           sr_totalQuestions := if JS.truthyBool showScore then Some totalQuestions else None;
           sr_correctCount := if JS.truthyBool showScore then Some score else None;
           sr_showResults := showScore;
           sr_isLateSubmission := isLateSubmission |}).

(** The save of what [submitQuizRead] prepared, and the response. An
    assignment deleted in the meantime makes the save throw. *)
Definition submitQuizSave (assignmentId : ObjectId)
    (prepared : Result (Submission.t * SubmitResponse)) : Handler SubmitResponse :=
  fun db =>
    match prepared with
    | Fail status message => (Fail status message, db)
    | Ok (stored, response) =>
        match Coll.findById assignmentId (assignments db) with
        | Some current =>
            (Ok response,
             withAssignments
               (Coll.save assignmentId
                  (Assignment.setSubmissions
                     (Assignment.submissions current ++ [stored])%list current)) db)
        | None => (Fail 500 "Server error", db)
        end
    end.

(** *** getCandidateAssignments *)

(** [.sort({ dueDate: 1 })]: earliest first. *)
Fixpoint insertByDueDate (p : ObjectId * Assignment.t) (l : list (ObjectId * Assignment.t))
  : list (ObjectId * Assignment.t) :=
  match l with
  | [] => [p]
  | q :: r =>
      if (Assignment.dueDate (snd p) <=? Assignment.dueDate (snd q))%Z
      then p :: q :: r
      else q :: insertByDueDate p r
  end.

Definition sortByDueDate (l : list (ObjectId * Assignment.t)) : list (ObjectId * Assignment.t) :=
  foldr insertByDueDate [] l.

Module GetCandidateAssignments.

(** The helper of this handler: the number is upper-cased, then
    trimmed, before the patterns are tried. *)
Definition extractBranch (registrationNumber : string) : option string :=
  if negb (JS.truthy registrationNumber) then None
  else Regex.firstBranch (JS.trim (JS.toUpperCase registrationNumber)).

(** The callback of [assignments.filter]. *)
Definition eligible (candidateBranch : option string) (assignment : Assignment.t) : bool :=
  if negb (JS.truthy (Assignment.subgroup assignment)) then true
  else if negb (JS.truthyOpt candidateBranch) then false
  else
    let branch := default "" candidateBranch in
    let subgroup := JS.toUpperCase (Assignment.subgroup assignment) in
    if JS.includesChar "," subgroup then
      let allowedBranches := List.map JS.trim (JS.split "," subgroup) in
      JS.includes (JS.toUpperCase branch) allowedBranches
    else JS.toUpperCase branch =? subgroup.

(** An element of the response: the assignment and the candidate's
    submission status. A stored submission has no [isLateSubmission]
    path, so the field read from it is [undefined] ([None]). *)
Record AssignmentWithStatus := {
  assignmentId : ObjectId;
  assignment : Assignment.t;
  hasSubmitted : bool;
  submissionScore : option float;
  submittedAt : option Z;
  isLateSubmission : option bool;
  allowLateSubmissions : option bool
}.

Definition withStatus (candidateId : ObjectId) (classData : Class.t)
    (p : ObjectId * Assignment.t) : AssignmentWithStatus :=
  let candidateSubmission :=
    List.find (fun sub => Submission.candidateId sub =? candidateId)
      (Assignment.submissions (snd p)) in
  let showScore := JS.truthyBool (Class.showResults classData)
                   && bool_decide (is_Some candidateSubmission) in
  {| assignmentId := fst p;
     assignment := snd p;
     hasSubmitted := bool_decide (is_Some candidateSubmission);
     submissionScore := if showScore then Submission.score <$> candidateSubmission
                        else None;
     submittedAt := Submission.submittedAt <$> candidateSubmission;
     isLateSubmission := match candidateSubmission with
                         | Some _ => None
                         | None => Some false
                         end;
     allowLateSubmissions := Class.allowLateSubmissions classData |}.

(** [candidate?.registrationNumber || ''] *)
Definition registrationOf (candidate : option User.t) : string :=
  match candidate with
  | Some u => default "" (User.registrationNumber u)
  | None => ""
  end.

(** GET /api/candidate/assignments/:classId *)
Definition getCandidateAssignments (user : AuthUser) (classId : ObjectId)
  : Handler (list AssignmentWithStatus) :=
  let candidateId := uid user in
  rejectIf (negb (urole user =? "candidate")) 403 "Only candidates can view assignments";;
  classData ← query (fun db =>
    Coll.findOne (fun i c => (i =? classId) && JS.includes candidateId (Class.students c))
      (classes db));
  '(_, classData) ← orFail classData 404 "Class not found or you are not enrolled";
  assignments ← query (fun db =>
    sortByDueDate (Coll.find (fun _ a => Assignment.classId a =? classId) (assignments db)));
  candidate ← query (fun db => Coll.findById candidateId (users db));
  let candidateReg := registrationOf candidate in
  let candidateBranch := extractBranch candidateReg in
  let filteredAssignments :=
    List.filter (fun p => eligible candidateBranch (snd p)) assignments in
  mret (List.map (withStatus candidateId classData) filteredAssignments).

End GetCandidateAssignments.

(** *** getSingleAssignment *)

(** A plain JavaScript value of a question object. *)
Inductive JsVal :=
| JStr (s : string)
| JArr (l : list string).

(** [q.toObject()]: the question as a plain object. *)
Definition toObject (q : Question.t) : gmap string JsVal :=
  <["_id" := JStr (Question._id q)]>
    (<["type" := JStr (Question.type q)]>
       (<["text" := JStr (Question.text q)]>
          (<["options" := JArr (Question.options q)]>
             (<["answer" := JStr (Question.answer q)]> ∅)))).

(** [const { answer, ...questionWithoutAnswer } = q] *)
Definition withoutAnswer (q : gmap string JsVal) : gmap string JsVal :=
  delete "answer" q.

(** [[array[i], array[j]] = [array[j], array[i]]] *)
Definition swap {A} (i j : nat) (array : list A) : list A :=
  match array !! i, array !! j with
  | Some ai, Some aj => <[j := ai]> (<[i := aj]> array)
  | _, _ => array
  end.

(** The loop of [shuffle], from index [i] down to 1. [random i] stands
    for the draw of [Math.random()] in the turn of index [i];
    [Math.floor(Math.random() * (i + 1))] lies between 0 and [i]. *)
Fixpoint shuffleFrom {A} (random : nat -> nat) (i : nat) (array : list A) : list A :=
  match i with
  | 0%nat => array
  | S i' => shuffleFrom random i' (swap i (random i mod (i + 1)) array)
  end.

Definition shuffle {A} (random : nat -> nat) (array : list A) : list A :=
  shuffleFrom random (length array - 1) array.

Module GetSingleAssignment.

(** The helper of this handler: the number is trimmed only. The last
    pattern has no group here and its whole match is returned, which
    is the same text. *)
Definition extractBranch (registrationNumber : string) : option string :=
  if negb (JS.truthy registrationNumber) then None
  else Regex.firstBranch (JS.trim registrationNumber).

(** The subgroup restriction: [false] where the handler answers 403
    "subgroup mismatch". *)
Definition subgroupAllows (candidate : option User.t) (assignment : Assignment.t) : bool :=
  if negb (JS.truthy (Assignment.subgroup assignment)) then true
  else
    match candidate with
    | None => false
    | Some c =>
        if negb (JS.truthyOpt (User.registrationNumber c)) then false
        else
          let candidateBranch := extractBranch (default "" (User.registrationNumber c)) in
          if negb (JS.truthyOpt candidateBranch) then false
          else
            let branch := default "" candidateBranch in
            let subgroup := JS.toUpperCase (JS.trim (Assignment.subgroup assignment)) in
            if JS.includesChar "," subgroup then
              let allowedBranches := List.map JS.trim (JS.split "," subgroup) in
              JS.includes (JS.toUpperCase branch) allowedBranches
            else JS.toUpperCase branch =? subgroup
    end.

Record Payload := {
  assignmentId : ObjectId;
  classId : ObjectId;
  className : string;
  title : string;
  timeLimit : Z;
  dueDate : Z;
  questions : list (gmap string JsVal);
  hasSubmitted : bool;
  submissionScore : option float;
  isPastDue : bool;
  allowLateSubmissions : option bool
}.

(** GET /api/candidate/assignment/:assignmentId, received at [now]. *)
Definition getSingleAssignment (now : Z) (random : nat -> nat) (user : AuthUser)
    (assignmentId : ObjectId) : Handler Payload :=
  let candidateId := uid user in
  rejectIf (negb (urole user =? "candidate")) 403 "Only candidates can take quizzes";;
  found ← query (fun db => Coll.findById assignmentId (assignments db));
  assignment ← orFail found 404 "Assignment not found";
  (* populate('classId', 'title'): reading [_id] of a missing class throws *)
  populatedClass ← query (fun db => Coll.findById (Assignment.classId assignment) (classes db));
  populatedClass ← orFail populatedClass 500 "Failed to fetch assignment";
  classData ← query (fun db =>
    Coll.findOne (fun i c => (i =? Assignment.classId assignment)
                             && JS.includes candidateId (Class.students c)) (classes db));
  _ ← orFail classData 403 "You are not enrolled in the class for this assignment";
  candidate ← query (fun db => Coll.findById candidateId (users db));
  rejectIf (negb (subgroupAllows candidate assignment)) 403
    "You are not authorized to access this quiz (subgroup mismatch)";;
  (* SECURITY: remove answers before sending to frontend *)
  quiz ← query (fun db => Coll.findById (Assignment.quizId assignment) (quizzes db));
  quizData ← orFail quiz 500 "Failed to fetch assignment";
  let shuffledQuestions := shuffle random (Quiz.questions quizData) in
  let questionsForCandidate :=
    List.map (fun q => withoutAnswer (toObject q)) shuffledQuestions in
  let existingSubmission :=
    List.find (fun sub => Submission.candidateId sub =? candidateId)
      (Assignment.submissions assignment) in
  mret {| assignmentId := assignmentId;
          classId := Assignment.classId assignment;
          className := Class.title populatedClass;
          title := Quiz.title quizData;
          timeLimit := Assignment.timeLimit assignment;
          dueDate := Assignment.dueDate assignment;
          questions := questionsForCandidate;
          hasSubmitted := bool_decide (is_Some existingSubmission);
          submissionScore := Submission.score <$> existingSubmission;
          isPastDue := (Assignment.dueDate assignment <? now)%Z;
          allowLateSubmissions := Class.allowLateSubmissions populatedClass |}.

End GetSingleAssignment.

(** *** getClassResults *)

(** The weightage-to-marks conversion: the ['percentage'] branch and
    the ['marks'] branch. *)
Definition marksObtained {N} `{Num.Arith N} (weightageType : string)
    (quizPerformancePercentage weightage : N) : N :=
  if weightageType =? "percentage"
  then Num.over (Num.times quizPerformancePercentage weightage) Num.oneHundred
  else Num.times (Num.over quizPerformancePercentage Num.oneHundred) weightage.

Record ResultRow := {
  rr_assignmentId : ObjectId;
  rr_quizTitle : string;
  rr_candidateId : ObjectId;
  rr_totalQuestions : nat;
  rr_score : float;               (* correctAnswersCount *)
  rr_percentage : float;
  rr_marksObtained : float;
  rr_weightage : float;
  rr_weightageType : string;
  rr_submittedAt : Z
}.

(** The body of [assignment.submissions.forEach]: a row, or nothing for
    a candidate who is not enrolled in the class. *)
Definition resultRow (classData : Class.t) (assignmentId : ObjectId)
    (quiz : option Quiz.t) (weightage : float) (weightageType : string)
    (submission : Submission.t) : list ResultRow :=
  let candidateId := Submission.candidateId submission in
  if negb (existsb (fun studentId => studentId =? candidateId) (Class.students classData))
  then []
  else
    let totalQuestions := match quiz with Some q => length (Quiz.questions q) | None => 0%nat end in
    let quizPerformancePercentage := Num.orZero (Submission.score submission) in
    let marks := marksObtained weightageType quizPerformancePercentage weightage in
    let correctAnswersCount :=
      Num.round (PrimFloat.mul (PrimFloat.div quizPerformancePercentage Num.hundred)
                   (Num.ofNat totalQuestions)) in
    [ {| rr_assignmentId := assignmentId;
         rr_quizTitle := match quiz with
                         | Some q => if JS.truthy (Quiz.title q) then Quiz.title q
                                     else "Unknown Quiz"
                         | None => "Unknown Quiz"
                         end;
         rr_candidateId := candidateId;
         rr_totalQuestions := totalQuestions;
         rr_score := correctAnswersCount;
         rr_percentage := quizPerformancePercentage;
         rr_marksObtained := marks;
         rr_weightage := weightage;
         rr_weightageType := weightageType;
         rr_submittedAt := Submission.submittedAt submission |} ].

(** The body of [submissions.forEach]: [assignmentData] is the entry of
    the first query with the same id, and gives the current weightage. *)
Definition resultRows (classData : Class.t) (allQuizzes : Coll.t Quiz.t)
    (assignments : list (ObjectId * Assignment.t)) (p : ObjectId * Assignment.t)
  : list ResultRow :=
  let assignmentData := List.find (fun a => fst a =? fst p) assignments in
  let quiz := match assignmentData with
              | Some a => Coll.findById (Assignment.quizId (snd a)) allQuizzes
              | None => None
              end in
  let weightage := match assignmentData with
                   | Some a => Num.orZero (Assignment.weightage (snd a))
                   | None => PrimFloat.zero
                   end in
  let weightageType := match assignmentData with
                       | Some a => if JS.truthy (Assignment.weightageType (snd a))
                                   then Assignment.weightageType (snd a)
                                   else "percentage"
                       | None => "percentage"
                       end in
  flat_map (resultRow classData (fst p) quiz weightage weightageType)
    (Assignment.submissions (snd p)).

(** GET /api/assignments/class/:classId/results *)
Definition getClassResults (user : AuthUser) (classId : ObjectId)
  : Handler (list ResultRow) :=
  classData ← query (fun db =>
    Coll.findOne (fun i c => (i =? classId) && (Class.adminId c =? uid user)) (classes db));
  '(_, classData) ← orFail classData 404 "Class not found or you are not authorized";
  assignments ← query (fun db =>
    Coll.find (fun _ a => Assignment.classId a =? classId) (assignments db));
  allQuizzes ← query quizzes;
  (* the assignments among them with a first submission *)
  let submissions :=
    List.filter (fun p => negb (bool_decide (Assignment.submissions (snd p) = [])%list))
      assignments in
  (* populate('submissions.candidateId'): a candidate whose user document is
     gone is populated as null, and [candidateId.toString()] throws in the
     callback of [students.some], which runs when the class has a student *)
  allUsers ← query users;
  rejectIf ((0 <? length (Class.students classData))%nat
            && existsb (fun p =>
                 existsb (fun sub =>
                            negb (bool_decide
                                    (is_Some (Coll.findById (Submission.candidateId sub)
                                                allUsers))))
                   (Assignment.submissions (snd p))) submissions) 500 "Server error";;
  mret (flat_map (resultRows classData allQuizzes assignments) submissions).

End AssignmentController.

(** ** utils/quizSubmissionConsumer.js

    The consumer's world: the application's database and the console.
    [JSON.parse] is a parameter; it fails on a malformed message. *)

Module QuizSubmissionConsumer.

Record World := { db : DB; console : list string }.

Record Message := { topic : string; partition : nat; value : string }.

Section Consumer.
Variable Json : Type.
Variable JSON_parse : string -> option Json.
Variable show : Json -> string.

(** [eachMessage]: parse the message and log it. [None] is the
    exception [JSON.parse] throws. *)
Definition eachMessage (m : Message) (w : World) : option unit * World :=
  match JSON_parse (value m) with
  | None => (None, w)
  | Some submission =>
      (Some tt,
       {| db := db w;
          console := (console w
                      ++ [("Kafka: Received quiz submission: " ++ show submission)%string])%list |})
  end.

(** [consumer.run] over the messages delivered, in order: the
    handler sees those of the subscribed topic. What the client
    library does after a handler throws (retry, restart) is not in
    the file; here the next message is taken. *)
Fixpoint run (subscribed : string) (ms : list Message) (w : World) : World :=
  match ms with
  | [] => w
  | m :: rest =>
      if topic m =? subscribed then run subscribed rest (snd (eachMessage m w))
      else run subscribed rest w
  end.

Definition startQuizSubmissionConsumer (ms : list Message) (w : World) : World :=
  run "quiz-submissions" ms w.
End Consumer.

End QuizSubmissionConsumer.

(** ** The API as a transition system

    The requests that write to the database, and the three read-only
    handlers of the assignment controller. *)

Inductive Request :=
| CreateClass (user : AuthUser) (newId : ObjectId) (suffix title courseCode : string)
    (description : option string)
| UpdateClass (user : AuthUser) (id : ObjectId) (body : ClassController.UpdateClassBody)
| DeleteClass (user : AuthUser) (id : ObjectId)
| JoinClass (user : AuthUser) (inviteCode : option Query.value)
| RemoveStudentFromClass (user : AuthUser) (id : ObjectId) (studentId : option string)
| CreateAssignment (user : AuthUser) (newId : ObjectId)
    (body : AssignmentController.CreateAssignmentBody)
| UpdateAssignment (user : AuthUser) (id : ObjectId)
    (body : AssignmentController.UpdateAssignmentBody)
| DeleteAssignment (user : AuthUser) (id : ObjectId)
| SubmitQuiz (now : Z) (user : AuthUser) (assignmentId : ObjectId)
    (body : AssignmentController.SubmitBody)
| GetCandidateAssignments (user : AuthUser) (classId : ObjectId)
| GetSingleAssignment (now : Z) (random : nat -> nat) (user : AuthUser)
    (assignmentId : ObjectId)
| GetClassResults (user : AuthUser) (classId : ObjectId).

(** The database after a request. *)
Definition serve (db : DB) (r : Request) : DB :=
  match r with
  | CreateClass u i sfx t cc d => snd (ClassController.createClass u i sfx t cc d db)
  | UpdateClass u i b => snd (ClassController.updateClass u i b db)
  | DeleteClass u i => snd (ClassController.deleteClass u i db)
  | JoinClass u c => snd (ClassController.joinClass u c db)
  | RemoveStudentFromClass u i s => snd (ClassController.removeStudentFromClass u i s db)
  | CreateAssignment u i b => snd (AssignmentController.createAssignment u i b db)
  | UpdateAssignment u i b => snd (AssignmentController.updateAssignment u i b db)
  | DeleteAssignment u i => snd (AssignmentController.deleteAssignment u i db)
  | SubmitQuiz n u i b => snd (AssignmentController.submitQuiz n u i b db)
  | GetCandidateAssignments u c =>
      snd (AssignmentController.GetCandidateAssignments.getCandidateAssignments u c db)
  | GetSingleAssignment n r u i =>
      snd (AssignmentController.GetSingleAssignment.getSingleAssignment n r u i db)
  | GetClassResults u c => snd (AssignmentController.getClassResults u c db)
  end.

(** The databases the API reaches from [init]. *)
Inductive reachable (init : DB) : DB -> Prop :=
| reach_init : reachable init init
| reach_serve db r : reachable init db -> reachable init (serve db r).

(** At most one submission per candidate, in every assignment. *)
Definition oneSubmissionPerCandidate (a : Assignment.t) : Prop :=
  NoDup (List.map Submission.candidateId (Assignment.submissions a)).

Definition submissionsUnique (db : DB) : Prop :=
  Forall (fun p => oneSubmissionPerCandidate (snd p)) (assignments db).

(** ** The specification's reading of grading and eligibility

    These definitions follow the wording of the specification, not the
    code; the properties below compare the handlers with them. *)

Module GradingSpec.

(** The candidate's answer to a question: none when the request has no
    answer for it, or an empty one. *)
Definition answerTo (answers : gmap string string) (q : Question.t) : option string :=
  match answers !! Question._id q with
  | Some a => if decide (a = "") then None else Some a
  | None => None
  end.

(** A short answer is correct when it equals the reference answer
    after trimming and lower-casing both; an answer to any other type
    of question when it is exactly the reference answer. *)
Definition correct (q : Question.t) (a : string) : Prop :=
  if decide (Question.type q = "short_answer")
  then JS.toLowerCase (JS.trim a) = JS.toLowerCase (JS.trim (Question.answer q))
  else a = Question.answer q.

#[global] Instance correct_dec q a : Decision (correct q a).
Proof. unfold correct. destruct (decide _); apply _. Defined.

Definition answeredCorrectly (answers : gmap string string) (q : Question.t) : Prop :=
  match answerTo answers q with
  | Some a => correct q a
  | None => False
  end.

#[global] Instance answeredCorrectly_dec answers q : Decision (answeredCorrectly answers q).
Proof. unfold answeredCorrectly. destruct (answerTo answers q); apply _. Defined.

(** The number of correctly answered questions. *)
Definition correctCount (answers : gmap string string) (qs : list Question.t) : nat :=
  length (filter (answeredCorrectly answers) qs).

(** The record of a question: the answer given and whether it is
    correct; a question without an answer is recorded as incorrect
    with an empty [selectedAnswer]. *)
Definition expectedRecord (answers : gmap string string) (q : Question.t) : Answer.t :=
  match answerTo answers q with
  | Some a => Answer.mk (Question._id q) a (bool_decide (correct q a))
  | None => Answer.mk (Question._id q) "" false
  end.

End GradingSpec.

Module EligibilitySpec.

(** An assignment is shown to a candidate of branch [branch] when its
    subgroup is empty; or, the subgroup containing a comma, when the
    upper-cased branch is one of the comma-separated, trimmed entries
    of the upper-cased subgroup; or, otherwise, when the upper-cased
    branch is the upper-cased subgroup. Without a branch only the
    unrestricted assignments are shown. *)
Definition eligible (branch : option string) (subgroup : string) : Prop :=
  subgroup = ""
  \/ exists b, branch = Some b
       /\ if JS.includesChar "," subgroup
          then In (JS.toUpperCase b)
                 (List.map JS.trim (JS.split "," (JS.toUpperCase subgroup)))
          else JS.toUpperCase b = JS.toUpperCase subgroup.

End EligibilitySpec.

(** ** How far the two branches of the conversion are apart

    A check over a grid of stored scores [k / n * 100] and whole
    weightages. *)

Module RoundingCheck.

(** [2 ^ -40], about 9.1e-13 *)
Definition tolerance : float := PrimFloat.div PrimFloat.one (Num.ofZ (2 ^ 40)).

Definition branchesClose (k n w : nat) : bool :=
  let p := AssignmentController.percentageScore k n in
  PrimFloat.leb
    (PrimFloat.abs
       (PrimFloat.sub (AssignmentController.marksObtained "percentage" p (Num.ofNat w))
          (AssignmentController.marksObtained "marks" p (Num.ofNat w))))
    tolerance.

(** Every quiz of 1 to [maxQuestions] questions, every number of correct
    answers, every weightage from 0 to [maxWeightage]. *)
Definition closeOnGrid (maxQuestions maxWeightage : nat) : bool :=
  forallb (fun n =>
    forallb (fun k => forallb (fun w => branchesClose k n w) (seq 0 (S maxWeightage)))
      (seq 0 (S n)))
    (seq 1 maxQuestions).

End RoundingCheck.

(** ** Sample data

    A class of two candidates with one quiz of five questions, used to
    run the handlers on concrete requests. *)

Module Sample.

Definition admin : AuthUser := {| uid := "admin1"; urole := "admin" |}.
Definition other : AuthUser := {| uid := "admin2"; urole := "admin" |}.
Definition asha : AuthUser := {| uid := "u1"; urole := "candidate" |}.
Definition ravi : AuthUser := {| uid := "u2"; urole := "candidate" |}.

Definition questions : list Question.t :=
  [ Question.mk "q1" "mcq" "2 + 2" ["3"; "4"] "4";
    Question.mk "q2" "short_answer" "Capital of France" [] "Paris";
    Question.mk "q3" "true_false" "The sky is green" ["True"; "False"] "False";
    Question.mk "q4" "mcq" "Largest planet" ["Mars"; "Jupiter"] "Jupiter";
    Question.mk "q5" "short_answer" "H2O is" [] "water" ].

Definition quiz : Quiz.t := Quiz.mk "Quiz A" "admin1" questions.

Definition class : Class.t :=
  Class.mk "Algorithms" "CS1" "" "admin1" ["u1"; "u2"] "CS1-AB12CD" true.

(** Due at time 1000, restricted to branch BCE, worth 6 marks. *)
Definition assignment (subs : list Submission.t) : Assignment.t :=
  Assignment.mk "quizA" "cls1" "admin1" "BCE" [] 1000 30 (Num.ofNat 6) "marks" subs.

(** Ravi's earlier submission: four answers of five correct. *)
Definition raviSubmission : Submission.t :=
  Submission.mk "u2" (AssignmentController.percentageScore 4 5) 900
    [ Answer.mk "q1" "4" true; Answer.mk "q2" "paris" true;
      Answer.mk "q3" "False" true; Answer.mk "q4" "Mars" false;
      Answer.mk "q5" "Water" true ].

(** Asha's earlier submission: three answers of five correct. *)
Definition ashaSubmission : Submission.t :=
  Submission.mk "u1" (AssignmentController.percentageScore 3 5) 800
    [ Answer.mk "q1" "4" true; Answer.mk "q2" "  PARIS " true;
      Answer.mk "q3" "True" false; Answer.mk "q4" "jupiter" false;
      Answer.mk "q5" "water" true ].

Definition database (subs : list Submission.t) : DB :=
  mkDB [("cls1", class)] [("asg1", assignment subs)] [("quizA", quiz)]
       [("u1", User.mk (Some "22bce10100")); ("u2", User.mk (Some "22BCE10101"))].

(** Asha answers every question, three of them correctly. *)
Definition ashaAnswers : gmap string string :=
  <["q1" := "4"]> (<["q2" := "  PARIS "]> (<["q3" := "True"]>
    (<["q4" := "jupiter"]> (<["q5" := "water"]> ∅)))).

(** The request of an owner who switches late submissions on. *)
Definition allowLateBody : ClassController.UpdateClassBody :=
  {| ClassController.title := None;
     ClassController.courseCode := None;
     ClassController.description := None;
     ClassController.semester := None;
     ClassController.academicYear := None;
     ClassController.allowLateSubmissions := Some true;
     ClassController.autoGrading := None;
     ClassController.showResults := None;
     ClassController.showRosterToCandidates := None;
     ClassController.showLeaderboardToCandidates := None |}.

Definition ashaBody (tabs esc : option Z) (full : option bool)
  : AssignmentController.SubmitBody :=
  {| AssignmentController.answers := Some ashaAnswers;
     AssignmentController.tabSwitchCount := tabs;
     AssignmentController.escCount := esc;
     AssignmentController.wasFullscreen := full;
     AssignmentController.proctoringData := None |}.

End Sample.

(** ** Further specifications *)

(** [s] consists of characters of the class [p]. *)
Definition allChars (p : ascii -> bool) (s : string) : bool :=
  forallb p (list_ascii_of_string s).

(** A branch: two to four capital letters. *)
Definition isBranch (b : string) : Prop :=
  (2 <= String.length b <= 4)%nat /\ forallb JS.isUpper (list_ascii_of_string b) = true.

(** An assignment without the submissions of one candidate. *)
Definition withoutCandidate (studentId : ObjectId) (a : Assignment.t) : Assignment.t :=
  Assignment.setSubmissions
    (List.filter (fun sub => negb (Submission.candidateId sub =? studentId))
       (Assignment.submissions a)) a.

(** The number of stored submissions, over all assignments. *)
Definition submissionCount (db : DB) : nat :=
  list_sum (List.map (fun p => length (Assignment.submissions (snd p))) (assignments db)).

(** A handler that answers with an error only before it writes: the
    database after a failed request is the database before it. *)
Definition allOrNothing {A} (h : Handler A) : Prop :=
  forall db db' status message, h db = (Fail status message, db') -> db' = db.

(** ** More sample requests *)

Module Requests.

(** A second assignment of the sample quiz to the sample class, for
    branch BAI, with no weightage named. *)
Definition newAssignment : AssignmentController.CreateAssignmentBody :=
  {| AssignmentController.ca_quizId := "quizA";
     AssignmentController.ca_classId := "cls1";
     AssignmentController.ca_dueDate := Some 2000%Z;
     AssignmentController.ca_timeLimit := 30%Z;
     AssignmentController.ca_weightage := None;
     AssignmentController.ca_weightageType := None;
     AssignmentController.ca_subgroup := Some " BAI ";
     AssignmentController.ca_subclasses := None |}.

(** The sample database with the sample quiz owned by the admin. *)
Definition database : DB := Sample.database [Sample.raviSubmission].

End Requests.

(** ** controllers/assignmentController.js: the reports for the admin *)

Module AssignmentReports.

Record SubmissionsPayload := {
  sp_assignmentId : ObjectId;
  sp_quizTitle : string;
  sp_classTitle : string;
  sp_courseCode : string;
  sp_dueDate : Z;
  sp_timeLimit : Z;
  (* each submission with its populated candidate, [None] when the user
     document is gone *)
  sp_submissions : list (Submission.t * option User.t);
  sp_totalSubmissions : nat
}.

(** GET /api/assignments/:assignmentId/submissions. Reading [title] of
    a quiz or class that [populate] did not find throws: status 500. *)
Definition getAssignmentSubmissions (user : AuthUser) (assignmentId : ObjectId)
  : Handler SubmissionsPayload :=
  rejectIf (negb (urole user =? "admin")) 403
    "Not authorized. Only admins can view submissions.";;
  found ← query (fun db => Coll.findById assignmentId (assignments db));
  assignment ← orFail found 404 "Assignment not found";
  rejectIf (negb (Assignment.adminId assignment =? uid user)) 403
    "You do not own this assignment";;
  quiz ← query (fun db => Coll.findById (Assignment.quizId assignment) (quizzes db));
  quiz ← orFail quiz 500 "Server error";
  classData ← query (fun db => Coll.findById (Assignment.classId assignment) (classes db));
  classData ← orFail classData 500 "Server error";
  allUsers ← query users;
  mret {| sp_assignmentId := assignmentId;
          sp_quizTitle := Quiz.title quiz;
          sp_classTitle := Class.title classData;
          sp_courseCode := Class.courseCode classData;
          sp_dueDate := Assignment.dueDate assignment;
          sp_timeLimit := Assignment.timeLimit assignment;
          sp_submissions :=
            List.map (fun sub => (sub, Coll.findById (Submission.candidateId sub) allUsers))
              (Assignment.submissions assignment);
          sp_totalSubmissions := length (Assignment.submissions assignment) |}.

(** An element of [questionsWithAnswers]. *)
Record QuestionWithAnswer := {
  qa_questionId : ObjectId;
  qa_questionText : string;
  qa_questionType : string;
  qa_options : list string;
  qa_correctAnswer : string;
  qa_candidateAnswer : string;
  qa_isCorrect : bool
}.

(** Step 5: the callback of [questions.map]. *)
Definition questionWithAnswer (submission : Submission.t) (question : Question.t)
  : QuestionWithAnswer :=
  let candidateAnswer :=
    List.find (fun ans => Answer.questionId ans =? Question._id question)
      (Submission.answers submission) in
  {| qa_questionId := Question._id question;
     qa_questionText := Question.text question;
     qa_questionType := Question.type question;
     qa_options := Question.options question;
     qa_correctAnswer := Question.answer question;
     qa_candidateAnswer := match candidateAnswer with
                           | Some a => Answer.selectedAnswer a
                           | None => ""
                           end;
     qa_isCorrect := match candidateAnswer with
                     | Some a => Answer.isCorrect a
                     | None => false
                     end |}.

Record Statistics := {
  st_totalQuestions : nat;
  st_correctAnswers : nat;
  st_incorrectAnswers : nat;
  st_percentage : float
}.

(** Steps 5 to 7: the breakdown, the counts and the final score. *)
Definition report (quiz : Quiz.t) (submission : Submission.t)
  : list QuestionWithAnswer * Statistics :=
  let questionsWithAnswers := List.map (questionWithAnswer submission) (Quiz.questions quiz) in
  let totalQuestions := length questionsWithAnswers in
  let correctAnswers := length (List.filter qa_isCorrect questionsWithAnswers) in
  let incorrectAnswers := (totalQuestions - correctAnswers)%nat in
  let recalculatedPercentage :=
    if (0 <? totalQuestions)%nat
    then PrimFloat.mul (PrimFloat.div (Num.ofNat correctAnswers) (Num.ofNat totalQuestions))
           Num.hundred
    else PrimFloat.zero in
  let finalScore :=
    if (0 <? length (Submission.answers submission))%nat then recalculatedPercentage
    else Submission.score submission in
  (questionsWithAnswers,
   {| st_totalQuestions := totalQuestions;
      st_correctAnswers := correctAnswers;
      st_incorrectAnswers := incorrectAnswers;
      st_percentage := finalScore |}).

Record DetailsPayload := {
  dp_submissionId : ObjectId;
  dp_candidateId : ObjectId;
  dp_candidate : User.t;
  dp_quizId : ObjectId;
  dp_quizTitle : string;
  dp_classId : ObjectId;
  dp_classTitle : string;
  dp_courseCode : string;
  dp_score : float;
  dp_submittedAt : Z;
  dp_statistics : Statistics;
  dp_questions : list QuestionWithAnswer
}.

Section SubDocuments.

(** The [_id] Mongoose gave a stored submission; the record of a
    submission does not carry it. *)
Variable idOf : Submission.t -> ObjectId.

(** GET /api/assignments/:assignmentId/submissions/:submissionId.
    [submissions.id(submissionId)] is the first sub-document with that
    id. A quiz, candidate or class that [populate] did not find is
    [null], and reading a field of it throws: status 500. *)
Definition getSubmissionDetails (user : AuthUser) (assignmentId submissionId : ObjectId)
  : Handler DetailsPayload :=
  rejectIf (negb (urole user =? "admin")) 403
    "Not authorized. Only admins can view submission details.";;
  found ← query (fun db => Coll.findById assignmentId (assignments db));
  assignment ← orFail found 404 "Assignment not found";
  rejectIf (negb (Assignment.adminId assignment =? uid user)) 403
    "You do not own this assignment";;
  let submission :=
    List.find (fun sub => idOf sub =? submissionId) (Assignment.submissions assignment) in
  submission ← orFail submission 404 "Submission not found";
  quiz ← query (fun db => Coll.findById (Assignment.quizId assignment) (quizzes db));
  quiz ← orFail quiz 500 "Server error";
  let '(questionsWithAnswers, statistics) := report quiz submission in
  candidate ← query (fun db => Coll.findById (Submission.candidateId submission) (users db));
  candidate ← orFail candidate 500 "Server error";
  classData ← query (fun db => Coll.findById (Assignment.classId assignment) (classes db));
  classData ← orFail classData 500 "Server error";
  mret {| dp_submissionId := idOf submission;
          dp_candidateId := Submission.candidateId submission;
          dp_candidate := candidate;
          dp_quizId := Assignment.quizId assignment;
          dp_quizTitle := Quiz.title quiz;
          dp_classId := Assignment.classId assignment;
          dp_classTitle := Class.title classData;
          dp_courseCode := Class.courseCode classData;
          dp_score := st_percentage statistics;
          dp_submittedAt := Submission.submittedAt submission;
          dp_statistics := statistics;
          dp_questions := questionsWithAnswers |}.

End SubDocuments.

End AssignmentReports.

(** The submission [submitQuiz] stores for a candidate who sent
    [answers] at [now] (see [submitQuiz_accepted]). *)
Definition gradedSubmission (candidateId : ObjectId) (now : Z) (answers : gmap string string)
    (quiz : Quiz.t) : Submission.t :=
  Submission.mk candidateId
    (AssignmentController.percentageScore
       (GradingSpec.correctCount answers (Quiz.questions quiz))
       (length (Quiz.questions quiz)))
    now (List.map (GradingSpec.expectedRecord answers) (Quiz.questions quiz)).


(** ** routes/classRoutes.js: the handler written in the router *)

Module ClassRoutes.

(** PATCH /api/classes/:id/regenerate-invite. [suffix] is the six
    random characters; the unique index on [inviteCode] refuses the
    save when another class already carries the new code, and the
    handler answers 500. *)
Definition regenerateInvite (user : AuthUser) (id : ObjectId) (suffix : string)
  : Handler string :=
  found ← query (fun db => Coll.findById id (classes db));
  classData ← orFail found 404 "Class not found";
  rejectIf (negb (Class.adminId classData =? uid user)) 403
    "Not authorized to modify this class";;
  let newInviteCode := (JS.toUpperCase (Class.courseCode classData) ++ "-" ++ suffix)%string in
  taken ← query (fun db =>
    Coll.findOne (fun i c => negb (i =? id) && (Class.inviteCode c =? newInviteCode))
      (classes db));
  rejectIf (bool_decide (is_Some taken)) 500 "Server error";;
  let classData' :=
    Class.mk (Class.title classData) (Class.courseCode classData)
      (Class.description classData) (Class.adminId classData) (Class.students classData)
      newInviteCode (Class.isActive classData) in
  update (withClasses (Coll.save id classData'));;
  mret newInviteCode.

End ClassRoutes.

(** The unique index on [inviteCode]: no two classes carry the same
    code. *)
Definition uniqueInviteCodes (db : DB) : Prop :=
  List.NoDup (List.map (fun p => Class.inviteCode (snd p)) (classes db)).

(** ** controllers/candidateController.js: the rows of an uploaded sheet *)

Module CandidateController.

(** [re.test(str)] *)
Definition test (re : Regex.regex) (str : string) : bool :=
  let s := list_ascii_of_string str in
  let m := if Regex.anchoredStart re
           then Regex.matchItems (Regex.anchoredEnd re) (Regex.items re) s
           else Regex.searchItems (Regex.anchoredEnd re) (Regex.items re) s in
  match m with Some _ => true | None => false end.

(** [[^\s@]]: neither white space nor the at sign. *)
Definition isAddressChar (c : ascii) : bool := negb (JS.isSpace c) && negb (Ascii.eqb c "@").

(** One literal character. *)
Definition literal (c : ascii) : Regex.item := Regex.Item (Ascii.eqb c) 1 (Some 1%nat) false.

(** [/^[^\s@]+@[^\s@]+\.[^\s@]+$/] *)
Definition emailRegex : Regex.regex :=
  Regex.Regex true true
    [ Regex.Item isAddressChar 1 None false; literal "@";
      Regex.Item isAddressChar 1 None false; literal ".";
      Regex.Item isAddressChar 1 None false ].

(** A cell as [XLSX.utils.sheet_to_json] gives it: text, a number or
    a boolean, by the type the cell has in the sheet. *)
Inductive Cell :=
| Text (s : string)
| Number (x : float)
| Boolean (b : bool).

(** A row: the cells by column header; an empty cell has no key. *)
Definition Row := gmap string Cell.

(** Truthiness of a cell: [''], [0], [NaN] and [false] are falsy. *)
Definition truthyCell (c : Cell) : bool :=
  match c with
  | Text s => JS.truthy s
  | Number x => negb (PrimFloat.eqb x PrimFloat.zero || PrimFloat.is_nan x)
  | Boolean b => b
  end.

(** [a || b], where [a] may be [undefined] *)
Definition orElse (a : option Cell) (b : Cell) : Cell :=
  match a with
  | Some c => if truthyCell c then c else b
  | None => b
  end.

(** [row.name || row.Name || row.NAME || row['Full Name'] || row.fullName || ''] *)
Definition nameOf (row : Row) : Cell :=
  orElse (row !! "name") (orElse (row !! "Name") (orElse (row !! "NAME")
    (orElse (row !! "Full Name") (orElse (row !! "fullName") (Text ""))))).

(** [(row.email || row.Email || row.EMAIL || '').toLowerCase().trim()]:
    a number or a boolean has no [toLowerCase], and the call throws
    ([None]). *)
Definition emailOf (row : Row) : option string :=
  match orElse (row !! "email") (orElse (row !! "Email") (orElse (row !! "EMAIL") (Text ""))) with
  | Text s => Some (JS.trim (JS.toLowerCase s))
  | Number _ | Boolean _ => None
  end.

(** The columns the parser reads hold ASCII where they hold text. *)
Definition asciiRow (row : Row) : bool :=
  forallb (fun key => match row !! key with
                      | Some (Text s) => JS.isAscii s
                      | _ => true
                      end)
    ["name"; "Name"; "NAME"; "Full Name"; "fullName"; "email"; "Email"; "EMAIL"].

(** A candidate of the preview: the name is the cell as it is. *)
Record Candidate := { name : Cell; email : string }.

(** An entry of [errors]: [data] is the row, for a missing field, and
    [address] the email, for a malformed one. *)
Record RowError := {
  row : nat;
  reason : string;
  data : option Row;
  address : option string
}.

(** One turn of the loop over the rows, at index [i]; [None] when the
    turn throws. *)
Definition parseRow (i : nat) (r : Row) (acc : list Candidate * list RowError)
  : option (list Candidate * list RowError) :=
  let '(candidates, errors) := acc in
  let name := nameOf r in
  match emailOf r with
  | None => None
  | Some email =>
      Some
        (if negb (truthyCell name) || negb (JS.truthy email) then
           (candidates,
            (errors ++ [{| row := i + 2; reason := "Missing name or email";
                           data := Some r; address := None |}])%list)
         else if negb (test emailRegex email) then
           (candidates,
            (errors ++ [{| row := i + 2; reason := "Invalid email format";
                           data := None; address := Some email |}])%list)
         else ((candidates ++ [{| name := name; email := email |}])%list, errors))
  end.

(** [for (let i = 0; i < data.length; i++)], from index [i] on. *)
Fixpoint parseFrom (i : nat) (rows : list Row) (acc : list Candidate * list RowError)
  : option (list Candidate * list RowError) :=
  match rows with
  | [] => Some acc
  | r :: rest =>
      match parseRow i r acc with
      | Some acc' => parseFrom (S i) rest acc'
      | None => None
      end
  end.

Definition parseRows (rows : list Row) : option (list Candidate * list RowError) :=
  parseFrom 0 rows ([], []).

Record Preview := {
  candidates : list Candidate;
  errors : option (list RowError);       (* [undefined] when there is none *)
  message : string
}.

Definition decimal (n : nat) : string := NilEmpty.string_of_uint (Nat.to_uint n).

(** POST /api/candidate/parse-file. [file] is what reading the first
    sheet of the uploaded workbook gives, [None] when no file came. An
    exception in the loop is caught at the end of the handler: the
    answer is 500 and nothing of the rows read so far is sent. *)
Definition parseFileForPreview (file : option (list Row)) : Result Preview :=
  match file with
  | None => Fail 400 "No file uploaded"
  | Some [] => Fail 400 "The uploaded file is empty or has no valid data"
  | Some rows =>
      match parseRows rows with
      | None => Fail 500 "Failed to parse file"
      | Some (candidates, errors) =>
          Ok {| candidates := candidates;
                errors := if (0 <? length errors)%nat then Some errors else None;
                message :=
                  if (0 <? length errors)%nat
                  then "Parsed " ++ decimal (length candidates) ++ " valid candidates, "
                       ++ decimal (length errors) ++ " rows had errors"
                  else "Successfully parsed " ++ decimal (length candidates)
                       ++ " candidates" |}
      end
  end.

End CandidateController.

(** What a pattern of repeated character classes accepts: the text is
    cut into one piece per item, each piece within the item's class and
    bounds. *)
Inductive matches (atEnd : bool) : list Regex.item -> list ascii -> Prop :=
| matches_nil (s : list ascii) : (atEnd = true -> s = []) -> matches atEnd [] s
| matches_cons (it : Regex.item) (rest : list Regex.item) (piece s : list ascii) :
    forallb (Regex.cls it) piece = true ->
    (Regex.rmin it <= length piece)%nat ->
    (forall m, Regex.rmax it = Some m -> (length piece <= m)%nat) ->
    matches atEnd rest s ->
    matches atEnd (it :: rest) (piece ++ s).

(** The shape the email pattern asks for: local part, at sign, domain,
    dot, ending; the three parts not empty and free of white space and
    at signs. *)
Definition emailShaped (s : string) : Prop :=
  exists l d t : string,
    s = l ++ "@" ++ d ++ "." ++ t
    /\ l <> "" /\ d <> "" /\ t <> ""
    /\ allChars CandidateController.isAddressChar l = true
    /\ allChars CandidateController.isAddressChar d = true
    /\ allChars CandidateController.isAddressChar t = true.

(** ** features/candidate/pages/TakeQuizPage.jsx: the state of the page *)

Module TakeQuizPage.

(** The part of the component's state the handlers below touch:
    [quiz.questions] by their ids, [currentQuestionIndex], [answers]. *)
Record State := {
  questionIds : list ObjectId;
  currentQuestionIndex : nat;
  answers : gmap string string
}.

(** [questions.forEach(q => { initialAnswers[q._id] = '' })] *)
Definition initialAnswers (ids : list ObjectId) : gmap string string :=
  fold_left (fun acc id => <[id := ""]> acc) ids ∅.

(** The state after the quiz was fetched. *)
Definition load (ids : list ObjectId) : State :=
  {| questionIds := ids; currentQuestionIndex := 0; answers := initialAnswers ids |}.

Inductive Event :=
| AnswerChange (value : string)
| GoToNext
| GoToPrev.

(** [handleAnswerChange], [goToNext], [goToPrev]. Without a question at
    the current index [handleAnswerChange] throws and sets nothing. *)
Definition handle (s : State) (e : Event) : State :=
  match e with
  | AnswerChange value =>
      match nth_error (questionIds s) (currentQuestionIndex s) with
      | Some questionId =>
          {| questionIds := questionIds s;
             currentQuestionIndex := currentQuestionIndex s;
             answers := <[questionId := value]> (answers s) |}
      | None => s
      end
  | GoToNext =>
      if (Z.of_nat (currentQuestionIndex s) <? Z.of_nat (length (questionIds s)) - 1)%Z
      then {| questionIds := questionIds s;
              currentQuestionIndex := currentQuestionIndex s + 1;
              answers := answers s |}
      else s
  | GoToPrev =>
      if (0 <? currentQuestionIndex s)%nat
      then {| questionIds := questionIds s;
              currentQuestionIndex := currentQuestionIndex s - 1;
              answers := answers s |}
      else s
  end.

Definition run (ids : list ObjectId) (events : list Event) : State :=
  fold_left handle events (load ids).

(** [Object.values(answers).filter(a => a !== '').length] *)
Definition answeredCount (s : State) : nat :=
  length (List.filter (fun a => negb (a =? "")) (snd <$> map_to_list (answers s))).

(** [JSON.stringify({ answers: answers })]: the body [handleSubmit]
    posts. [answers] is the state of the render that made the
    [handleSubmit] called. The dialog's button calls that of the current
    render, which sees the current answers. The countdown calls the one
    its effect closed over: the effect runs when [assignmentId] or
    [token] changes, which is taken not to happen once the quiz is
    loaded, so it is the [handleSubmit] of the render that started the
    fetch, and its [answers] is the initial [useState({})], whatever was
    loaded or typed since. *)
Definition submitBody (isAutoSubmit : bool) (s : State) : AssignmentController.SubmitBody :=
  {| AssignmentController.answers := Some (if isAutoSubmit then ∅ else answers s);
     AssignmentController.tabSwitchCount := None;
     AssignmentController.escCount := None;
     AssignmentController.wasFullscreen := None;
     AssignmentController.proctoringData := None |}.

(** [formatTime]: [None] is [null]. *)
Definition padStart2 (s : string) : string :=
  match s with
  | String c EmptyString => String "0" (String c EmptyString)
  | EmptyString => "00"
  | _ => s
  end.

Definition formatTime (seconds : option nat) : string :=
  match seconds with
  | None => "..."
  | Some seconds =>
      let mins := (seconds / 60)%nat in
      let secs := (seconds mod 60)%nat in
      CandidateController.decimal mins ++ ":" ++ padStart2 (CandidateController.decimal secs)
  end.

(** *** The refresh-proof timer

    [localStorage] for one assignment: the three items the page writes
    together. Times are milliseconds since the epoch. *)
Record Storage := {
  quizEndTime : option Z;
  quizTimeLimit : option Z;
  quizUpdatedAt : option Z
}.

(** [Math.round(ms / 1000)] for a whole number of milliseconds: the
    nearest second, a half rounded up. *)
Definition roundSeconds (ms : Z) : Z := ((ms + 500) / 1000)%Z.

(** The timer set-up of the fetch effect with the [timeLimit] (minutes)
    and, if any, the [updatedAt] of the response. The clock is read up
    to three times: [now] is the first reading, [later] the second one
    (made only when a stored timer turns out to have run out) and
    [stamp] the one stored when the response has no [updatedAt].
    [None] is the error 'Invalid quiz time limit'; otherwise the end
    time of the countdown and the storage left. *)
Definition setupTimer (now later stamp timeLimit : Z) (updatedAt : option Z)
    (stored : Storage) : option (Z * Storage) :=
  if (timeLimit <=? 0)%Z then None
  else
    let assignmentWasUpdated :=
      match quizUpdatedAt stored, updatedAt with
      | Some old, Some new => (old <? new)%Z
      | _, _ => false
      end in
    let timeLimitChanged :=
      match quizTimeLimit stored with
      | Some old => negb (old =? timeLimit)%Z
      | None => false
      end in
    let quizEndTime0 :=
      if assignmentWasUpdated || timeLimitChanged then None else quizEndTime stored in
    let fresh (clock : Z) :=
      let endTime := (clock + timeLimit * 60 * 1000)%Z in
      (endTime, {| quizEndTime := Some endTime;
                   quizTimeLimit := Some timeLimit;
                   quizUpdatedAt := Some (default stamp updatedAt) |}) in
    match quizEndTime0 with
    | None => Some (fresh now)
    | Some endTime =>
        let timeRemaining := roundSeconds (endTime - now) in
        if (timeRemaining <=? 0)%Z then Some (fresh later)
        else Some (endTime, stored)
    end.

(** A tick of the countdown at [now]: the seconds to show, and whether
    the quiz is submitted automatically. *)
Definition tick (endTime now : Z) : Z * bool :=
  let remaining := roundSeconds (endTime - now) in
  if (remaining <=? 0)%Z then (0%Z, true) else (remaining, false).

End TakeQuizPage.

(** The head of [r], if any, is outside the class [p]. *)
Definition stopsAt (p : ascii -> bool) (r : list ascii) : Prop :=
  match r with [] => True | c :: _ => p c = false end.

(** The invariant of the page: the questions are those that were
    loaded, the index points at one of them, and [answers] has an
    entry for exactly the loaded questions. *)
Definition pageInvariant (ids : list ObjectId) (s : TakeQuizPage.State) : Prop :=
  TakeQuizPage.questionIds s = ids
  /\ (ids <> [] -> (TakeQuizPage.currentQuestionIndex s < length ids)%nat)
  /\ (ids = [] -> TakeQuizPage.currentQuestionIndex s = 0%nat)
  /\ (forall id, In id ids <-> is_Some (TakeQuizPage.answers s !! id)).

(** * Properties *)

(** ** Tools *)

Ltac unfold_handler :=
  cbv beta iota zeta
      delta [mbind handler_bind mret handler_ret rejectIf orFail query update fail] in *.

Lemma eqb_true (a b : string) : (a =? b) = true <-> a = b.
Proof. apply String.eqb_eq. Qed.

Lemma eqb_false (a b : string) : (a =? b) = false <-> a <> b.
Proof. apply String.eqb_neq. Qed.

(** ** The consumer (quizSubmissionConsumer.js) *)

Section ConsumerFacts.
Import QuizSubmissionConsumer.
Variable Json : Type.
Variable JSON_parse : string -> option Json.
Variable show : Json -> string.

Lemma eachMessage_keeps_db (m : Message) (w : World) :
  db (snd (eachMessage Json JSON_parse show m w)) = db w.
Proof.
  unfold eachMessage. destruct (JSON_parse (value m)); reflexivity.
Qed.

Lemma eachMessage_logs (m : Message) (w : World) :
  exists lines, console (snd (eachMessage Json JSON_parse show m w)) = (console w ++ lines)%list
                /\ (length lines <= 1)%nat.
Proof.
  unfold eachMessage. destruct (JSON_parse (value m)) as [j|]; cbn.
  - eexists [_]. split; [reflexivity | cbn; lia].
  - exists []. rewrite app_nil_r. split; [reflexivity | cbn; lia].
Qed.

Lemma run_keeps_db (topicName : string) (ms : list Message) (w : World) :
  db (run Json JSON_parse show topicName ms w) = db w.
Proof.
  revert w. induction ms as [|m ms IH]; intros w; cbn [run]; [reflexivity|].
  destruct (topic m =? topicName).
  - rewrite IH. apply eachMessage_keeps_db.
  - apply IH.
Qed.

Lemma run_only_logs (topicName : string) (ms : list Message) (w : World) :
  exists lines, console (run Json JSON_parse show topicName ms w) = (console w ++ lines)%list.
Proof.
  revert w. induction ms as [|m ms IH]; intros w; cbn [run].
  - exists []. now rewrite app_nil_r.
  - destruct (topic m =? topicName).
    + destruct (IH (snd (eachMessage Json JSON_parse show m w))) as [l2 H2].
      destruct (eachMessage_logs m w) as [l1 [H1 _]].
      exists (l1 ++ l2)%list. rewrite H2, H1. now rewrite <- app_assoc.
    + apply IH.
Qed.

End ConsumerFacts.

(** C10. The quiz-submission consumer performs no processing: whatever
    messages arrive, and whatever [JSON.parse] makes of them, the
    database after the consumer has handled them is the database before;
    each handled message leaves the database as it is and adds at most
    one line to the console, and the run as a whole only appends to the
    console. *)
Theorem consumer_mutates_no_state
    (Json : Type) (JSON_parse : string -> option Json) (show : Json -> string)
    (ms : list QuizSubmissionConsumer.Message) (w : QuizSubmissionConsumer.World) :
  QuizSubmissionConsumer.db
    (QuizSubmissionConsumer.startQuizSubmissionConsumer Json JSON_parse show ms w)
  = QuizSubmissionConsumer.db w
  /\ (exists lines,
        QuizSubmissionConsumer.console
          (QuizSubmissionConsumer.startQuizSubmissionConsumer Json JSON_parse show ms w)
        = (QuizSubmissionConsumer.console w ++ lines)%list)
  /\ (forall m,
        QuizSubmissionConsumer.db
          (snd (QuizSubmissionConsumer.eachMessage Json JSON_parse show m w))
        = QuizSubmissionConsumer.db w
        /\ exists lines,
             QuizSubmissionConsumer.console
               (snd (QuizSubmissionConsumer.eachMessage Json JSON_parse show m w))
             = (QuizSubmissionConsumer.console w ++ lines)%list
             /\ (length lines <= 1)%nat).
Proof.
  unfold QuizSubmissionConsumer.startQuizSubmissionConsumer.
  split; [apply run_keeps_db|].
  split; [apply run_only_logs|].
  intros m. split; [apply eachMessage_keeps_db | apply eachMessage_logs].
Qed.

(** ** Weightage to marks (getClassResults) *)

Lemma marksObtained_exact (weightageType : string) (p w : Q) :
  (AssignmentController.marksObtained weightageType p w == p * w / 100)%Q.
Proof.
  unfold AssignmentController.marksObtained. cbn.
  destruct (weightageType =? "percentage"); field.
Qed.

Lemma resultRow_inv classData aid quiz w wt sub row :
  In row (AssignmentController.resultRow classData aid quiz w wt sub) ->
  AssignmentController.rr_assignmentId row = aid
  /\ AssignmentController.rr_percentage row = Num.orZero (Submission.score sub)
  /\ AssignmentController.rr_weightage row = w
  /\ AssignmentController.rr_weightageType row = wt
  /\ AssignmentController.rr_marksObtained row
     = AssignmentController.marksObtained wt (Num.orZero (Submission.score sub)) w.
Proof.
  unfold AssignmentController.resultRow.
  destruct (negb _); cbn [In]; [tauto|].
  intros [<- | []]. cbn. repeat split.
Qed.

Lemma find_first_by_id {D} (l : list (ObjectId * D)) (p : ObjectId * D) :
  In p l -> exists q, List.find (fun a => fst a =? fst p) l = Some q /\ fst q = fst p.
Proof.
  induction l as [|x l IH]; intros Hin; [destruct Hin|].
  simpl. destruct (String.eqb _ _) eqn:E.
  - exists x. split; [reflexivity | now apply eqb_true].
  - destruct Hin as [-> | Hin]; [now rewrite String.eqb_refl in E | now apply IH].
Qed.

(** C5, as amended. Every row of [getClassResults] comes from a stored
    submission of an assignment of the class; its percentage is the
    stored score, its weightage the assignment's current weightage, and
    its [marksObtained] is [(percentage * weightage) / 100] for the
    type 'percentage' and [(percentage / 100) * weightage] otherwise,
    each evaluated in binary64 arithmetic. Read in exact arithmetic both
    formulas are [percentage * weightage / 100]. *)
Theorem classResults_marksObtained
    (user : AuthUser) (classId : ObjectId) (db db' : DB)
    (rows : list AssignmentController.ResultRow)
    (Hok : AssignmentController.getClassResults user classId db = (Ok rows, db')) :
  (forall row, In row rows ->
     exists aid a sub current,
       In (aid, a) (assignments db) /\ Assignment.classId a = classId
       /\ In sub (Assignment.submissions a)
       /\ List.find (fun x => fst x =? aid)
            (Coll.find (fun _ x => Assignment.classId x =? classId) (assignments db))
          = Some current
       /\ AssignmentController.rr_percentage row = Num.orZero (Submission.score sub)
       /\ AssignmentController.rr_weightage row
          = Num.orZero (Assignment.weightage (snd current))
       /\ AssignmentController.rr_marksObtained row
          = if AssignmentController.rr_weightageType row =? "percentage"
            then PrimFloat.div
                   (PrimFloat.mul (AssignmentController.rr_percentage row)
                      (AssignmentController.rr_weightage row)) Num.hundred
            else PrimFloat.mul
                   (PrimFloat.div (AssignmentController.rr_percentage row) Num.hundred)
                   (AssignmentController.rr_weightage row))
  /\ (forall (weightageType : string) (p w : Q),
        (AssignmentController.marksObtained weightageType p w == p * w / 100)%Q).
Proof.
  split; [|intros; apply marksObtained_exact].
  revert Hok. unfold AssignmentController.getClassResults. unfold_handler.
  destruct (Coll.findOne _ (classes db)) as [[cid classData]|]; [|discriminate].
  destruct (_ && existsb _ _); [discriminate|].
  intros Hok; injection Hok as <- <-.
  intros row Hrow.
  apply in_flat_map in Hrow as [[aid a] [Hsub Hrow]].
  apply filter_In in Hsub as [Hin _].
  unfold AssignmentController.resultRows in Hrow. cbn [fst snd] in Hrow.
  apply in_flat_map in Hrow as [sub [Hs Hrow]].
  destruct (find_first_by_id _ _ Hin) as [current [Hcur Hid]]. cbn [fst] in Hcur, Hid.
  rewrite Hcur in Hrow.
  apply resultRow_inv in Hrow as (_ & Hp & Hw & Ht & Hm).
  unfold Coll.find in Hin. apply filter_In in Hin as [Hin Hc]. cbn in Hc.
  exists aid, a, sub, current. repeat split; try assumption.
  - now apply eqb_true.
  - rewrite Hm, Hp, Hw, Ht. unfold AssignmentController.marksObtained. reflexivity.
Qed.

(** C5, counterexample. The code's own example, 80% on a quiz of 6
    marks: the two branches give 4.8 in two different roundings, so
    [marksObtained] depends on the weightage type. *)
Lemma marksObtained_branches_differ :
  AssignmentController.marksObtained "percentage"
    (AssignmentController.percentageScore 4 5) (Num.ofNat 6)
  <> AssignmentController.marksObtained "marks"
       (AssignmentController.percentageScore 4 5) (Num.ofNat 6)
  /\ PrimFloat.eqb
       (AssignmentController.marksObtained "percentage"
          (AssignmentController.percentageScore 4 5) (Num.ofNat 6))
       (AssignmentController.marksObtained "marks"
          (AssignmentController.percentageScore 4 5) (Num.ofNat 6)) = false.
Proof.
  split; [vm_compute; discriminate | vm_compute; reflexivity].
Qed.

(** The difference is one of rounding: for every quiz of up to 60
    questions and every whole weightage up to 100 the two branches are
    within [2 ^ -40] of each other. *)
Lemma marksObtained_branches_close :
  RoundingCheck.closeOnGrid 60 100 = true.
Proof. vm_compute. reflexivity. Qed.

Lemma classResults_marksObtained_witness :
  exists rows,
    AssignmentController.getClassResults Sample.admin "cls1"
      (Sample.database [Sample.raviSubmission])
    = (Ok rows, Sample.database [Sample.raviSubmission])
    /\ (forall row, In row rows ->
          AssignmentController.rr_marksObtained row
          = if AssignmentController.rr_weightageType row =? "percentage"
            then PrimFloat.div
                   (PrimFloat.mul (AssignmentController.rr_percentage row)
                      (AssignmentController.rr_weightage row)) Num.hundred
            else PrimFloat.mul
                   (PrimFloat.div (AssignmentController.rr_percentage row) Num.hundred)
                   (AssignmentController.rr_weightage row)).
Proof.
  eexists. split; [vm_compute; reflexivity|].
  intros row Hrow.
  destruct (classResults_marksObtained Sample.admin "cls1"
              (Sample.database [Sample.raviSubmission]) _ _ eq_refl) as [Hrows _].
  destruct (Hrows row Hrow) as (_ & _ & _ & _ & _ & _ & _ & _ & _ & _ & Hm).
  exact Hm.
Defined.

(** ** The questions sent to a candidate (getSingleAssignment) *)





Lemma withoutAnswer_other_fields (q : gmap string AssignmentController.JsVal) (k : string) :
  k <> "answer" -> AssignmentController.withoutAnswer q !! k = q !! k.
Proof. intros Hk. apply lookup_delete_ne. congruence. Qed.

Lemma toObject_has_answer (q : Question.t) :
  AssignmentController.toObject q !! "answer"
  = Some (AssignmentController.JStr (Question.answer q)).
Proof.
  unfold AssignmentController.toObject.
  repeat (rewrite lookup_insert_ne by discriminate). apply lookup_insert_eq.
Qed.




(** ** Grading (submitQuiz) *)

Lemma isCorrectAnswer_iff (q : Question.t) (a : string) :
  AssignmentController.isCorrectAnswer q a = true <-> GradingSpec.correct q a.
Proof.
  unfold AssignmentController.isCorrectAnswer, GradingSpec.correct.
  destruct (decide (Question.type q = "short_answer")) as [Hty|Hty].
  - rewrite (proj2 (eqb_true _ _) Hty). apply eqb_true.
  - rewrite (proj2 (eqb_false _ _) Hty). apply eqb_true.
Qed.

Lemma isCorrectAnswer_correct (q : Question.t) (a : string) :
  AssignmentController.isCorrectAnswer q a = bool_decide (GradingSpec.correct q a).
Proof.
  destruct (AssignmentController.isCorrectAnswer q a) eqn:E.
  - symmetry. apply bool_decide_eq_true_2. now apply isCorrectAnswer_iff.
  - symmetry. apply bool_decide_eq_false_2. intros H.
    apply isCorrectAnswer_iff in H. congruence.
Qed.

Lemma truthy_nonempty (a : string) : JS.truthy a = true <-> a <> "".
Proof.
  unfold JS.truthy. rewrite negb_true_iff. apply eqb_false.
Qed.

(** One turn of the loop adds the question's record, and one to the
    score when the question is answered correctly. *)
Lemma gradeQuestion_step (answers : gmap string string) (score : nat)
    (formatted : list Answer.t) (q : Question.t) :
  AssignmentController.gradeQuestion answers (score, formatted) q
  = ((score + length (filter (GradingSpec.answeredCorrectly answers) [q]))%nat,
     (formatted ++ [GradingSpec.expectedRecord answers q])%list).
Proof.
  unfold AssignmentController.gradeQuestion, GradingSpec.expectedRecord.
  rewrite filter_cons, filter_nil.
  destruct (decide (GradingSpec.answeredCorrectly answers q)) as [Hc|Hc];
    unfold GradingSpec.answeredCorrectly in Hc; unfold GradingSpec.answerTo in *;
    (destruct (answers !! Question._id q) as [a|];
     cbn [JS.truthyOpt default from_option id] in *;
     [destruct (decide (a = "")) as [->|Hne]|]); try (exfalso; exact Hc).
  - rewrite (proj2 (truthy_nonempty a) Hne), isCorrectAnswer_correct.
    rewrite bool_decide_eq_true_2 by assumption. reflexivity.
  - cbn. now rewrite Nat.add_0_r.
  - rewrite (proj2 (truthy_nonempty a) Hne), isCorrectAnswer_correct.
    rewrite bool_decide_eq_false_2 by assumption. cbn. now rewrite Nat.add_0_r.
  - cbn. now rewrite Nat.add_0_r.
Qed.

(** The loop invariant: the score is the number of correct answers so
    far and the records are those of the questions seen, in order. *)
Lemma gradeQuiz_loop (answers : gmap string string) (qs : list Question.t)
    (score : nat) (formatted : list Answer.t) :
  fold_left (AssignmentController.gradeQuestion answers) qs (score, formatted)
  = ((score + GradingSpec.correctCount answers qs)%nat,
     (formatted ++ List.map (GradingSpec.expectedRecord answers) qs)%list).
Proof.
  revert score formatted. unfold GradingSpec.correctCount.
  induction qs as [|q qs IH]; intros score formatted; cbn [fold_left List.map].
  - rewrite filter_nil, app_nil_r. cbn. now rewrite Nat.add_0_r.
  - rewrite gradeQuestion_step, IH.
    rewrite (filter_cons _ q qs), <- app_assoc. cbn [app].
    rewrite filter_cons, filter_nil.
    destruct (decide (GradingSpec.answeredCorrectly answers q)); cbn [length];
      f_equal; lia.
Qed.

Lemma gradeQuiz_spec (answers : gmap string string) (qs : list Question.t) :
  AssignmentController.gradeQuiz answers qs
  = (GradingSpec.correctCount answers qs, List.map (GradingSpec.expectedRecord answers) qs).
Proof.
  unfold AssignmentController.gradeQuiz. now rewrite gradeQuiz_loop.
Qed.

(** ** Collections *)

Lemma findOne_save {D} (f : string -> D -> bool) (i : string) (d d' : D) (c : Coll.t D) :
  Coll.findOne f c = Some (i, d) -> f i d' = true ->
  Coll.findOne f (Coll.save i d' c) = Some (i, d').
Proof.
  intros Hfind Hf. unfold Coll.findOne, Coll.save in *.
  induction c as [|[j x] c IH]; cbn in *; [discriminate|].
  destruct (String.eqb_spec j i) as [->|Hne]; cbn.
  - now rewrite Hf.
  - destruct (f j x) eqn:Hfx; [congruence | now apply IH].
Qed.

Lemma findOne_Some {D} (f : string -> D -> bool) (c : Coll.t D) (p : string * D) :
  Coll.findOne f c = Some p -> In p c /\ f (fst p) (snd p) = true.
Proof. unfold Coll.findOne. apply find_some. Qed.

Lemma findById_Some {D} (id : string) (d : D) (c : Coll.t D) :
  Coll.findById id c = Some d -> In (id, d) c.
Proof.
  unfold Coll.findById. destruct (Coll.findOne _ c) as [[i x]|] eqn:Hf; [|discriminate].
  intros H; injection H as ->. apply findOne_Some in Hf as [Hin Hi].
  cbn in Hi. apply eqb_true in Hi. now subst.
Qed.

Lemma findById_save {D} (id : string) (d d' : D) (c : Coll.t D) :
  Coll.findById id c = Some d -> Coll.findById id (Coll.save id d' c) = Some d'.
Proof.
  unfold Coll.findById. intros H.
  destruct (Coll.findOne _ c) as [[i x]|] eqn:Hf; [|discriminate].
  assert (i = id) as ->.
  { apply findOne_Some in Hf as [_ Hi]. now apply eqb_true in Hi. }
  rewrite (findOne_save _ id x d' c Hf); [reflexivity | apply String.eqb_refl].
Qed.

Lemma save_In {D} (id : string) (d : D) (c : Coll.t D) (p : string * D) :
  In p (Coll.save id d c) -> In p c \/ p = (id, d).
Proof.
  unfold Coll.save. intros H. apply in_map_iff in H as [q [<- Hq]].
  destruct (fst q =? id); [now right | now left].
Qed.

(** ** submitQuiz: what an accepted request stores, and when *)

Lemma find_none_is_Some {A} (o : option A) : bool_decide (is_Some o) = false -> o = None.
Proof.
  destruct o; [|reflexivity]. intros H. apply bool_decide_eq_false_1 in H.
  exfalso. apply H. now eexists.
Qed.

Lemma submitQuiz_accepted (now : Z) (user : AuthUser) (assignmentId : ObjectId)
    (body : AssignmentController.SubmitBody) (db db' : DB)
    (resp : AssignmentController.SubmitResponse) :
  AssignmentController.submitQuiz now user assignmentId body db = (Ok resp, db') ->
  exists assignment quiz cid classData,
    Coll.findById assignmentId (assignments db) = Some assignment
    /\ Coll.findById (Assignment.quizId assignment) (quizzes db) = Some quiz
    /\ Coll.findOne (fun i c => (i =? Assignment.classId assignment)
                                && JS.includes (uid user) (Class.students c)) (classes db)
       = Some (cid, classData)
    /\ List.find (fun sub => Submission.candidateId sub =? uid user)
         (Assignment.submissions assignment) = None
    /\ (Assignment.dueDate assignment <? now)%Z
       && negb (JS.truthyBool (Class.allowLateSubmissions classData)) = false
    /\ let answers := default ∅ (AssignmentController.answers body) in
       let stored :=
         Submission.mk (uid user)
           (AssignmentController.percentageScore
              (GradingSpec.correctCount answers (Quiz.questions quiz))
              (length (Quiz.questions quiz)))
           now (List.map (GradingSpec.expectedRecord answers) (Quiz.questions quiz)) in
       Mongoose.validSubmission stored = true
       /\ db' = withAssignments
                  (Coll.save assignmentId
                     (Assignment.setSubmissions
                        (Assignment.submissions assignment ++ [stored])%list assignment)) db
       /\ AssignmentController.sr_isLateSubmission resp
          = (Assignment.dueDate assignment <? now)%Z.
Proof.
  unfold AssignmentController.submitQuiz. unfold_handler.
  destruct (Coll.findById assignmentId (assignments db)) as [assignment|] eqn:Ha;
    cbv beta iota; [|discriminate].
  destruct (Coll.findOne _ (classes db)) as [[cid classData]|] eqn:Hc;
    cbv beta iota; [|discriminate].
  destruct (bool_decide (is_Some _)) eqn:Hex; cbv beta iota; [discriminate|].
  destruct (_ && negb (JS.truthyBool _)) eqn:Hlate;
    cbv beta iota; [discriminate|].
  destruct (Coll.findById _ (quizzes db)) as [quiz|] eqn:Hq; cbv beta iota; [|discriminate].
  destruct (negb (bool_decide _) && _); cbv beta iota; [discriminate|].
  rewrite gradeQuiz_spec. cbv beta iota.
  destruct (negb (Mongoose.validSubmission _)) eqn:Hv; cbv beta iota; [discriminate|].
  intros H; injection H as <- <-.
  exists assignment, quiz, cid, classData.
  apply find_none_is_Some in Hex. apply negb_false_iff in Hv.
  repeat split; assumption || reflexivity.
Qed.

(** A request that is answered with an error stores nothing. *)
Lemma submitQuiz_rejected (now : Z) (user : AuthUser) (assignmentId : ObjectId)
    (body : AssignmentController.SubmitBody) (db db' : DB) (s : nat) (msg : string) :
  AssignmentController.submitQuiz now user assignmentId body db = (Fail s msg, db') ->
  db' = db.
Proof.
  unfold AssignmentController.submitQuiz. unfold_handler.
  destruct (Coll.findById assignmentId (assignments db)) as [assignment|];
    cbv beta iota; [|now inversion 1].
  destruct (Coll.findOne _ (classes db)) as [[cid classData]|];
    cbv beta iota; [|now inversion 1].
  destruct (bool_decide (is_Some _)); cbv beta iota; [now inversion 1|].
  destruct (_ && negb (JS.truthyBool _)); cbv beta iota; [now inversion 1|].
  destruct (Coll.findById _ (quizzes db)) as [quiz|]; cbv beta iota; [|now inversion 1].
  destruct (negb (bool_decide _) && _); cbv beta iota; [now inversion 1|].
  rewrite gradeQuiz_spec. cbv beta iota.
  destruct (negb (Mongoose.validSubmission _)); cbv beta iota; [now inversion 1|].
  discriminate.
Qed.

(** The converse: a request that passes every check is accepted. *)
Lemma submitQuiz_accepts (now : Z) (user : AuthUser) (assignmentId : ObjectId)
    (body : AssignmentController.SubmitBody) (db : DB)
    (assignment : Assignment.t) (quiz : Quiz.t) (cid : ObjectId) (classData : Class.t) :
  Coll.findById assignmentId (assignments db) = Some assignment ->
  Coll.findById (Assignment.quizId assignment) (quizzes db) = Some quiz ->
  Coll.findOne (fun i c => (i =? Assignment.classId assignment)
                           && JS.includes (uid user) (Class.students c)) (classes db)
  = Some (cid, classData) ->
  List.find (fun sub => Submission.candidateId sub =? uid user)
    (Assignment.submissions assignment) = None ->
  (Assignment.dueDate assignment <? now)%Z
  && negb (JS.truthyBool (Class.allowLateSubmissions classData)) = false ->
  is_Some (AssignmentController.answers body) ->
  let answers := default ∅ (AssignmentController.answers body) in
  let stored :=
    Submission.mk (uid user)
      (AssignmentController.percentageScore
         (GradingSpec.correctCount answers (Quiz.questions quiz))
         (length (Quiz.questions quiz)))
      now (List.map (GradingSpec.expectedRecord answers) (Quiz.questions quiz)) in
  Mongoose.validSubmission stored = true ->
  exists resp,
    AssignmentController.submitQuiz now user assignmentId body db
    = (Ok resp,
       withAssignments
         (Coll.save assignmentId
            (Assignment.setSubmissions
               (Assignment.submissions assignment ++ [stored])%list assignment)) db)
    /\ AssignmentController.sr_isLateSubmission resp = (Assignment.dueDate assignment <? now)%Z.
Proof.
  intros Ha Hq Hc Hex Hlate Hans answers stored Hv.
  unfold AssignmentController.submitQuiz. unfold_handler.
  rewrite Ha. cbv beta iota. rewrite Hc. cbv beta iota. rewrite Hex.
  rewrite bool_decide_eq_false_2 by (intros [? ?]; discriminate). cbv beta iota.
  rewrite Hlate. cbv beta iota. rewrite Hq. cbv beta iota.
  rewrite (bool_decide_eq_true_2 _ Hans). cbn [negb andb]. cbv beta iota.
  rewrite gradeQuiz_spec. cbv beta iota.
  unfold Mongoose.castSubmission. cbn [Mongoose.candidateId Mongoose.score
    Mongoose.submittedAt Mongoose.answers].
  fold answers. fold stored. rewrite Hv. cbn [negb]. cbv beta iota.
  eexists. split; reflexivity.
Qed.

Lemma expectedRecord_spec (answers : gmap string string) (q : Question.t) :
  Answer.questionId (GradingSpec.expectedRecord answers q) = Question._id q
  /\ match GradingSpec.answerTo answers q with
     | Some a =>
         Answer.selectedAnswer (GradingSpec.expectedRecord answers q) = a
         /\ (Answer.isCorrect (GradingSpec.expectedRecord answers q) = true
             <-> GradingSpec.correct q a)
     | None =>
         Answer.selectedAnswer (GradingSpec.expectedRecord answers q) = ""
         /\ Answer.isCorrect (GradingSpec.expectedRecord answers q) = false
     end.
Proof.
  unfold GradingSpec.expectedRecord.
  destruct (GradingSpec.answerTo answers q) as [a|]; cbn; repeat split; trivial.
  - apply bool_decide_eq_true_1.
  - apply bool_decide_eq_true_2.
Qed.

Lemma expectedRecords_spec (answers : gmap string string) (qs : list Question.t) :
  Forall2
    (fun q r =>
       Answer.questionId r = Question._id q
       /\ match GradingSpec.answerTo answers q with
          | Some a => Answer.selectedAnswer r = a
                      /\ (Answer.isCorrect r = true <-> GradingSpec.correct q a)
          | None => Answer.selectedAnswer r = "" /\ Answer.isCorrect r = false
          end)
    qs (List.map (GradingSpec.expectedRecord answers) qs).
Proof.
  induction qs as [|q qs IH]; cbn; constructor; [|exact IH].
  apply expectedRecord_spec.
Qed.

(** The schema's required validator on [selectedAnswer]: a list of
    records that passes it holds an answer to every question. *)
Lemma valid_records_answered (answers : gmap string string) (qs : list Question.t) :
  forallb Mongoose.validAnswer (List.map (GradingSpec.expectedRecord answers) qs) = true ->
  forall q, In q qs -> is_Some (GradingSpec.answerTo answers q).
Proof.
  intros Hv q Hin. rewrite forallb_forall in Hv.
  specialize (Hv _ (in_map (GradingSpec.expectedRecord answers) _ _ Hin)).
  unfold GradingSpec.expectedRecord in Hv.
  destruct (GradingSpec.answerTo answers q) as [a|]; [now eexists|].
  unfold Mongoose.validAnswer in Hv. cbn in Hv. rewrite andb_false_r in Hv. discriminate.
Qed.

(** What an accepted submission stores: the score is
    [(correct / total) * 100], where [correct] counts the questions
    answered correctly and [total] the quiz's questions; the answers are
    the quiz's questions in order, each with the candidate's answer,
    which is not empty, and whether it is correct: a short answer when
    it equals the reference answer after trimming and lower-casing both,
    another type when it is exactly the reference answer. *)
Lemma submitQuiz_score_and_answers
    (now : Z) (user : AuthUser) (assignmentId : ObjectId)
    (body : AssignmentController.SubmitBody) (db db' : DB)
    (resp : AssignmentController.SubmitResponse)
    (Hok : AssignmentController.submitQuiz now user assignmentId body db = (Ok resp, db')) :
  exists assignment quiz stored,
    Coll.findById assignmentId (assignments db) = Some assignment
    /\ Coll.findById (Assignment.quizId assignment) (quizzes db) = Some quiz
    /\ Coll.findById assignmentId (assignments db')
       = Some (Assignment.setSubmissions
                 (Assignment.submissions assignment ++ [stored])%list assignment)
    /\ Submission.candidateId stored = uid user
    /\ let answers := default ∅ (AssignmentController.answers body) in
       Submission.score stored
       = PrimFloat.mul
           (PrimFloat.div
              (Num.ofNat (GradingSpec.correctCount answers (Quiz.questions quiz)))
              (Num.ofNat (length (Quiz.questions quiz))))
           (Num.ofNat 100)
       /\ Forall2
            (fun q r =>
               Answer.questionId r = Question._id q
               /\ exists a,
                    GradingSpec.answerTo answers q = Some a
                    /\ Answer.selectedAnswer r = a
                    /\ (Answer.isCorrect r = true <-> GradingSpec.correct q a))
            (Quiz.questions quiz) (Submission.answers stored).
Proof.
  destruct (submitQuiz_accepted _ _ _ _ _ _ _ Hok)
    as (assignment & quiz & cid & classData & Ha & Hq & _ & _ & _ & Hv & Hdb & _).
  eexists assignment, quiz, _. split; [exact Ha|]. split; [exact Hq|].
  split; [rewrite Hdb; cbn; now apply (findById_save _ assignment)|].
  split; [reflexivity|]. cbn. split; [reflexivity|].
  unfold Mongoose.validSubmission in Hv. cbn [Submission.answers] in Hv.
  apply andb_prop in Hv as [_ Hv].
  pose proof (valid_records_answered _ _ Hv) as Hall.
  pose proof (expectedRecords_spec (default ∅ (AssignmentController.answers body))
                (Quiz.questions quiz)) as Hrec.
  revert Hall Hrec. generalize (Quiz.questions quiz) as qs.
  intros qs Hall Hrec.
  induction Hrec as [|q r qs rs [Hid Hr] _ IH]; constructor.
  - split; [exact Hid|].
    destruct (Hall q (or_introl eq_refl)) as [a Ha']. rewrite Ha' in Hr.
    exists a. now split.
  - apply IH. intros q' Hq'. apply Hall. now right.
Qed.

(** C1. A request that leaves a question of the quiz unanswered
    (missing or empty) and passes every earlier check is answered 500
    and stores nothing.  The grading loop does build the record the
    comment in the source announces, the question marked incorrect with
    an empty [selectedAnswer]; [answerSchema] requires [selectedAnswer],
    the required validator of a string refuses the empty one, and the
    save throws.  No stored submission records an unanswered
    question. *)
Theorem submitQuiz_unanswered_question_fails
    (now : Z) (user : AuthUser) (assignmentId : ObjectId)
    (body : AssignmentController.SubmitBody) (db : DB)
    (assignment : Assignment.t) (quiz : Quiz.t) (cid : ObjectId) (classData : Class.t)
    (q : Question.t)
    (Ha : Coll.findById assignmentId (assignments db) = Some assignment)
    (Hq : Coll.findById (Assignment.quizId assignment) (quizzes db) = Some quiz)
    (Hc : Coll.findOne (fun i c => (i =? Assignment.classId assignment)
                                   && JS.includes (uid user) (Class.students c)) (classes db)
          = Some (cid, classData))
    (Hnew : List.find (fun sub => Submission.candidateId sub =? uid user)
              (Assignment.submissions assignment) = None)
    (Hdue : (Assignment.dueDate assignment <? now)%Z = false)
    (Hin : In q (Quiz.questions quiz))
    (Hnone : GradingSpec.answerTo (default ∅ (AssignmentController.answers body)) q = None) :
  In (Answer.mk (Question._id q) "" false)
     (snd (AssignmentController.gradeQuiz (default ∅ (AssignmentController.answers body))
             (Quiz.questions quiz)))
  /\ AssignmentController.submitQuiz now user assignmentId body db
     = (Fail 500 "Server error", db).
Proof.
  split.
  - rewrite gradeQuiz_spec. cbn [snd].
    apply in_map_iff. exists q. split; [|exact Hin].
    unfold GradingSpec.expectedRecord. now rewrite Hnone.
  - unfold AssignmentController.submitQuiz. unfold_handler.
    rewrite Ha. cbv beta iota. rewrite Hc. cbv beta iota. rewrite Hnew.
    rewrite bool_decide_eq_false_2 by (intros [? ?]; discriminate). cbv beta iota.
    rewrite Hdue. cbn [andb]. cbv beta iota. rewrite Hq. cbv beta iota.
    destruct (negb (bool_decide _) && _); cbv beta iota; [reflexivity|].
    rewrite gradeQuiz_spec. cbv beta iota.
    destruct (negb (Mongoose.validSubmission _)) eqn:Hv; cbv beta iota; [reflexivity|].
    exfalso. apply negb_false_iff in Hv.
    unfold Mongoose.validSubmission, Mongoose.castSubmission in Hv.
    cbn [Submission.answers Mongoose.answers] in Hv.
    apply andb_prop in Hv as [_ Hv].
    destruct (valid_records_answered _ _ Hv q Hin) as [a Ha'].
    rewrite Hnone in Ha'. discriminate.
Qed.

(** Asha answers four of the five questions. *)
Lemma submitQuiz_unanswered_question_fails_witness :
  let body :=
    {| AssignmentController.answers := Some (delete "q4" Sample.ashaAnswers);
       AssignmentController.tabSwitchCount := None;
       AssignmentController.escCount := None;
       AssignmentController.wasFullscreen := None;
       AssignmentController.proctoringData := None |} in
  In (Answer.mk "q4" "" false)
     (snd (AssignmentController.gradeQuiz (delete "q4" Sample.ashaAnswers) Sample.questions))
  /\ AssignmentController.submitQuiz 500 Sample.asha "asg1" body
       (Sample.database [Sample.raviSubmission])
     = (Fail 500 "Server error", Sample.database [Sample.raviSubmission]).
Proof.
  intros body.
  apply (submitQuiz_unanswered_question_fails 500 Sample.asha "asg1" body
           (Sample.database [Sample.raviSubmission])
           (Sample.assignment [Sample.raviSubmission]) Sample.quiz "cls1" Sample.class
           (Question.mk "q4" "mcq" "Largest planet" ["Mars"; "Jupiter"] "Jupiter")).
  - reflexivity.
  - reflexivity.
  - reflexivity.
  - reflexivity.
  - reflexivity.
  - vm_compute. tauto.
  - vm_compute. reflexivity.
Defined.

(** ** The late-submission policy (submitQuiz) *)

(** C2. An attempt on an existing assignment made after the due date
    fails and leaves the database, hence the submissions list,
    unchanged, in every class: the status is 403 with the lateness
    message when the candidate is enrolled and had not submitted before.
    No class allows late submissions, since [classSchema] declares no
    [allowLateSubmissions] path: the handler reads [undefined], whatever
    [updateClass] was asked to store.  An attempt on or before the due
    date is never rejected for lateness; it is accepted when the
    candidate is enrolled and has not submitted before, the quiz exists,
    answers are sent and the record passes the schema's validators; and
    when it is accepted, one submission is appended and the response
    reports [isLateSubmission] false. *)
Theorem submitQuiz_refuses_every_late_attempt
    (now : Z) (user : AuthUser) (assignmentId : ObjectId)
    (body : AssignmentController.SubmitBody) (db : DB) (assignment : Assignment.t)
    (Ha : Coll.findById assignmentId (assignments db) = Some assignment) :
  let out := AssignmentController.submitQuiz now user assignmentId body db in
  let pastDue := (Assignment.dueDate assignment <? now)%Z in
  let classData :=
    Coll.findOne (fun i c => (i =? Assignment.classId assignment)
                             && JS.includes (uid user) (Class.students c)) (classes db) in
  let lateness :=
    "This assignment is past due and late submissions are not allowed" in
  let unsubmitted :=
    List.find (fun sub => Submission.candidateId sub =? uid user)
      (Assignment.submissions assignment) = None in
  (pastDue = true ->
     isOk (fst out) = false /\ snd out = db
     /\ (is_Some classData -> unsubmitted -> fst out = Fail 403 lateness))
  /\ (pastDue = false ->
        fst out <> Fail 403 lateness
        /\ (forall resp, fst out = Ok resp ->
              AssignmentController.sr_isLateSubmission resp = false
              /\ exists stored,
                   snd out = withAssignments
                               (Coll.save assignmentId
                                  (Assignment.setSubmissions
                                     (Assignment.submissions assignment ++ [stored])%list
                                     assignment)) db)
        /\ (is_Some classData -> unsubmitted ->
            forall quiz,
              Coll.findById (Assignment.quizId assignment) (quizzes db) = Some quiz ->
              is_Some (AssignmentController.answers body) ->
              Mongoose.validSubmission
                (Submission.mk (uid user)
                   (AssignmentController.percentageScore
                      (GradingSpec.correctCount
                         (default ∅ (AssignmentController.answers body))
                         (Quiz.questions quiz))
                      (length (Quiz.questions quiz)))
                   now
                   (List.map (GradingSpec.expectedRecord
                                (default ∅ (AssignmentController.answers body)))
                      (Quiz.questions quiz))) = true ->
              isOk (fst out) = true)).
Proof.
  intros out pastDue classData lateness unsubmitted. split.
  - intros Hpast.
    assert (Hout : exists s msg, out = (Fail s msg, db)
                                 /\ (is_Some classData -> unsubmitted ->
                                     s = 403%nat /\ msg = lateness)).
    { subst out. unfold AssignmentController.submitQuiz. unfold_handler.
      rewrite Ha. cbv beta iota. fold classData.
      destruct classData as [[cid c]|] eqn:Hc; cbv beta iota.
      2:{ do 2 eexists. split; [reflexivity|]. intros [? ?]. discriminate. }
      destruct (List.find _ (Assignment.submissions assignment)) as [sub|] eqn:Hex.
      - rewrite bool_decide_eq_true_2 by (now eexists). cbv beta iota.
        do 2 eexists. split; [reflexivity|]. intros _ Hun. unfold unsubmitted in Hun.
        congruence.
      - rewrite bool_decide_eq_false_2 by (intros [? ?]; discriminate). cbv beta iota.
        fold pastDue. rewrite Hpast.
        cbn [negb andb JS.truthyBool Class.allowLateSubmissions]. cbv beta iota.
        do 2 eexists. split; [reflexivity|]. intros _ _. now split. }
    destruct Hout as (s & msg & Hout & Hun). rewrite Hout. cbn.
    repeat split. intros Hcl H. destruct (Hun Hcl H) as [-> ->]. reflexivity.
  - intros Hpast. split; [|split].
    + intros Hfail. subst out.
      revert Hfail. unfold AssignmentController.submitQuiz. unfold_handler.
      rewrite Ha. cbv beta iota. fold classData.
      destruct classData as [[cid c]|]; cbv beta iota; [|discriminate].
      destruct (bool_decide (is_Some _)); cbv beta iota; [discriminate|].
      fold pastDue. rewrite Hpast. cbn [andb]. cbv beta iota.
      destruct (Coll.findById _ (quizzes db)) as [quiz|]; cbv beta iota; [|discriminate].
      destruct (negb (bool_decide _) && _); cbv beta iota; [discriminate|].
      rewrite gradeQuiz_spec. cbv beta iota.
      destruct (negb (Mongoose.validSubmission _)); cbv beta iota; discriminate.
    + intros resp Hresp.
      assert (Hok : out = (Ok resp, snd out)) by (destruct out; cbn in *; congruence).
      destruct (submitQuiz_accepted _ _ _ _ _ _ _ Hok)
        as (a & quiz & c1 & cd & Ha' & _ & _ & _ & _ & _ & Hdb & Hlate).
      rewrite Ha in Ha'. injection Ha' as <-.
      split; [now rewrite Hlate|]. eexists. exact Hdb.
    + intros [[cid c] Hc] Hun quiz Hq Hans Hv.
      assert (Hpolicy : (Assignment.dueDate assignment <? now)%Z
                        && negb (JS.truthyBool (Class.allowLateSubmissions c)) = false)
        by (fold pastDue; now rewrite Hpast).
      destruct (submitQuiz_accepts now user assignmentId body db assignment quiz cid
                  c Ha Hq Hc Hun Hpolicy Hans Hv) as (resp & Hrun & _).
      subst out. now rewrite Hrun.
Qed.

(** The owner's request to allow late submissions is answered 200; the
    late attempt that follows is refused all the same, the attempt
    before the due date accepted. *)
Lemma submitQuiz_refuses_every_late_attempt_witness :
  let db := snd (ClassController.updateClass Sample.admin "cls1" Sample.allowLateBody
                   (Sample.database [Sample.raviSubmission])) in
  isOk (fst (ClassController.updateClass Sample.admin "cls1" Sample.allowLateBody
               (Sample.database [Sample.raviSubmission]))) = true
  /\ AssignmentController.submitQuiz 1500 Sample.asha "asg1"
       (Sample.ashaBody None None None) db
     = (Fail 403 "This assignment is past due and late submissions are not allowed", db)
  /\ isOk (fst (AssignmentController.submitQuiz 1000 Sample.asha "asg1"
                  (Sample.ashaBody None None None) db)) = true.
Proof.
  intros db. split; [vm_compute; reflexivity|]. split.
  - pose proof (submitQuiz_refuses_every_late_attempt 1500 Sample.asha "asg1"
                  (Sample.ashaBody None None None) db
                  (Sample.assignment [Sample.raviSubmission]) eq_refl) as [Hrefused _].
    destruct (Hrefused eq_refl) as (_ & Hdb & Hstatus).
    rewrite (surjective_pairing (AssignmentController.submitQuiz _ _ _ _ _)).
    rewrite Hdb, Hstatus; [reflexivity| |reflexivity].
    eexists. vm_compute. reflexivity.
  - pose proof (submitQuiz_refuses_every_late_attempt 1000 Sample.asha "asg1"
                  (Sample.ashaBody None None None) db
                  (Sample.assignment [Sample.raviSubmission]) eq_refl) as [_ Hallowed].
    destruct (Hallowed eq_refl) as (_ & _ & Haccept).
    apply (Haccept (ex_intro _ ("cls1", Sample.class) eq_refl) eq_refl Sample.quiz eq_refl).
    + now eexists.
    + vm_compute. reflexivity.
Defined.

(** ** Anti-cheat telemetry (submitQuiz and submissionSchema) *)

(** The record [submitQuiz] hands to Mongoose does carry the telemetry
    of the request; the sub-document kept of it does not. *)
Lemma castSubmission_drops_telemetry (s : Mongoose.SubmissionInput) (late : bool)
    (tabs esc : Z) (full : bool) (pd : option string) :
  Mongoose.castSubmission s
  = Mongoose.castSubmission
      {| Mongoose.candidateId := Mongoose.candidateId s;
         Mongoose.score := Mongoose.score s;
         Mongoose.submittedAt := Mongoose.submittedAt s;
         Mongoose.isLateSubmission := late;
         Mongoose.tabSwitchCount := tabs;
         Mongoose.escCount := esc;
         Mongoose.wasFullscreen := full;
         Mongoose.answers := Mongoose.answers s;
         Mongoose.proctoringData := pd |}.
Proof. reflexivity. Qed.

(** C4, as the code behaves. Whatever [tabSwitchCount],
    [escCount] and [wasFullscreen] a request carries, [submitQuiz]
    answers it the same way and leaves the same database: nothing of the
    telemetry is in the stored submission. *)
Theorem submitQuiz_telemetry_not_stored
    (now : Z) (user : AuthUser) (assignmentId : ObjectId) (db : DB)
    (answers : option (gmap string string)) (proctoring : option string)
    (tabs tabs' esc esc' : option Z) (full full' : option bool) :
  AssignmentController.submitQuiz now user assignmentId
    {| AssignmentController.answers := answers;
       AssignmentController.tabSwitchCount := tabs;
       AssignmentController.escCount := esc;
       AssignmentController.wasFullscreen := full;
       AssignmentController.proctoringData := proctoring |} db
  = AssignmentController.submitQuiz now user assignmentId
      {| AssignmentController.answers := answers;
         AssignmentController.tabSwitchCount := tabs';
         AssignmentController.escCount := esc';
         AssignmentController.wasFullscreen := full';
         AssignmentController.proctoringData := proctoring |} db.
Proof.
  unfold AssignmentController.submitQuiz. unfold_handler.
  cbn [AssignmentController.answers AssignmentController.tabSwitchCount
       AssignmentController.escCount AssignmentController.wasFullscreen
       AssignmentController.proctoringData].
  destruct (Coll.findById assignmentId (assignments db)) as [assignment|];
    cbv beta iota; [|reflexivity].
  destruct (Coll.findOne _ (classes db)) as [[cid classData]|];
    cbv beta iota; [|reflexivity].
  destruct (bool_decide (is_Some _)); cbv beta iota; [reflexivity|].
  destruct (_ && negb (JS.truthyBool _)); cbv beta iota; [reflexivity|].
  destruct (Coll.findById _ (quizzes db)) as [quiz|]; cbv beta iota; [|reflexivity].
  destruct (negb (bool_decide _) && _); cbv beta iota; [reflexivity|].
  rewrite gradeQuiz_spec. cbv beta iota.
  reflexivity.
Qed.

(** The same at a concrete request: three tab switches, two escapes and
    full screen leave exactly the database of a request without them,
    and the stored submission is the four declared paths. *)
Lemma telemetry_not_stored_example :
  snd (AssignmentController.submitQuiz 500 Sample.asha "asg1"
         (Sample.ashaBody (Some 3%Z) (Some 2%Z) (Some true)) (Sample.database []))
  = snd (AssignmentController.submitQuiz 500 Sample.asha "asg1"
           (Sample.ashaBody None None None) (Sample.database []))
  /\ Coll.findById "asg1"
       (assignments
          (snd (AssignmentController.submitQuiz 500 Sample.asha "asg1"
                  (Sample.ashaBody (Some 3%Z) (Some 2%Z) (Some true))
                  (Sample.database []))))
     = Some (Sample.assignment
               [Submission.mk "u1" (AssignmentController.percentageScore 3 5) 500
                  (Submission.answers Sample.ashaSubmission)]).
Proof. split; vm_compute; reflexivity. Qed.

(** ** joinClass *)

Lemma includes_In (x : string) (l : list string) : JS.includes x l = true <-> In x l.
Proof.
  unfold JS.includes. rewrite existsb_exists. split.
  - intros [y [Hy E]]. apply eqb_true in E. now subst.
  - intros H. exists x. split; [assumption | apply String.eqb_refl].
Qed.

Lemma includes_not_In (x : string) (l : list string) : JS.includes x l = false <-> ~ In x l.
Proof.
  rewrite <- includes_In. destruct (JS.includes x l); split; congruence.
Qed.

Lemma findOne_exists {D} (f : string -> D -> bool) (c : Coll.t D) :
  Coll.findOne f c <> None <-> exists i d, In (i, d) c /\ f i d = true.
Proof.
  unfold Coll.findOne. split.
  - destruct (List.find _ c) as [[i d]|] eqn:E; [|congruence].
    intros _. apply find_some in E. exists i, d. exact E.
  - intros (i & d & Hin & Hf) E.
    apply (find_none _ _ E) in Hin. cbn in Hin. congruence.
Qed.

(** The cases of [joinClass], for whatever value the request carries as
    its invite code: the user is appended to the students of the first
    active class that satisfies the condition, when the value is truthy,
    the role is 'candidate' and the user is not yet among those
    students; in every other case the request fails and the database is
    unchanged; a second identical request of an enrolled candidate who
    sent a string is rejected as already enrolled. *)
Lemma joinClass_cases (user : AuthUser) (inviteCode : option Query.value) (db : DB) :
  let out := ClassController.joinClass user inviteCode db in
  let found :=
    Coll.findOne (fun _ c => Query.holdsOpt inviteCode (Class.inviteCode c)
                             && Class.isActive c) (classes db) in
  let mayJoin :=
    Query.truthyOpt inviteCode = true /\ urole user = "candidate"
    /\ exists cid c, found = Some (cid, c) /\ ~ In (uid user) (Class.students c) in
  (found <> None <->
     exists cid c, In (cid, c) (classes db)
                   /\ Query.holdsOpt inviteCode (Class.inviteCode c) = true
                   /\ Class.isActive c = true)
  /\ (mayJoin ->
        exists cid c,
          found = Some (cid, c)
          /\ fst out = Ok (cid, Class.setStudents (Class.students c ++ [uid user])%list c)
          /\ snd out
             = withClasses
                 (Coll.save cid
                    (Class.setStudents (Class.students c ++ [uid user])%list c)) db)
  /\ (~ mayJoin -> isOk (fst out) = false /\ snd out = db)
  /\ (isOk (fst out) = true ->
        ClassController.joinClass user inviteCode (snd out)
        = (Fail 400 "You are already enrolled in this class", snd out)).
Proof.
  intros out found mayJoin.
  assert (Hcases :
    (mayJoin /\ exists cid c,
        found = Some (cid, c)
        /\ out = (Ok (cid, Class.setStudents (Class.students c ++ [uid user])%list c),
                  withClasses
                    (Coll.save cid
                       (Class.setStudents (Class.students c ++ [uid user])%list c)) db))
    \/ (~ mayJoin /\ exists s msg, out = (Fail s msg, db))).
  { subst out mayJoin. unfold ClassController.joinClass. unfold_handler.
    destruct (Query.truthyOpt inviteCode) eqn:Ht; cbn [negb]; cbv beta iota;
      [|right; split; [intros [? _]; discriminate | now eauto]].
    destruct (String.eqb_spec (urole user) "candidate") as [Hr|Hr]; cbn [negb]; cbv beta iota;
      [|right; split; [intros (_ & ? & _); contradiction | now eauto]].
    fold found.
    destruct found as [[cid c]|] eqn:Hf; cbv beta iota;
      [|right; split; [intros (_ & _ & ? & ? & ? & _); discriminate | now eauto]].
    destruct (JS.includes (uid user) (Class.students c)) eqn:Hin; cbv beta iota.
    - right. split; [|now eauto].
      intros (_ & _ & cid' & c' & E & Hnot). injection E as <- <-.
      apply includes_In in Hin. contradiction.
    - left. apply includes_not_In in Hin. split; [now eauto 8|].
      exists cid, c. split; reflexivity. }
  split; [|split; [|split]].
  - subst found. rewrite findOne_exists. split.
    + intros (i & d & Hin & Hf). apply andb_prop in Hf as [Hc Hact].
      now exists i, d.
    + intros (i & d & Hin & Hc & Hact). exists i, d. split; [assumption|].
      now rewrite Hact, Hc.
  - intros Hmay. destruct Hcases as [[_ (cid & c & Hf & Hout)] | [Hno _]]; [|contradiction].
    exists cid, c. rewrite Hout. now repeat split.
  - intros Hno. destruct Hcases as [[Hmay _] | [_ (s & msg & Hout)]]; [contradiction|].
    rewrite Hout. now split.
  - intros Hok.
    destruct Hcases as [[Hmay (cid & c & Hf & Hout)] | [_ (s & msg & Hout)]];
      [|rewrite Hout in Hok; discriminate].
    rewrite Hout. cbn [snd]. destruct Hmay as (Ht & Hr & _).
    unfold ClassController.joinClass. unfold_handler.
    rewrite Ht. cbn [negb]. cbv beta iota.
    rewrite (proj2 (eqb_true _ _) Hr). cbn [negb]. cbv beta iota.
    cbn [classes withClasses].
    rewrite (findOne_save _ cid c _ (classes db) Hf).
    + cbv beta iota. cbn [Class.students Class.setStudents].
      rewrite (proj2 (includes_In _ _)); [reflexivity|].
      apply in_or_app. right. now left.
    + apply findOne_Some in Hf as [_ Hf]. exact Hf.
Qed.

(** C6. A candidate who sends the object [{ "$ne": null }] where the
    invite code belongs is added to the students of the first active
    class of the collection, whatever its invite code is: the handler
    hands [req.body.inviteCode] to [Class.findOne] unchecked, the object
    is truthy, and the condition it states holds of every stored code.
    The request supplies the invite code of no class, and yet the
    requester is enrolled. *)
Theorem joinClass_without_an_invite_code (user : AuthUser) (db : DB)
    (cid : ObjectId) (c : Class.t)
    (Hrole : urole user = "candidate")
    (Hfirst : Coll.findOne (fun _ c => Class.isActive c) (classes db) = Some (cid, c))
    (Hnew : ~ In (uid user) (Class.students c)) :
  let joined := Class.setStudents (Class.students c ++ [uid user])%list c in
  ClassController.joinClass user (Some (Query.Ne None)) db
  = (Ok (cid, joined), withClasses (Coll.save cid joined) db)
  /\ In (uid user) (Class.students joined)
  /\ Class.inviteCode joined = Class.inviteCode c.
Proof.
  intros joined. split; [|split].
  - unfold ClassController.joinClass. unfold_handler.
    cbn [Query.truthyOpt Query.truthy negb]. cbv beta iota.
    rewrite Hrole, String.eqb_refl. cbn [negb]. cbv beta iota.
    cbn [Query.holdsOpt Query.holds andb].
    rewrite Hfirst. cbv beta iota.
    apply includes_not_In in Hnew. rewrite Hnew. cbv beta iota.
    reflexivity.
  - cbn [joined Class.setStudents Class.students].
    apply in_or_app. right. now left.
  - reflexivity.
Qed.

(** A candidate outside the sample class, who knows none of its codes,
    is enrolled in it. *)
Lemma joinClass_without_an_invite_code_witness :
  fst (ClassController.joinClass {| uid := "u9"; urole := "candidate" |}
         (Some (Query.Ne None)) (Sample.database []))
  = Ok ("cls1",
        Class.mk "Algorithms" "CS1" "" "admin1" ["u1"; "u2"; "u9"] "CS1-AB12CD" true)
  /\ Coll.findById "cls1"
       (classes (snd (ClassController.joinClass {| uid := "u9"; urole := "candidate" |}
                        (Some (Query.Ne None)) (Sample.database []))))
     = Some (Class.mk "Algorithms" "CS1" "" "admin1" ["u1"; "u2"; "u9"] "CS1-AB12CD" true).
Proof.
  destruct (joinClass_without_an_invite_code {| uid := "u9"; urole := "candidate" |}
              (Sample.database []) "cls1" Sample.class eq_refl eq_refl) as (Hrun & _).
  { cbn. intros [H|[H|[]]]; discriminate. }
  rewrite Hrun. split; vm_compute; reflexivity.
Defined.

(** ** Ownership checks of the mutating handlers *)

(** C7, counterexample. A user who is not the class's creator asks to
    remove a student without naming one: the answer is 400, not 403. *)
Lemma removeStudent_nonowner_gets_400 :
  Coll.findById "cls1" (classes (Sample.database [])) = Some Sample.class
  /\ Class.adminId Sample.class <> uid Sample.other
  /\ ClassController.removeStudentFromClass Sample.other "cls1" None
       (Sample.database [])
     = (Fail 400 "Student ID is required", Sample.database []).
Proof. repeat split; vm_compute; reflexivity || discriminate. Qed.

(** C7, as amended. For each of [updateClass], [deleteClass],
    [removeStudentFromClass], [updateAssignment] and [deleteAssignment]:
    a request by a user who is not the [adminId] of the existing target
    document fails and leaves the database unchanged. The status is 403,
    except that [removeStudentFromClass] checks the request first and
    answers 400 to one that names no student. Each handler is taken by
    itself: the class handlers with a class the requester does not own,
    the assignment handlers with such an assignment. *)
Theorem nonowner_cannot_mutate (user : AuthUser) (db : DB) :
  (forall classId class,
     Coll.findById classId (classes db) = Some class ->
     Class.adminId class <> uid user ->
     forall body,
       ClassController.updateClass user classId body db
       = (Fail 403
            "Not authorized to update this class. Only the class creator can update it.",
          db))
  /\ (forall classId class,
        Coll.findById classId (classes db) = Some class ->
        Class.adminId class <> uid user ->
        ClassController.deleteClass user classId db
        = (Fail 403
             "Not authorized to delete this class. Only the class creator can delete it.",
           db))
  /\ (forall classId class,
        Coll.findById classId (classes db) = Some class ->
        Class.adminId class <> uid user ->
        forall studentId,
          ClassController.removeStudentFromClass user classId studentId db
          = (if JS.truthyOpt studentId
             then Fail 403
                    "Not authorized to modify this class. Only the class creator can remove students."
             else Fail 400 "Student ID is required",
             db))
  /\ (forall assignmentId assignment,
        Coll.findById assignmentId (assignments db) = Some assignment ->
        Assignment.adminId assignment <> uid user ->
        forall body,
          AssignmentController.updateAssignment user assignmentId body db
          = (Fail 403 "Not authorized to update this assignment", db))
  /\ (forall assignmentId assignment,
        Coll.findById assignmentId (assignments db) = Some assignment ->
        Assignment.adminId assignment <> uid user ->
        AssignmentController.deleteAssignment user assignmentId db
        = (Fail 403 "Not authorized to delete this assignment", db)).
Proof.
  repeat split; intros ? ? Hfound Hnot; intros; apply eqb_false in Hnot.
  - unfold ClassController.updateClass. unfold_handler.
    rewrite Hfound. cbv beta iota. now rewrite Hnot.
  - unfold ClassController.deleteClass. unfold_handler.
    rewrite Hfound. cbv beta iota. now rewrite Hnot.
  - unfold ClassController.removeStudentFromClass. unfold_handler.
    destruct (JS.truthyOpt studentId); cbn [negb]; cbv beta iota; [|reflexivity].
    rewrite Hfound. cbv beta iota. now rewrite Hnot.
  - unfold AssignmentController.updateAssignment. unfold_handler.
    rewrite Hfound. cbv beta iota. now rewrite Hnot.
  - unfold AssignmentController.deleteAssignment. unfold_handler.
    rewrite Hfound. cbv beta iota. now rewrite Hnot.
Qed.

(** A class without assignments, and an assignment whose class is
    gone: each handler refuses the stranger by itself. *)
Lemma nonowner_cannot_mutate_witness :
  ClassController.deleteClass Sample.other "cls1"
    (mkDB [("cls1", Sample.class)] [] [] [])
  = (Fail 403 "Not authorized to delete this class. Only the class creator can delete it.",
     mkDB [("cls1", Sample.class)] [] [] [])
  /\ ClassController.removeStudentFromClass Sample.other "cls1" (Some "u1")
       (mkDB [("cls1", Sample.class)] [] [] [])
     = (Fail 403
          "Not authorized to modify this class. Only the class creator can remove students.",
        mkDB [("cls1", Sample.class)] [] [] [])
  /\ AssignmentController.deleteAssignment Sample.other "asg1"
       (mkDB [] [("asg1", Sample.assignment [])] [] [])
     = (Fail 403 "Not authorized to delete this assignment",
        mkDB [] [("asg1", Sample.assignment [])] [] []).
Proof.
  assert (Hne : "admin1" <> "admin2") by discriminate.
  split; [|split].
  - exact (proj1 (proj2 (nonowner_cannot_mutate Sample.other
                           (mkDB [("cls1", Sample.class)] [] [] [])))
             "cls1" Sample.class eq_refl Hne).
  - exact (proj1 (proj2 (proj2 (nonowner_cannot_mutate Sample.other
                                  (mkDB [("cls1", Sample.class)] [] [] []))))
             "cls1" Sample.class eq_refl Hne (Some "u1")).
  - exact (proj2 (proj2 (proj2 (proj2 (nonowner_cannot_mutate Sample.other
                                         (mkDB [] [("asg1", Sample.assignment [])] [] [])))))
             "asg1" (Sample.assignment []) eq_refl Hne).
Defined.

(** ** At most one submission per candidate *)

Lemma NoDup_map_filter {A B} (f : A -> B) (p : A -> bool) (l : list A) :
  NoDup (List.map f l) -> NoDup (List.map f (List.filter p l)).
Proof.
  induction l as [|x l IH]; cbn; intros H; [constructor|].
  apply NoDup_cons in H as [Hx Hl].
  destruct (p x); cbn; [|now apply IH].
  apply NoDup_cons. split; [|now apply IH].
  intros Hin. apply Hx. apply list_elem_of_In in Hin. apply list_elem_of_In.
  apply in_map_iff in Hin as [y [<- Hy]]. apply filter_In in Hy as [Hy _].
  now apply in_map.
Qed.

Lemma find_candidate_None (cand : string) (subs : list Submission.t) :
  List.find (fun sub => Submission.candidateId sub =? cand) subs = None <->
  ~ In cand (List.map Submission.candidateId subs).
Proof.
  split.
  - intros Hnone Hin. apply in_map_iff in Hin as [sub [<- Hsub]].
    apply (find_none _ _ Hnone) in Hsub. cbn in Hsub.
    now rewrite String.eqb_refl in Hsub.
  - intros Hnot. destruct (List.find _ subs) as [sub|] eqn:E; [|reflexivity].
    apply find_some in E as [Hin Heq]. apply eqb_true in Heq.
    exfalso. apply Hnot. rewrite <- Heq. now apply in_map.
Qed.

Lemma oneSubmission_append (a : Assignment.t) (stored : Submission.t) :
  oneSubmissionPerCandidate a ->
  List.find (fun sub => Submission.candidateId sub =? Submission.candidateId stored)
    (Assignment.submissions a) = None ->
  oneSubmissionPerCandidate
    (Assignment.setSubmissions (Assignment.submissions a ++ [stored])%list a).
Proof.
  unfold oneSubmissionPerCandidate. cbn. intros Hnd Hnone.
  apply find_candidate_None in Hnone.
  rewrite map_app. cbn. apply NoDup_app. split; [assumption|]. split.
  - intros x Hx Hx'. apply list_elem_of_In in Hx. apply list_elem_of_In in Hx'.
    destruct Hx' as [<-|[]]. contradiction.
  - apply NoDup_singleton.
Qed.

Lemma Forall_save {D} (P : string * D -> Prop) (id : string) (d : D) (c : Coll.t D) :
  Forall P c -> P (id, d) -> Forall P (Coll.save id d c).
Proof.
  intros Hc Hd. apply List.Forall_forall. intros p Hin.
  apply save_In in Hin as [Hin | ->]; [|assumption].
  now apply (proj1 (List.Forall_forall _ _) Hc).
Qed.

Lemma submissionsUnique_lookup (db : DB) (id : string) (a : Assignment.t) :
  submissionsUnique db -> Coll.findById id (assignments db) = Some a ->
  oneSubmissionPerCandidate a.
Proof.
  intros Hdb Ha. apply findById_Some in Ha.
  exact (proj1 (List.Forall_forall _ _) Hdb _ Ha).
Qed.

Lemma submitQuiz_keeps_unique now user id body db :
  submissionsUnique db ->
  submissionsUnique (snd (AssignmentController.submitQuiz now user id body db)).
Proof.
  intros Hdb.
  destruct (AssignmentController.submitQuiz now user id body db) as [[resp|s msg] db'] eqn:E;
    cbn [snd].
  - destruct (submitQuiz_accepted _ _ _ _ _ _ _ E)
      as (a & quiz & cid & cd & Ha & _ & _ & Hnone & _ & _ & -> & _).
    unfold submissionsUnique. cbn [assignments withAssignments].
    apply Forall_save; [assumption|]. cbn [snd].
    apply oneSubmission_append; [now apply (submissionsUnique_lookup db id)|exact Hnone].
  - now rewrite (submitQuiz_rejected _ _ _ _ _ _ _ _ E).
Qed.

Lemma editAssignment_submissions body a edited :
  AssignmentController.editAssignment body a = Ok edited ->
  Assignment.submissions edited
  = if AssignmentController.ua_allowRetake body then [] else Assignment.submissions a.
Proof.
  unfold AssignmentController.editAssignment.
  repeat case_match; try discriminate; intros Hedit; injection Hedit as <-; cbn;
    try reflexivity; congruence.
Qed.

Lemma updateAssignment_keeps_unique user id body db :
  submissionsUnique db ->
  submissionsUnique (snd (AssignmentController.updateAssignment user id body db)).
Proof.
  intros Hdb. unfold AssignmentController.updateAssignment. unfold_handler.
  destruct (Coll.findById id (assignments db)) as [a|] eqn:Ha; cbv beta iota; [|assumption].
  destruct (negb _); cbv beta iota; [assumption|].
  destruct (AssignmentController.editAssignment body a) as [edited|s msg] eqn:He;
    cbv beta iota; [|assumption].
  cbn [snd]. unfold submissionsUnique. cbn [assignments withAssignments].
  apply Forall_save; [assumption|]. cbn [snd]. unfold oneSubmissionPerCandidate.
  rewrite (editAssignment_submissions _ _ _ He).
  destruct (AssignmentController.ua_allowRetake body); [constructor|].
  now apply (submissionsUnique_lookup db id).
Qed.

Lemma removeStudent_keeps_unique user id studentId db :
  submissionsUnique db ->
  submissionsUnique (snd (ClassController.removeStudentFromClass user id studentId db)).
Proof.
  intros Hdb. unfold ClassController.removeStudentFromClass. unfold_handler.
  destruct (negb (JS.truthyOpt studentId)); cbv beta iota; [assumption|].
  destruct (Coll.findById id (classes db)) as [c|]; cbv beta iota; [|assumption].
  destruct (negb (Class.adminId c =? uid user)); cbv beta iota; [assumption|].
  destruct (negb (JS.includes _ _)); cbv beta iota; [assumption|].
  cbn [snd]. unfold submissionsUnique in *. cbn [assignments withAssignments withClasses].
  apply List.Forall_forall. intros p Hin. apply in_map_iff in Hin as [q [<- Hq]].
  pose proof (proj1 (List.Forall_forall _ _) Hdb q Hq) as Hone.
  unfold ClassController.dropSubmissionsOf.
  destruct (Assignment.classId (snd q) =? id); [|assumption].
  destruct (0 <? _)%nat; [|assumption].
  cbn [snd]. unfold oneSubmissionPerCandidate in *. cbn.
  now apply NoDup_map_filter.
Qed.

Lemma createAssignment_keeps_unique user newId body db :
  submissionsUnique db ->
  submissionsUnique (snd (AssignmentController.createAssignment user newId body db)).
Proof.
  intros Hdb. unfold AssignmentController.createAssignment. unfold_handler.
  destruct (_ || (AssignmentController.ca_timeLimit body =? 0)%Z);
    cbv beta iota; [assumption|].
  destruct (negb (JS.truthy (uid user))); cbv beta iota; [assumption|].
  destruct (Coll.findOne _ (quizzes db)); cbv beta iota; [|assumption].
  destruct (Coll.findOne _ (classes db)); cbv beta iota; [|assumption].
  destruct (_ || negb (JS.includes _ _)); cbv beta iota; [assumption|].
  cbn [snd]. unfold submissionsUnique, Coll.insert in *. cbn [assignments withAssignments].
  apply Forall_app. split; [assumption|].
  constructor; [|constructor]. cbn. constructor.
Qed.

Lemma deleteAssignment_keeps_unique user id db :
  submissionsUnique db ->
  submissionsUnique (snd (AssignmentController.deleteAssignment user id db)).
Proof.
  intros Hdb. unfold AssignmentController.deleteAssignment. unfold_handler.
  destruct (Coll.findById id (assignments db)) as [a|]; cbv beta iota; [|assumption].
  destruct (negb _); cbv beta iota; [assumption|].
  cbn [snd]. unfold submissionsUnique, Coll.deleteById in *.
  cbn [assignments withAssignments].
  apply List.Forall_forall. intros p Hin. apply filter_In in Hin as [Hin _].
  now apply (proj1 (List.Forall_forall _ _) Hdb).
Qed.

(** The class handlers other than [removeStudentFromClass] write to the
    classes only. *)
Lemma createClass_assignments user newId suffix title courseCode description db :
  assignments (snd (ClassController.createClass user newId suffix title courseCode
                      description db)) = assignments db.
Proof.
  unfold ClassController.createClass. unfold_handler.
  destruct (_ || negb (JS.truthy courseCode)); cbv beta iota; [reflexivity|].
  destruct (negb (JS.truthy (uid user))); cbv beta iota; [reflexivity|].
  destruct (bool_decide _); cbv beta iota; reflexivity.
Qed.

Lemma updateClass_assignments user id body db :
  assignments (snd (ClassController.updateClass user id body db)) = assignments db.
Proof.
  unfold ClassController.updateClass. unfold_handler.
  destruct (Coll.findById id (classes db)); cbv beta iota; [|reflexivity].
  destruct (negb (_ =? _)); cbv beta iota; [reflexivity|].
  destruct (negb (ClassController.updateValid body)); cbv beta iota; reflexivity.
Qed.

Lemma deleteClass_assignments user id db :
  assignments (snd (ClassController.deleteClass user id db)) = assignments db.
Proof.
  unfold ClassController.deleteClass. unfold_handler.
  destruct (Coll.findById id (classes db)); cbv beta iota; [|reflexivity].
  destruct (negb (_ =? _)); cbv beta iota; reflexivity.
Qed.

Lemma joinClass_assignments user inviteCode db :
  assignments (snd (ClassController.joinClass user inviteCode db)) = assignments db.
Proof.
  unfold ClassController.joinClass. unfold_handler.
  destruct (negb (Query.truthyOpt inviteCode)); cbv beta iota; [reflexivity|].
  destruct (negb (_ =? _)); cbv beta iota; [reflexivity|].
  destruct (Coll.findOne _ (classes db)) as [[cid c]|]; cbv beta iota; [|reflexivity].
  destruct (JS.includes _ _); cbv beta iota; reflexivity.
Qed.

(** The three [get] handlers write nothing. *)
Lemma getCandidateAssignments_reads user classId db :
  snd (AssignmentController.GetCandidateAssignments.getCandidateAssignments user classId db)
  = db.
Proof.
  unfold AssignmentController.GetCandidateAssignments.getCandidateAssignments.
  unfold_handler.
  destruct (negb (_ =? _)); cbv beta iota; [reflexivity|].
  destruct (Coll.findOne _ (classes db)) as [[cid c]|]; cbv beta iota; reflexivity.
Qed.

Lemma getSingleAssignment_reads now random user assignmentId db :
  snd (AssignmentController.GetSingleAssignment.getSingleAssignment now random user
         assignmentId db) = db.
Proof.
  unfold AssignmentController.GetSingleAssignment.getSingleAssignment. unfold_handler.
  destruct (negb (_ =? _)); cbv beta iota; [reflexivity|].
  destruct (Coll.findById assignmentId (assignments db)) as [a|]; cbv beta iota;
    [|reflexivity].
  destruct (Coll.findById _ (classes db)); cbv beta iota; [|reflexivity].
  destruct (Coll.findOne _ (classes db)); cbv beta iota; [|reflexivity].
  destruct (negb (AssignmentController.GetSingleAssignment.subgroupAllows _ _));
    cbv beta iota; [reflexivity|].
  destruct (Coll.findById _ (quizzes db)); cbv beta iota; reflexivity.
Qed.

Lemma getClassResults_reads user classId db :
  snd (AssignmentController.getClassResults user classId db) = db.
Proof.
  unfold AssignmentController.getClassResults. unfold_handler.
  destruct (Coll.findOne _ (classes db)) as [[cid c]|]; cbv beta iota; [|reflexivity].
  destruct (_ && existsb _ _); cbv beta iota; reflexivity.
Qed.

Lemma serve_keeps_unique (db : DB) (r : Request) :
  submissionsUnique db -> submissionsUnique (serve db r).
Proof.
  intros Hdb. destruct r; cbn [serve].
  - unfold submissionsUnique. now rewrite createClass_assignments.
  - unfold submissionsUnique. now rewrite updateClass_assignments.
  - unfold submissionsUnique. now rewrite deleteClass_assignments.
  - unfold submissionsUnique. now rewrite joinClass_assignments.
  - now apply removeStudent_keeps_unique.
  - now apply createAssignment_keeps_unique.
  - now apply updateAssignment_keeps_unique.
  - now apply deleteAssignment_keeps_unique.
  - now apply submitQuiz_keeps_unique.
  - now rewrite getCandidateAssignments_reads.
  - now rewrite getSingleAssignment_reads.
  - now rewrite getClassResults_reads.
Qed.

(** Requests handled one after the other, each from its first read to
    its last write without another in between. Starting from a database
    in which no assignment has two submissions of one candidate (for
    instance one without assignments: [createAssignment] starts each
    with an empty list), every database reached has at most one
    submission per candidate in every assignment. In particular
    [submitQuiz] answers a candidate who already has a submission with an
    error and leaves the database as it is; [updateAssignment] clears
    the list when [allowRetake] is true and keeps it otherwise, and
    [removeStudentFromClass] leaves each list as it is or without the
    entries of the removed student. *)
Lemma serial_requests_keep_one_submission (init : DB) (Hinit : submissionsUnique init) :
  (forall db, reachable init db -> submissionsUnique db)
  /\ (forall now user assignmentId body db assignment,
        Coll.findById assignmentId (assignments db) = Some assignment ->
        In (uid user) (List.map Submission.candidateId (Assignment.submissions assignment)) ->
        exists s msg,
          AssignmentController.submitQuiz now user assignmentId body db = (Fail s msg, db))
  /\ (forall user id body db edited db',
        AssignmentController.updateAssignment user id body db = (Ok edited, db') ->
        exists a, Coll.findById id (assignments db) = Some a
                  /\ Assignment.submissions edited
                     = if AssignmentController.ua_allowRetake body then []
                       else Assignment.submissions a)
  /\ (forall user id studentId db p,
        In p (assignments (snd (ClassController.removeStudentFromClass user id studentId db))) ->
        exists q, In q (assignments db) /\ fst p = fst q
                  /\ (Assignment.submissions (snd p) = Assignment.submissions (snd q)
                      \/ Assignment.submissions (snd p)
                         = List.filter
                             (fun sub => negb (Submission.candidateId sub
                                               =? default "" studentId))
                             (Assignment.submissions (snd q)))).
Proof.
  split; [|split; [|split]].
  - intros db Hreach. induction Hreach as [|db r _ IH]; [assumption|].
    now apply serve_keeps_unique.
  - intros now user aid body db a Ha Hin.
    destruct (AssignmentController.submitQuiz now user aid body db) as [[resp|s msg] db'] eqn:E.
    + exfalso.
      destruct (submitQuiz_accepted _ _ _ _ _ _ _ E)
        as (a' & _ & _ & _ & Ha' & _ & _ & Hnone & _).
      rewrite Ha in Ha'. injection Ha' as <-.
      apply find_candidate_None in Hnone. contradiction.
    + rewrite (submitQuiz_rejected _ _ _ _ _ _ _ _ E). now eauto.
  - intros user id body db edited db'.
    unfold AssignmentController.updateAssignment. unfold_handler.
    destruct (Coll.findById id (assignments db)) as [a|] eqn:Ha; cbv beta iota;
      [|discriminate].
    destruct (negb _); cbv beta iota; [discriminate|].
    destruct (AssignmentController.editAssignment body a) as [e|s msg] eqn:He;
      cbv beta iota; [|discriminate].
    intros Hok; injection Hok as <- <-.
    exists a. split; [reflexivity|]. exact (editAssignment_submissions _ _ _ He).
  - intros user id studentId db p.
    unfold ClassController.removeStudentFromClass. unfold_handler.
    assert (Hself : In p (assignments db) ->
             exists q, In q (assignments db) /\ fst p = fst q
                       /\ (Assignment.submissions (snd p) = Assignment.submissions (snd q)
                           \/ Assignment.submissions (snd p)
                              = List.filter
                                  (fun sub => negb (Submission.candidateId sub
                                                    =? default "" studentId))
                                  (Assignment.submissions (snd q)))).
    { intros Hp. exists p. repeat split; [assumption | now left]. }
    destruct (negb (JS.truthyOpt studentId)); cbv beta iota; [exact Hself|].
    destruct (Coll.findById id (classes db)) as [c|]; cbv beta iota; [|exact Hself].
    destruct (negb (Class.adminId c =? uid user)); cbv beta iota; [exact Hself|].
    destruct (negb (JS.includes _ _)); cbv beta iota; [exact Hself|].
    cbn [snd assignments withAssignments withClasses].
    intros Hin. apply in_map_iff in Hin as [q [<- Hq]]. exists q.
    split; [assumption|]. unfold ClassController.dropSubmissionsOf.
    destruct (Assignment.classId (snd q) =? id); [|split; [reflexivity | now left]].
    destruct (0 <? _)%nat; [|split; [reflexivity | now left]].
    cbn. split; [reflexivity | now right].
Qed.

Example serial_requests_keep_one_submission_example :
  submissionsUnique
    (serve (serve (Sample.database [Sample.raviSubmission])
              (SubmitQuiz 500 Sample.asha "asg1" (Sample.ashaBody None None None)))
       (SubmitQuiz 600 Sample.asha "asg1" (Sample.ashaBody None None None)))
  /\ length (assignments
               (serve (serve (Sample.database [Sample.raviSubmission])
                         (SubmitQuiz 500 Sample.asha "asg1" (Sample.ashaBody None None None)))
                  (SubmitQuiz 600 Sample.asha "asg1" (Sample.ashaBody None None None))))
     = 1%nat.
Proof.
  assert (Hinit : submissionsUnique (Sample.database [Sample.raviSubmission])).
  { unfold submissionsUnique. cbn. constructor; [|constructor].
    unfold oneSubmissionPerCandidate. cbn. apply NoDup_singleton. }
  split; [|vm_compute; reflexivity].
  apply (proj1 (serial_requests_keep_one_submission _ Hinit)).
  do 2 apply reach_serve. apply reach_init.
Qed.

(** *** Two requests of one candidate at the same time *)

(** Without another request in between, the two halves are the
    handler. *)
Lemma submitQuiz_read_then_save (now : Z) (user : AuthUser) (assignmentId : ObjectId)
    (body : AssignmentController.SubmitBody) (db : DB) :
  AssignmentController.submitQuiz now user assignmentId body db
  = AssignmentController.submitQuizSave assignmentId
      (fst (AssignmentController.submitQuizRead now user assignmentId body db)) db.
Proof.
  unfold AssignmentController.submitQuiz, AssignmentController.submitQuizRead,
    AssignmentController.submitQuizSave. unfold_handler.
  destruct (Coll.findById assignmentId (assignments db)) as [assignment|] eqn:Ha;
    cbv beta iota; [|reflexivity].
  destruct (Coll.findOne _ (classes db)) as [[cid classData]|];
    cbv beta iota; [|reflexivity].
  destruct (bool_decide (is_Some _)); cbv beta iota; [reflexivity|].
  destruct (_ && negb (JS.truthyBool _)); cbv beta iota; [reflexivity|].
  destruct (Coll.findById _ (quizzes db)) as [quiz|]; cbv beta iota; [|reflexivity].
  destruct (negb (bool_decide _) && _); cbv beta iota; [reflexivity|].
  destruct (AssignmentController.gradeQuiz _ _) as [score formattedAnswers].
  cbv beta iota.
  destruct (negb (Mongoose.validSubmission _)); cbv beta iota; reflexivity.
Qed.

(** The first half reads and writes nothing. *)
Lemma submitQuizRead_reads (now : Z) (user : AuthUser) (assignmentId : ObjectId)
    (body : AssignmentController.SubmitBody) (db : DB) :
  snd (AssignmentController.submitQuizRead now user assignmentId body db) = db.
Proof.
  unfold AssignmentController.submitQuizRead. unfold_handler.
  destruct (Coll.findById assignmentId (assignments db)) as [assignment|];
    cbv beta iota; [|reflexivity].
  destruct (Coll.findOne _ (classes db)) as [[cid classData]|];
    cbv beta iota; [|reflexivity].
  destruct (bool_decide (is_Some _)); cbv beta iota; [reflexivity|].
  destruct (_ && negb (JS.truthyBool _)); cbv beta iota; [reflexivity|].
  destruct (Coll.findById _ (quizzes db)) as [quiz|]; cbv beta iota; [|reflexivity].
  destruct (negb (bool_decide _) && _); cbv beta iota; [reflexivity|].
  destruct (AssignmentController.gradeQuiz _ _) as [score formattedAnswers].
  cbv beta iota.
  destruct (negb (Mongoose.validSubmission _)); cbv beta iota; reflexivity.
Qed.

(** What the first half prepares is a submission of the requester. *)
Lemma submitQuizRead_candidate (now : Z) (user : AuthUser) (assignmentId : ObjectId)
    (body : AssignmentController.SubmitBody) (db : DB)
    (stored : Submission.t) (resp : AssignmentController.SubmitResponse) :
  fst (AssignmentController.submitQuizRead now user assignmentId body db)
  = Ok (stored, resp) ->
  Submission.candidateId stored = uid user.
Proof.
  unfold AssignmentController.submitQuizRead. unfold_handler.
  destruct (Coll.findById assignmentId (assignments db)) as [assignment|];
    cbv beta iota; [|discriminate].
  destruct (Coll.findOne _ (classes db)) as [[cid classData]|];
    cbv beta iota; [|discriminate].
  destruct (bool_decide (is_Some _)); cbv beta iota; [discriminate|].
  destruct (_ && negb (JS.truthyBool _)); cbv beta iota; [discriminate|].
  destruct (Coll.findById _ (quizzes db)) as [quiz|]; cbv beta iota; [|discriminate].
  destruct (negb (bool_decide _) && _); cbv beta iota; [discriminate|].
  destruct (AssignmentController.gradeQuiz _ _) as [score formattedAnswers].
  cbv beta iota.
  destruct (negb (Mongoose.validSubmission _)); cbv beta iota; [discriminate|].
  cbn [fst]. intros H. injection H as <- _. reflexivity.
Qed.

(** C9. Two requests of one candidate for one assignment, the second
    received before the first has saved: both pass the check for an
    earlier submission, which each makes on the assignment as it read
    it; both saves append; both requests are answered 200, and the
    assignment holds two submissions of the candidate. The check and
    the save are not one step, and nothing in the schema or in the save
    refuses the second entry. *)
Theorem concurrent_submissions_are_both_stored
    (now1 now2 : Z) (user : AuthUser) (assignmentId : ObjectId)
    (body1 body2 : AssignmentController.SubmitBody) (db : DB)
    (assignment : Assignment.t)
    (stored1 stored2 : Submission.t) (resp1 resp2 : AssignmentController.SubmitResponse)
    (Ha : Coll.findById assignmentId (assignments db) = Some assignment)
    (Hread1 : fst (AssignmentController.submitQuizRead now1 user assignmentId body1 db)
              = Ok (stored1, resp1))
    (Hread2 : fst (AssignmentController.submitQuizRead now2 user assignmentId body2 db)
              = Ok (stored2, resp2)) :
  let saved1 := AssignmentController.submitQuizSave assignmentId (Ok (stored1, resp1)) db in
  let saved2 :=
    AssignmentController.submitQuizSave assignmentId (Ok (stored2, resp2)) (snd saved1) in
  fst saved1 = Ok resp1
  /\ fst saved2 = Ok resp2
  /\ Coll.findById assignmentId (assignments (snd saved2))
     = Some (Assignment.setSubmissions
               (Assignment.submissions assignment ++ [stored1; stored2])%list assignment)
  /\ Submission.candidateId stored1 = uid user
  /\ Submission.candidateId stored2 = uid user
  /\ ~ submissionsUnique (snd saved2).
Proof.
  intros saved1 saved2.
  set (a1 := Assignment.setSubmissions
               (Assignment.submissions assignment ++ [stored1])%list assignment).
  set (a2 := Assignment.setSubmissions
               (Assignment.submissions assignment ++ [stored1; stored2])%list assignment).
  assert (H1 : saved1 = (Ok resp1, withAssignments (Coll.save assignmentId a1) db)).
  { subst saved1. unfold AssignmentController.submitQuizSave. now rewrite Ha. }
  assert (Ha1 : Coll.findById assignmentId (assignments (snd saved1)) = Some a1).
  { rewrite H1. cbn [snd assignments withAssignments]. now apply (findById_save _ assignment). }
  assert (H2 : saved2
               = (Ok resp2, withAssignments (Coll.save assignmentId a2) (snd saved1))).
  { subst saved2. unfold AssignmentController.submitQuizSave. rewrite Ha1.
    unfold a1, a2. cbn [Assignment.setSubmissions Assignment.submissions
                        Assignment.quizId Assignment.classId Assignment.adminId
                        Assignment.subgroup Assignment.subclasses Assignment.dueDate
                        Assignment.timeLimit Assignment.weightage Assignment.weightageType].
    now rewrite <- app_assoc. }
  assert (Ha2 : Coll.findById assignmentId (assignments (snd saved2)) = Some a2).
  { rewrite H2. cbn [snd assignments withAssignments]. now apply (findById_save _ a1). }
  pose proof (submitQuizRead_candidate _ _ _ _ _ _ _ Hread1) as Hc1.
  pose proof (submitQuizRead_candidate _ _ _ _ _ _ _ Hread2) as Hc2.
  split; [now rewrite H1|]. split; [now rewrite H2|].
  split; [exact Ha2|]. split; [exact Hc1|]. split; [exact Hc2|].
  intros Huniq. unfold submissionsUnique in Huniq.
  rewrite List.Forall_forall in Huniq.
  specialize (Huniq _ (findById_Some _ _ _ Ha2)). cbn [snd] in Huniq.
  unfold oneSubmissionPerCandidate, a2 in Huniq.
  cbn [Assignment.setSubmissions Assignment.submissions] in Huniq.
  rewrite List.map_app in Huniq. apply NoDup_app in Huniq as (_ & _ & Hpair).
  cbn [List.map] in Hpair. rewrite Hc1, Hc2 in Hpair.
  apply NoDup_cons in Hpair as [Hnot _]. apply Hnot. now left.
Qed.

(** Asha's quiz is sent twice, the second request arriving while the
    first is still between its check and its save. *)
Lemma concurrent_submissions_are_both_stored_witness :
  let db := Sample.database [Sample.raviSubmission] in
  exists stored1 resp1 stored2 resp2,
    fst (AssignmentController.submitQuizRead 500 Sample.asha "asg1"
           (Sample.ashaBody None None None) db) = Ok (stored1, resp1)
    /\ fst (AssignmentController.submitQuizRead 501 Sample.asha "asg1"
              (Sample.ashaBody None None None) db) = Ok (stored2, resp2)
    /\ Coll.findById "asg1"
         (assignments
            (snd (AssignmentController.submitQuizSave "asg1" (Ok (stored2, resp2))
                    (snd (AssignmentController.submitQuizSave "asg1" (Ok (stored1, resp1))
                            db)))))
       = Some (Sample.assignment [Sample.raviSubmission; stored1; stored2])
    /\ List.map Submission.candidateId [Sample.raviSubmission; stored1; stored2]
       = ["u2"; "u1"; "u1"].
Proof.
  intros db.
  assert (Hrun1 : exists stored1 resp1,
    fst (AssignmentController.submitQuizRead 500 Sample.asha "asg1"
           (Sample.ashaBody None None None) db) = Ok (stored1, resp1)).
  { do 2 eexists. vm_compute. reflexivity. }
  assert (Hrun2 : exists stored2 resp2,
    fst (AssignmentController.submitQuizRead 501 Sample.asha "asg1"
           (Sample.ashaBody None None None) db) = Ok (stored2, resp2)).
  { do 2 eexists. vm_compute. reflexivity. }
  destruct Hrun1 as (stored1 & resp1 & Hrun1). destruct Hrun2 as (stored2 & resp2 & Hrun2).
  destruct (concurrent_submissions_are_both_stored 500 501 Sample.asha "asg1"
              (Sample.ashaBody None None None) (Sample.ashaBody None None None) db
              (Sample.assignment [Sample.raviSubmission]) stored1 stored2 resp1 resp2
              eq_refl Hrun1 Hrun2) as (_ & _ & Hstored & Hc1 & Hc2 & _).
  exists stored1, resp1, stored2, resp2.
  split; [exact Hrun1|]. split; [exact Hrun2|]. split; [exact Hstored|].
  cbn [List.map]. now rewrite Hc1, Hc2.
Defined.

(** ** Branch eligibility (getCandidateAssignments, getSingleAssignment) *)

Lemma upperChar_comma (c : ascii) : Ascii.eqb (JS.upperChar c) "," = Ascii.eqb c ",".
Proof.
  destruct c as [[] [] [] [] [] [] [] []]; reflexivity.
Qed.

Lemma includesChar_toUpperCase (s : string) :
  JS.includesChar "," (JS.toUpperCase s) = JS.includesChar "," s.
Proof.
  induction s as [|c s IH]; cbn; [reflexivity|].
  now rewrite upperChar_comma, IH.
Qed.

Lemma toUpperCase_empty (s : string) : JS.toUpperCase s = "" <-> s = "".
Proof. destruct s; cbn; split; congruence. Qed.

Lemma insertByDueDate_In p q l :
  In q (AssignmentController.insertByDueDate p l) <-> q = p \/ In q l.
Proof.
  induction l as [|x l IH]; cbn.
  - intuition.
  - destruct (_ <=? _)%Z; cbn; [intuition|]. rewrite IH. intuition.
Qed.

Lemma sortByDueDate_In q l : In q (AssignmentController.sortByDueDate l) <-> In q l.
Proof.
  unfold AssignmentController.sortByDueDate.
  induction l as [|x l IH]; cbn; [reflexivity|].
  rewrite insertByDueDate_In, IH. intuition.
Qed.

(** The captured group of a match is never empty. *)
Lemma run_le_length (p : ascii -> bool) (cap : option nat) (s : list ascii) :
  (Regex.run p cap s <= length s)%nat.
Proof.
  revert cap. induction s as [|c s IH]; intros cap; cbn; [lia|].
  destruct cap as [[|n]|]; cbn; [lia| |]; destruct (p c); try lia.
  - specialize (IH (Some n)). cbn in IH. lia.
  - specialize (IH None). cbn in IH. lia.
Qed.

Lemma tryDown_Some {R} (n lo : nat) (k : nat -> option R) (r : R) :
  Regex.tryDown n lo k = Some r -> exists m, (lo <= m <= n)%nat /\ k m = Some r.
Proof.
  induction n as [|n IH]; cbn [Regex.tryDown].
  - destruct (0 <? lo)%nat eqn:E; [discriminate|]. apply Nat.ltb_ge in E.
    destruct (k 0%nat) eqn:Hk; [|discriminate].
    intros H; injection H as <-. exists 0%nat. split; [lia | assumption].
  - destruct (S n <? lo)%nat eqn:E; [discriminate|]. apply Nat.ltb_ge in E.
    destruct (k (S n)) eqn:Hk.
    + intros H; injection H as <-. exists (S n). split; [lia | assumption].
    + intros H. destruct (IH H) as (m & Hm & Hkm). exists m. split; [lia | assumption].
Qed.

Lemma matchItems_capture (atEnd : bool) (its : list Regex.item) :
  Forall (fun it => Regex.captured it = true -> (1 <= Regex.rmin it)%nat) its ->
  forall s cap, Regex.matchItems atEnd its s = Some (Some cap) -> cap <> [].
Proof.
  induction 1 as [|it rest Hit _ IH]; intros s cap; cbn.
  - destruct atEnd; [destruct s|]; discriminate.
  - intros H. apply tryDown_Some in H as (n & Hn & Hk).
    destruct (Regex.matchItems atEnd rest (drop n s)) as [c|] eqn:Hrest; [|discriminate].
    destruct (Regex.captured it) eqn:Hcap.
    + injection Hk as <-. specialize (Hit eq_refl).
      pose proof (run_le_length (Regex.cls it) (Regex.rmax it) s) as Hlen.
      intros E. apply (f_equal length) in E. rewrite length_take in E. cbn in E. lia.
    + injection Hk as ->. now apply (IH (drop n s)).
Qed.

Lemma searchItems_capture (atEnd : bool) (its : list Regex.item) :
  Forall (fun it => Regex.captured it = true -> (1 <= Regex.rmin it)%nat) its ->
  forall s cap, Regex.searchItems atEnd its s = Some (Some cap) -> cap <> [].
Proof.
  intros Hits s. induction s as [|c s IH]; intros cap; cbn.
  - destruct (Regex.matchItems atEnd its []) as [m|] eqn:E; [|discriminate].
    intros H; injection H as ->. now apply (matchItems_capture atEnd its Hits []).
  - destruct (Regex.matchItems atEnd its (c :: s)) as [m|] eqn:E; [|apply IH].
    intros H; injection H as ->. now apply (matchItems_capture atEnd its Hits (c :: s)).
Qed.

Lemma group1_nonempty (re : Regex.regex) (str b : string) :
  Forall (fun it => Regex.captured it = true -> (1 <= Regex.rmin it)%nat) (Regex.items re) ->
  Regex.group1 re str = Some b -> b <> "".
Proof.
  intros Hits. unfold Regex.group1.
  destruct (Regex.anchoredStart re).
  - destruct (Regex.matchItems _ _ _) as [[cap|]|] eqn:E; try discriminate.
    intros H; injection H as <-.
    apply (matchItems_capture _ _ Hits) in E. now destruct cap.
  - destruct (Regex.searchItems _ _ _) as [[cap|]|] eqn:E; try discriminate.
    intros H; injection H as <-.
    apply (searchItems_capture _ _ Hits) in E. now destruct cap.
Qed.

Lemma firstBranch_nonempty (regNum b : string) :
  Regex.firstBranch regNum = Some b -> b <> "".
Proof.
  unfold Regex.firstBranch.
  assert (Hgood : forall re, In re [Regex.pattern1; Regex.pattern2; Regex.pattern3;
                                    Regex.pattern4] ->
            Forall (fun it => Regex.captured it = true -> (1 <= Regex.rmin it)%nat)
              (Regex.items re)).
  { intros re [<-|[<-|[<-|[<-|[]]]]]; cbn; repeat constructor; cbn; intros; lia || discriminate. }
  destruct (Regex.group1 Regex.pattern1 regNum) eqn:E1.
  { intros H; injection H as <-. apply (group1_nonempty _ _ _ (Hgood Regex.pattern1 ltac:(cbn; tauto)) E1). }
  destruct (Regex.group1 Regex.pattern2 regNum) eqn:E2.
  { intros H; injection H as <-. apply (group1_nonempty _ _ _ (Hgood Regex.pattern2 ltac:(cbn; tauto)) E2). }
  destruct (Regex.group1 Regex.pattern3 regNum) eqn:E3.
  { intros H; injection H as <-. apply (group1_nonempty _ _ _ (Hgood Regex.pattern3 ltac:(cbn; tauto)) E3). }
  intros E4. apply (group1_nonempty _ _ _ (Hgood Regex.pattern4 ltac:(cbn; tauto)) E4).
Qed.

(** The filter of [getCandidateAssignments] is the eligibility rule of
    the specification. *)
Lemma eligible_spec (branch : option string) (a : Assignment.t) :
  branch <> Some "" ->
  AssignmentController.GetCandidateAssignments.eligible branch a = true
  <-> EligibilitySpec.eligible branch (Assignment.subgroup a).
Proof.
  intros Hbranch.
  unfold AssignmentController.GetCandidateAssignments.eligible, EligibilitySpec.eligible.
  destruct (JS.truthy (Assignment.subgroup a)) eqn:Hsg; cbn [negb].
  - apply truthy_nonempty in Hsg.
    destruct branch as [b|]; cbn [JS.truthyOpt default from_option id].
    + assert (Hb : JS.truthy b = true) by (apply truthy_nonempty; congruence).
      rewrite Hb. cbn [negb]. rewrite includesChar_toUpperCase.
      destruct (JS.includesChar "," (Assignment.subgroup a)).
      * rewrite includes_In. split.
        -- intros H. right. now exists b.
        -- intros [H|(b' & E & H)]; [contradiction|]. now injection E as <-.
      * rewrite eqb_true. split.
        -- intros H. right. now exists b.
        -- intros [H|(b' & E & H)]; [contradiction|]. now injection E as <-.
    + split; [discriminate|]. intros [H|(b' & E & _)]; [contradiction | discriminate].
  - unfold JS.truthy in Hsg. apply negb_false_iff, eqb_true in Hsg.
    split; [now left | reflexivity].
Qed.

Lemma extractBranch_nonempty (reg : string) :
  AssignmentController.GetCandidateAssignments.extractBranch reg <> Some "".
Proof.
  unfold AssignmentController.GetCandidateAssignments.extractBranch.
  destruct (negb (JS.truthy reg)); [discriminate|].
  intros H. now apply firstBranch_nonempty in H.
Qed.

(** X1 (the first part of C3). What [getCandidateAssignments] returns
    to an enrolled candidate: the assignments of the class that the
    eligibility rule admits for the branch extracted from the
    candidate's registration number, and only unrestricted ones when no
    branch can be extracted. *)
Theorem getCandidateAssignments_eligibility
    (user : AuthUser) (classId : ObjectId) (db db' : DB)
    (items : list AssignmentController.GetCandidateAssignments.AssignmentWithStatus)
    (Hok : AssignmentController.GetCandidateAssignments.getCandidateAssignments
             user classId db = (Ok items, db')) :
  let branch :=
    AssignmentController.GetCandidateAssignments.extractBranch
      (AssignmentController.GetCandidateAssignments.registrationOf
         (Coll.findById (uid user) (users db))) in
  (forall aid a,
     (exists item,
        In item items
        /\ AssignmentController.GetCandidateAssignments.assignmentId item = aid
        /\ AssignmentController.GetCandidateAssignments.assignment item = a)
     <-> (In (aid, a) (assignments db) /\ Assignment.classId a = classId
          /\ EligibilitySpec.eligible branch (Assignment.subgroup a)))
  /\ (branch = None ->
      forall item, In item items ->
        Assignment.subgroup (AssignmentController.GetCandidateAssignments.assignment item)
        = "").
Proof.
  intros branch.
  revert Hok. unfold AssignmentController.GetCandidateAssignments.getCandidateAssignments.
  unfold_handler.
  destruct (negb (_ =? _)); cbv beta iota; [discriminate|].
  destruct (Coll.findOne _ (classes db)) as [[cid c]|]; cbv beta iota; [|discriminate].
  intros Hok; injection Hok as <- <-. fold branch.
  assert (Hitem : forall aid a,
    (exists item,
        In item
          (List.map (AssignmentController.GetCandidateAssignments.withStatus (uid user) c)
             (List.filter
                (fun p => AssignmentController.GetCandidateAssignments.eligible branch (snd p))
                (AssignmentController.sortByDueDate
                   (Coll.find (fun _ a => Assignment.classId a =? classId)
                      (assignments db)))))
        /\ AssignmentController.GetCandidateAssignments.assignmentId item = aid
        /\ AssignmentController.GetCandidateAssignments.assignment item = a)
    <-> (In (aid, a) (assignments db) /\ Assignment.classId a = classId
         /\ EligibilitySpec.eligible branch (Assignment.subgroup a))).
  { intros aid a. split.
    - intros (item & Hin & <- & <-).
      apply in_map_iff in Hin as [[i x] [<- Hin]]. cbn.
      apply filter_In in Hin as [Hin Hel]. apply (proj1 (sortByDueDate_In _ _)) in Hin.
      unfold Coll.find in Hin. apply filter_In in Hin as [Hin Hc]. cbn in Hc, Hel.
      split; [assumption|]. split; [now apply eqb_true|].
      apply eligible_spec; [apply extractBranch_nonempty | assumption].
    - intros (Hin & Hc & Hel).
      exists (AssignmentController.GetCandidateAssignments.withStatus (uid user) c (aid, a)).
      split; [|split; reflexivity].
      apply in_map, filter_In. split.
      + apply (proj2 (sortByDueDate_In _ _)). unfold Coll.find. apply filter_In.
        split; [assumption|].
        cbn. now apply eqb_true.
      + cbn. apply eligible_spec; [apply extractBranch_nonempty | assumption]. }
  split; [exact Hitem|].
  intros Hnone item Hin.
  destruct (proj1 (Hitem _ _) (ex_intro _ item (conj Hin (conj eq_refl eq_refl))))
    as (_ & _ & [Hempty | (b & Hb & _)]); [assumption | congruence].
Qed.

Lemma getCandidateAssignments_eligibility_witness :
  exists items,
    AssignmentController.GetCandidateAssignments.getCandidateAssignments
      Sample.ravi "cls1" (Sample.database [])
    = (Ok items, Sample.database [])
    /\ exists item,
         In item items
         /\ AssignmentController.GetCandidateAssignments.assignmentId item = "asg1"
         /\ AssignmentController.GetCandidateAssignments.assignment item
            = Sample.assignment [].
Proof.
  eexists. split; [vm_compute; reflexivity|].
  apply (proj1 (getCandidateAssignments_eligibility Sample.ravi "cls1"
                  (Sample.database []) _ _ eq_refl)).
  split; [left; reflexivity|]. split; [reflexivity|].
  right. exists "BCE". split; [vm_compute; reflexivity | reflexivity].
Defined.

(** C3, as the code behaves. A candidate whose registration
    number is written in lower case, 22bce10100, enrolled in the class
    of an assignment restricted to BCE: [getCandidateAssignments], which
    upper-cases the number before it matches the patterns, extracts BCE
    and lists the assignment; [getSingleAssignment], which only trims
    it, extracts no branch and answers 403 for the same assignment. *)
Theorem lowercase_registration_diverges :
  AssignmentController.GetCandidateAssignments.extractBranch "22bce10100" = Some "BCE"
  /\ AssignmentController.GetSingleAssignment.extractBranch "22bce10100" = None
  /\ (exists items,
        AssignmentController.GetCandidateAssignments.getCandidateAssignments
          Sample.asha "cls1" (Sample.database [])
        = (Ok items, Sample.database [])
        /\ List.map AssignmentController.GetCandidateAssignments.assignmentId items
           = ["asg1"])
  /\ AssignmentController.GetSingleAssignment.getSingleAssignment
       500 (fun _ => 0%nat) Sample.asha "asg1" (Sample.database [])
     = (Fail 403 "You are not authorized to access this quiz (subgroup mismatch)",
        Sample.database []).
Proof.
  split; [vm_compute; reflexivity|]. split; [vm_compute; reflexivity|].
  split; [eexists; split; vm_compute; reflexivity|].
  vm_compute. reflexivity.
Qed.

(** With the registration number in upper case the two handlers extract
    the same branch. *)
Lemma extractBranch_agree_upper (reg : string) :
  JS.toUpperCase reg = reg ->
  AssignmentController.GetSingleAssignment.extractBranch reg
  = AssignmentController.GetCandidateAssignments.extractBranch reg.
Proof.
  intros H. unfold AssignmentController.GetSingleAssignment.extractBranch,
    AssignmentController.GetCandidateAssignments.extractBranch.
  now rewrite H.
Qed.

(** The schema requires a non-empty [selectedAnswer]: a request that
    leaves a question of the quiz without an answer is not accepted, so
    the record of an unanswered question is never stored. *)
Lemma submitQuiz_unanswered_rejected (now : Z) (user : AuthUser) (assignmentId : ObjectId)
    (body : AssignmentController.SubmitBody) (db : DB)
    (assignment : Assignment.t) (quiz : Quiz.t) (q : Question.t) :
  Coll.findById assignmentId (assignments db) = Some assignment ->
  Coll.findById (Assignment.quizId assignment) (quizzes db) = Some quiz ->
  In q (Quiz.questions quiz) ->
  GradingSpec.answerTo (default ∅ (AssignmentController.answers body)) q = None ->
  isOk (fst (AssignmentController.submitQuiz now user assignmentId body db)) = false.
Proof.
  intros Ha Hq Hin Hnone.
  destruct (AssignmentController.submitQuiz now user assignmentId body db)
    as [[resp|s msg] db'] eqn:E; [|reflexivity].
  exfalso.
  destruct (submitQuiz_accepted _ _ _ _ _ _ _ E)
    as (a & qz & _ & _ & Ha' & Hq' & _ & _ & _ & Hv & _).
  rewrite Ha in Ha'. injection Ha' as <-. rewrite Hq in Hq'. injection Hq' as <-.
  unfold Mongoose.validSubmission in Hv. cbn [Submission.answers] in Hv.
  apply andb_prop in Hv as [_ Hv].
  rewrite forallb_forall in Hv.
  specialize (Hv _ (in_map (GradingSpec.expectedRecord _) _ _ Hin)).
  unfold GradingSpec.expectedRecord in Hv. rewrite Hnone in Hv.
  unfold Mongoose.validAnswer in Hv. cbn in Hv. rewrite andb_false_r in Hv. discriminate.
Qed.

(** ** The patterns and string primitives on sample inputs *)

Example regex_22BCE : Regex.firstBranch "22BCE10100" = Some "BCE".
Proof. reflexivity. Qed.
Example regex_2024 : Regex.firstBranch "2024BCE001" = Some "BCE".
Proof. reflexivity. Qed.
Example regex_plain : Regex.firstBranch "BCE001" = Some "BCE".
Proof. reflexivity. Qed.
Example regex_general : Regex.firstBranch "X-ABCDEF-7" = Some "ABCD".
Proof. reflexivity. Qed.
Example regex_lower : Regex.firstBranch "22bce10100" = None.
Proof. reflexivity. Qed.
Example trim_ex : JS.trim "  a b  " = "a b".
Proof. reflexivity. Qed.
Example split_ex : JS.split "," "BCE, MIM,BAI" = ["BCE"; " MIM"; "BAI"].
Proof. reflexivity. Qed.


(** X2. Where the two handlers agree: for a registration number already in
    upper case and a subgroup stored trimmed (the schema trims it),
    [getSingleAssignment] admits a candidate exactly when the filter of
    [getCandidateAssignments] keeps the assignment. *)
Theorem subgroupAllows_agrees_upper (candidate : option User.t) (a : Assignment.t)
    (Htrim : JS.trim (Assignment.subgroup a) = Assignment.subgroup a)
    (Hupper : forall c reg, candidate = Some c -> User.registrationNumber c = Some reg ->
                            JS.toUpperCase reg = reg) :
  AssignmentController.GetSingleAssignment.subgroupAllows candidate a
  = AssignmentController.GetCandidateAssignments.eligible
      (AssignmentController.GetCandidateAssignments.extractBranch
         (AssignmentController.GetCandidateAssignments.registrationOf candidate)) a.
Proof.
  unfold AssignmentController.GetSingleAssignment.subgroupAllows,
    AssignmentController.GetCandidateAssignments.eligible,
    AssignmentController.GetCandidateAssignments.registrationOf.
  destruct (negb (JS.truthy (Assignment.subgroup a))); [reflexivity|].
  rewrite Htrim.
  destruct candidate as [c|]; [|reflexivity].
  destruct (User.registrationNumber c) as [reg|] eqn:Hreg;
    cbn [JS.truthyOpt default from_option id negb]; [|reflexivity].
  rewrite (extractBranch_agree_upper reg (Hupper c reg eq_refl Hreg)).
  destruct (JS.truthy reg) eqn:Ht; cbn [negb]; [reflexivity|].
  unfold AssignmentController.GetCandidateAssignments.extractBranch.
  rewrite Ht. reflexivity.
Qed.

Lemma subgroupAllows_agrees_upper_witness :
  AssignmentController.GetSingleAssignment.subgroupAllows
    (Some (User.mk (Some "22BCE10101"))) (Sample.assignment [])
  = true.
Proof.
  rewrite (subgroupAllows_agrees_upper (Some (User.mk (Some "22BCE10101")))
             (Sample.assignment []) eq_refl).
  - vm_compute. reflexivity.
  - intros c reg Hc Hreg. injection Hc as <-. injection Hreg as <-. reflexivity.
Defined.


(** * Further properties of the controllers *)

(** ** The shape of an extracted branch *)

Lemma run_le_cap (p : ascii -> bool) (m : nat) (s : list ascii) :
  (Regex.run p (Some m) s <= m)%nat.
Proof.
  revert m. induction s as [|c s IH]; intros m; cbn; [lia|].
  destruct m as [|m]; [lia|]. destruct (p c); [|lia].
  specialize (IH m). cbn. lia.
Qed.

Lemma run_take_all (p : ascii -> bool) (cap : option nat) (s : list ascii) (n : nat) :
  (n <= Regex.run p cap s)%nat -> forallb p (take n s) = true.
Proof.
  revert cap n. induction s as [|c s IH]; intros cap n; cbn.
  - intros Hn. now replace n with 0%nat by lia.
  - destruct n as [|n]; [reflexivity|]. cbn [take firstn forallb].
    destruct (p c) eqn:Hc.
    + destruct cap as [[|m]|]; cbn; intros Hn; try lia; eapply IH; apply le_S_n, Hn.
    + destruct cap as [[|m]|]; cbn; lia.
Qed.

(** What a match captures: a run of the captured item's class whose
    length is within the item's bounds. *)
Lemma matchItems_captured (atEnd : bool) (its : list Regex.item) (s cap : list ascii) :
  Regex.matchItems atEnd its s = Some (Some cap) ->
  exists it, In it its /\ Regex.captured it = true
             /\ (Regex.rmin it <= length cap)%nat
             /\ (forall m, Regex.rmax it = Some m -> (length cap <= m)%nat)
             /\ forallb (Regex.cls it) cap = true.
Proof.
  revert s. induction its as [|it rest IH]; intros s; cbn.
  - destruct atEnd; [destruct s|]; discriminate.
  - intros H. apply tryDown_Some in H as (n & Hn & Hk).
    destruct (Regex.matchItems atEnd rest (drop n s)) as [c|] eqn:Hrest; [|discriminate].
    destruct (Regex.captured it) eqn:Hcap.
    + injection Hk as <-. exists it.
      pose proof (run_le_length (Regex.cls it) (Regex.rmax it) s) as Hlen.
      assert (Hl : length (take n s) = n) by (rewrite length_take; lia).
      split; [now left|]. split; [assumption|]. split; [lia|]. split.
      * intros m Hm. rewrite Hm in Hn. pose proof (run_le_cap (Regex.cls it) m s). lia.
      * apply (run_take_all _ (Regex.rmax it)). lia.
    + injection Hk as ->. destruct (IH _ Hrest) as (it' & Hin & H').
      exists it'. split; [now right | exact H'].
Qed.

Lemma searchItems_captured (atEnd : bool) (its : list Regex.item) (s cap : list ascii) :
  Regex.searchItems atEnd its s = Some (Some cap) ->
  exists it, In it its /\ Regex.captured it = true
             /\ (Regex.rmin it <= length cap)%nat
             /\ (forall m, Regex.rmax it = Some m -> (length cap <= m)%nat)
             /\ forallb (Regex.cls it) cap = true.
Proof.
  induction s as [|c s IH]; cbn.
  - destruct (Regex.matchItems atEnd its []) as [m|] eqn:E; [|discriminate].
    intros H; injection H as ->. now apply matchItems_captured in E.
  - destruct (Regex.matchItems atEnd its (c :: s)) as [m|] eqn:E; [|apply IH].
    intros H; injection H as ->. now apply matchItems_captured in E.
Qed.

Lemma length_string_of_list_ascii (l : list ascii) :
  String.length (string_of_list_ascii l) = length l.
Proof. induction l; cbn; congruence. Qed.

Lemma group1_isBranch (re : Regex.regex) (str b : string) :
  (forall it, In it (Regex.items re) -> Regex.captured it = true -> it = Regex.branchGroup) ->
  Regex.group1 re str = Some b -> isBranch b.
Proof.
  intros Hits. unfold Regex.group1.
  assert (Hcap : forall cap,
    (exists it, In it (Regex.items re) /\ Regex.captured it = true
                /\ (Regex.rmin it <= length cap)%nat
                /\ (forall m, Regex.rmax it = Some m -> (length cap <= m)%nat)
                /\ forallb (Regex.cls it) cap = true) ->
    isBranch (string_of_list_ascii cap)).
  { intros cap (it & Hin & Hc & Hlo & Hhi & Hall).
    rewrite (Hits it Hin Hc) in *. cbn in Hlo, Hhi, Hall.
    specialize (Hhi 4%nat eq_refl). unfold isBranch.
    rewrite length_string_of_list_ascii, list_ascii_of_string_of_list_ascii.
    split; [lia | assumption]. }
  destruct (Regex.anchoredStart re).
  - destruct (Regex.matchItems _ _ _) as [[cap|]|] eqn:E; try discriminate.
    intros H; injection H as <-. apply Hcap. now apply matchItems_captured in E.
  - destruct (Regex.searchItems _ _ _) as [[cap|]|] eqn:E; try discriminate.
    intros H; injection H as <-. apply Hcap. now apply searchItems_captured in E.
Qed.

Lemma firstBranch_isBranch (regNum b : string) :
  Regex.firstBranch regNum = Some b -> isBranch b.
Proof.
  unfold Regex.firstBranch.
  assert (Hgood : forall re, In re [Regex.pattern1; Regex.pattern2; Regex.pattern3;
                                    Regex.pattern4] ->
            forall it, In it (Regex.items re) -> Regex.captured it = true ->
                       it = Regex.branchGroup).
  { intros re [<-|[<-|[<-|[<-|[]]]]] it Hin Hc; cbn in Hin;
      repeat (destruct Hin as [<-|Hin]; [try reflexivity; discriminate|]); destruct Hin. }
  destruct (Regex.group1 Regex.pattern1 regNum) eqn:E1.
  { intros H; injection H as <-.
    apply (group1_isBranch _ _ _ (Hgood Regex.pattern1 ltac:(cbn; tauto)) E1). }
  destruct (Regex.group1 Regex.pattern2 regNum) eqn:E2.
  { intros H; injection H as <-.
    apply (group1_isBranch _ _ _ (Hgood Regex.pattern2 ltac:(cbn; tauto)) E2). }
  destruct (Regex.group1 Regex.pattern3 regNum) eqn:E3.
  { intros H; injection H as <-.
    apply (group1_isBranch _ _ _ (Hgood Regex.pattern3 ltac:(cbn; tauto)) E3). }
  intros E4. apply (group1_isBranch _ _ _ (Hgood Regex.pattern4 ltac:(cbn; tauto)) E4).
Qed.

Lemma upperChar_of_upper (c : ascii) : JS.isUpper c = true -> JS.upperChar c = c.
Proof.
  destruct c as [[] [] [] [] [] [] [] []]; cbn; intros H; try discriminate; reflexivity.
Qed.

Lemma toUpperCase_of_upper (l : list ascii) :
  forallb JS.isUpper l = true ->
  JS.toUpperCase (string_of_list_ascii l) = string_of_list_ascii l.
Proof.
  induction l as [|c l IH]; cbn; [reflexivity|].
  intros H. apply andb_prop in H as [Hc Hl].
  now rewrite (upperChar_of_upper c Hc), (IH Hl).
Qed.

(** X3. Whatever the registration number, a branch extracted by either
    handler is two to four capital letters; upper-casing it, as both
    handlers do before they compare it with the subgroup, changes
    nothing. *)
Theorem extractBranch_is_branch (reg b : string)
    (H : AssignmentController.GetSingleAssignment.extractBranch reg = Some b
         \/ AssignmentController.GetCandidateAssignments.extractBranch reg = Some b) :
  (2 <= String.length b <= 4)%nat
  /\ forallb JS.isUpper (list_ascii_of_string b) = true
  /\ JS.toUpperCase b = b.
Proof.
  assert (Hb : isBranch b).
  { destruct H as [H|H];
      [unfold AssignmentController.GetSingleAssignment.extractBranch in H
      |unfold AssignmentController.GetCandidateAssignments.extractBranch in H];
      destruct (negb (JS.truthy reg)); try discriminate;
      now apply firstBranch_isBranch in H. }
  destruct Hb as [Hlen Hall]. split; [exact Hlen|]. split; [exact Hall|].
  rewrite <- (string_of_list_ascii_of_string b) at 2.
  rewrite <- (string_of_list_ascii_of_string b) at 1.
  now apply toUpperCase_of_upper.
Qed.

Lemma extractBranch_is_branch_witness :
  (2 <= String.length "ABCD" <= 4)%nat /\ JS.toUpperCase "ABCD" = "ABCD".
Proof.
  destruct (extractBranch_is_branch "x-abcdef-7" "ABCD" (or_intror eq_refl))
    as (Hlen & _ & Hup).
  split; [exact Hlen | exact Hup].
Defined.

(** ** Registration numbers in the documented formats *)

Lemma tryDown_top {R} (n lo : nat) (k : nat -> option R) (r : R) :
  (lo <= n)%nat -> k n = Some r -> Regex.tryDown n lo k = Some r.
Proof.
  intros Hlo Hk. destruct n as [|n]; cbn [Regex.tryDown];
    (destruct (_ <? lo)%nat eqn:E; [apply Nat.ltb_lt in E; lia|]); now rewrite Hk.
Qed.

Lemma tryDown_below {R} (n lo : nat) (k : nat -> option R) :
  (n < lo)%nat -> Regex.tryDown n lo k = None.
Proof.
  intros Hlo. destruct n; cbn [Regex.tryDown];
    (destruct (_ <? lo)%nat eqn:E; [reflexivity | apply Nat.ltb_ge in E; lia]).
Qed.

Lemma run_app_stop (p : ascii -> bool) (cap : option nat) (l r : list ascii) :
  forallb p l = true ->
  (forall m, cap = Some m -> (length l <= m)%nat) ->
  stopsAt p r ->
  Regex.run p cap (l ++ r) = length l.
Proof.
  revert cap. induction l as [|c l IH]; intros cap Hall Hcap Hstop.
  - cbn. destruct r as [|c r]; [reflexivity|]. cbn in Hstop. cbn. rewrite Hstop.
    now destruct cap as [[|m]|].
  - cbn in Hall. apply andb_prop in Hall as [Hc Hl]. cbn. rewrite Hc.
    destruct cap as [[|m]|].
    + specialize (Hcap 0%nat eq_refl). cbn in Hcap. lia.
    + cbn. f_equal. apply IH; [assumption| |assumption].
      intros m' [= <-]. specialize (Hcap (S m) eq_refl). cbn in Hcap. lia.
    + cbn. f_equal. apply IH; [assumption| |assumption]. discriminate.
Qed.

Lemma digit_not_upper (c : ascii) : JS.isDigit c = true -> JS.isUpper c = false.
Proof. destruct c as [[] [] [] [] [] [] [] []]; cbn; intros H; try discriminate; reflexivity. Qed.

Lemma upper_not_digit (c : ascii) : JS.isUpper c = true -> JS.isDigit c = false.
Proof. destruct c as [[] [] [] [] [] [] [] []]; cbn; intros H; try discriminate; reflexivity. Qed.

Lemma digit_not_space (c : ascii) : JS.isDigit c = true -> JS.isSpace c = false.
Proof. destruct c as [[] [] [] [] [] [] [] []]; cbn; intros H; try discriminate; reflexivity. Qed.

Lemma upper_not_space (c : ascii) : JS.isUpper c = true -> JS.isSpace c = false.
Proof. destruct c as [[] [] [] [] [] [] [] []]; cbn; intros H; try discriminate; reflexivity. Qed.

Lemma upperChar_of_digit (c : ascii) : JS.isDigit c = true -> JS.upperChar c = c.
Proof. destruct c as [[] [] [] [] [] [] [] []]; cbn; intros H; try discriminate; reflexivity. Qed.

(** The tail shared by the three anchored patterns, on letters followed
    by digits: the group takes all the letters. *)
Lemma match_branch_roll (L N : list ascii) :
  (2 <= length L <= 4)%nat -> forallb JS.isUpper L = true ->
  N <> [] -> forallb JS.isDigit N = true ->
  Regex.matchItems true [Regex.branchGroup; Regex.digits 1 None] (L ++ N) = Some (Some L).
Proof.
  intros HL HU HN HD. cbn [Regex.matchItems Regex.cls Regex.rmin Regex.rmax Regex.captured
                           Regex.branchGroup Regex.digits].
  rewrite run_app_stop; [|assumption|intros m [= <-]; lia|].
  2:{ destruct N as [|c N]; [easy|]. cbn in HD |- *. apply andb_prop in HD as [Hc _].
      now apply digit_not_upper. }
  apply tryDown_top; [lia|].
  rewrite drop_app_length, take_app_length.
  pose proof (run_app_stop JS.isDigit None N [] HD ltac:(discriminate) I) as Hrun.
  rewrite app_nil_r in Hrun.
  cbn [Regex.matchItems Regex.cls Regex.rmin Regex.rmax Regex.captured]. rewrite Hrun.
  rewrite (tryDown_top (length N) 1 _ None); [reflexivity| |].
  - destruct N; [easy | cbn; lia].
  - rewrite drop_all. reflexivity.
Qed.

Lemma letters_stop_digits (L N : list ascii) :
  (2 <= length L)%nat -> forallb JS.isUpper L = true -> stopsAt JS.isDigit (L ++ N).
Proof.
  destruct L as [|c L]; cbn; [lia|]. intros _ H. apply andb_prop in H as [Hc _].
  now apply upper_not_digit.
Qed.

Lemma matchItems_cons (atEnd : bool) (it : Regex.item) (rest : list Regex.item)
    (s : list ascii) :
  Regex.matchItems atEnd (it :: rest) s
  = Regex.tryDown (Regex.run (Regex.cls it) (Regex.rmax it) s) (Regex.rmin it) (fun n =>
      match Regex.matchItems atEnd rest (drop n s) with
      | Some cap => Some (if Regex.captured it then Some (take n s) else cap)
      | None => None
      end).
Proof. reflexivity. Qed.

(** [\d{n}] in front of a pattern takes the [n] leading digits when a
    non-digit follows them. *)
Lemma matchItems_year (n : nat) (rest : list Regex.item) (P s : list ascii)
    (r : option (list ascii)) :
  forallb JS.isDigit P = true -> length P = n -> stopsAt JS.isDigit s ->
  Regex.matchItems true rest s = Some r ->
  Regex.matchItems true (Regex.digits n (Some n) :: rest) (P ++ s) = Some r.
Proof.
  intros HP Hn Hstop Hrest. rewrite matchItems_cons.
  cbn [Regex.cls Regex.rmin Regex.rmax Regex.captured Regex.digits].
  rewrite run_app_stop; [|assumption|intros m [= <-]; lia|assumption].
  apply tryDown_top; [lia|]. now rewrite drop_app_length, Hrest.
Qed.

(** It fails when fewer than [n] digits lead the text. *)
Lemma matchItems_year_short (n : nat) (rest : list Regex.item) (P s : list ascii) :
  forallb JS.isDigit P = true -> (length P < n)%nat -> stopsAt JS.isDigit s ->
  Regex.matchItems true (Regex.digits n (Some n) :: rest) (P ++ s) = None.
Proof.
  intros HP Hn Hstop. rewrite matchItems_cons.
  cbn [Regex.cls Regex.rmin Regex.rmax Regex.captured Regex.digits].
  rewrite run_app_stop; [|assumption|intros m [= <-]; lia|assumption].
  now apply tryDown_below.
Qed.

(** The group fails on a text that starts with a digit. *)
Lemma matchItems_branch_digit (rest : list Regex.item) (c : ascii) (s : list ascii) :
  JS.isDigit c = true ->
  Regex.matchItems true (Regex.branchGroup :: rest) (c :: s) = None.
Proof.
  intros Hc. rewrite matchItems_cons.
  cbn [Regex.cls Regex.rmin Regex.rmax Regex.captured Regex.branchGroup Regex.run].
  now rewrite (digit_not_upper c Hc).
Qed.

Lemma firstBranch_canonical (P L N : list ascii) :
  (length P = 0 \/ length P = 2 \/ length P = 4)%nat -> forallb JS.isDigit P = true ->
  (2 <= length L <= 4)%nat -> forallb JS.isUpper L = true ->
  N <> [] -> forallb JS.isDigit N = true ->
  Regex.firstBranch (string_of_list_ascii (P ++ L ++ N)) = Some (string_of_list_ascii L).
Proof.
  intros HP HPd HL HU HN HD.
  pose proof (match_branch_roll L N HL HU HN HD) as Htail.
  pose proof (letters_stop_digits L N (proj1 HL) HU) as Hstop.
  unfold Regex.firstBranch, Regex.group1.
  rewrite list_ascii_of_string_of_list_ascii.
  cbn [Regex.pattern1 Regex.pattern2 Regex.pattern3 Regex.anchoredStart
       Regex.anchoredEnd Regex.items].
  destruct (decide (length P = 2%nat)) as [H2|H2].
  { now rewrite (matchItems_year 2 _ P (L ++ N) (Some L) HPd H2 Hstop Htail). }
  destruct (decide (length P = 4%nat)) as [H4|H4].
  - (* a four-digit year: the first pattern fails, the second matches *)
    destruct P as [|a [|b [|c [|d [|e P]]]]]; try discriminate. clear HP H2 H4.
    cbn in HPd. apply andb_prop in HPd as [Ha HPd]. apply andb_prop in HPd as [Hb HPd].
    apply andb_prop in HPd as [Hc HPd]. apply andb_prop in HPd as [Hd _].
    assert (H1 : Regex.matchItems true
                   [Regex.digits 2 (Some 2); Regex.branchGroup; Regex.digits 1 None]
                   ([a; b; c; d] ++ L ++ N)%list = None).
    { rewrite matchItems_cons.
      cbn [Regex.cls Regex.rmin Regex.rmax Regex.digits Regex.captured app].
      cbn [Regex.run fmap option_fmap option_map pred]. rewrite Ha, Hb.
      cbn [Regex.tryDown Nat.ltb Nat.leb drop].
      now rewrite (matchItems_branch_digit _ c _ Hc). }
    rewrite H1.
    rewrite (matchItems_year 4 _ [a; b; c; d] (L ++ N) (Some L)); try assumption;
      try reflexivity. cbn. now rewrite Ha, Hb, Hc, Hd.
  - (* no year: the third pattern *)
    assert (H0 : length P = 0%nat) by lia.
    rewrite (matchItems_year_short 2 _ P (L ++ N) HPd ltac:(lia) Hstop).
    rewrite (matchItems_year_short 4 _ P (L ++ N) HPd ltac:(lia) Hstop).
    destruct P; [|discriminate]. cbn [app]. now rewrite Htail.
Qed.

Lemma append_cons (c : ascii) (a b : string) : String c a ++ b = String c (a ++ b).
Proof. reflexivity. Qed.

Lemma mapChars_app (f : ascii -> ascii) (a b : string) :
  JS.mapChars f (a ++ b) = JS.mapChars f a ++ JS.mapChars f b.
Proof.
  induction a as [|c a IH]; [reflexivity|].
  rewrite append_cons. cbn [JS.mapChars]. now rewrite append_cons, IH.
Qed.

Lemma mapChars_fixed (f : ascii -> ascii) (p : ascii -> bool) (s : string) :
  (forall c, p c = true -> f c = c) -> allChars p s = true -> JS.mapChars f s = s.
Proof.
  intros Hf. unfold allChars. induction s as [|c s IH]; cbn; [reflexivity|].
  intros H. apply andb_prop in H as [Hc Hs]. now rewrite (Hf c Hc), (IH Hs).
Qed.

Lemma mapChars_length (f : ascii -> ascii) (s : string) :
  String.length (JS.mapChars f s) = String.length s.
Proof. induction s; cbn; congruence. Qed.

Lemma list_ascii_of_string_app (a b : string) :
  list_ascii_of_string (a ++ b) = (list_ascii_of_string a ++ list_ascii_of_string b)%list.
Proof.
  induction a as [|c a IH]; [reflexivity|].
  rewrite append_cons. cbn [list_ascii_of_string app]. now rewrite IH.
Qed.

Lemma allChars_app (p : ascii -> bool) (a b : string) :
  allChars p (a ++ b) = allChars p a && allChars p b.
Proof. unfold allChars. now rewrite list_ascii_of_string_app, forallb_app. Qed.

Lemma allChars_impl (p q : ascii -> bool) (s : string) :
  (forall c, p c = true -> q c = true) -> allChars p s = true -> allChars q s = true.
Proof.
  intros Hpq. unfold allChars. induction (list_ascii_of_string s) as [|c l IH]; cbn;
    [reflexivity|]. intros H. apply andb_prop in H as [Hc Hl].
  now rewrite (Hpq c Hc), (IH Hl).
Qed.

Lemma length_list_ascii_of_string (s : string) :
  length (list_ascii_of_string s) = String.length s.
Proof. induction s; cbn; congruence. Qed.

(** [trim] leaves a text without white space as it is. *)
Lemma trimEnd_nospace (s : string) :
  allChars (fun c => negb (JS.isSpace c)) s = true -> JS.trimEnd s = s.
Proof.
  unfold allChars. induction s as [|c s IH]; cbn; [reflexivity|].
  intros H. apply andb_prop in H as [Hc Hs]. rewrite (IH Hs).
  destruct s; [|reflexivity]. apply negb_true_iff in Hc. now rewrite Hc.
Qed.

Lemma trim_nospace (s : string) :
  allChars (fun c => negb (JS.isSpace c)) s = true -> JS.trim s = s.
Proof.
  intros H. unfold JS.trim.
  assert (Hs : JS.trimStart s = s).
  { destruct s as [|c s]; [reflexivity|]. unfold allChars in H. cbn in H |- *.
    apply andb_prop in H as [Hc _]. apply negb_true_iff in Hc. now rewrite Hc. }
  rewrite Hs. now apply trimEnd_nospace.
Qed.

Lemma upperChar_letter (c : ascii) :
  JS.isUpper c || JS.isLower c = true -> JS.isUpper (JS.upperChar c) = true.
Proof. destruct c as [[] [] [] [] [] [] [] []]; cbn; intros H; try discriminate; reflexivity. Qed.

Lemma toUpperCase_letters (s : string) :
  allChars (fun c => JS.isUpper c || JS.isLower c) s = true ->
  allChars JS.isUpper (JS.toUpperCase s) = true.
Proof.
  unfold allChars. induction s as [|c s IH]; cbn; [reflexivity|].
  intros H. apply andb_prop in H as [Hc Hs]. now rewrite (upperChar_letter c Hc), (IH Hs).
Qed.

(** On year, capital letters and roll number, [trim] changes nothing
    and the patterns find the letters. *)
Lemma firstBranch_trim_documented (year U roll : string) :
  (String.length year = 0 \/ String.length year = 2 \/ String.length year = 4)%nat ->
  allChars JS.isDigit year = true ->
  (2 <= String.length U <= 4)%nat -> allChars JS.isUpper U = true ->
  roll <> "" -> allChars JS.isDigit roll = true ->
  JS.truthy (year ++ U ++ roll) = true
  /\ Regex.firstBranch (JS.trim (year ++ U ++ roll)) = Some U.
Proof.
  intros Hy Hyd HU HUu Hr Hrd. split.
  - destruct year; cbn; [|reflexivity]. destruct U; cbn in HU |- *; [lia | reflexivity].
  - rewrite trim_nospace.
    2:{ rewrite !allChars_app.
        rewrite (allChars_impl JS.isDigit _ year), (allChars_impl JS.isUpper _ U),
          (allChars_impl JS.isDigit _ roll); try assumption; try reflexivity;
          intros c Hc; apply negb_true_iff;
          first [now apply digit_not_space | now apply upper_not_space]. }
    rewrite <- (string_of_list_ascii_of_string U) at 2.
    rewrite <- (firstBranch_canonical (list_ascii_of_string year) (list_ascii_of_string U)
                  (list_ascii_of_string roll)).
    + now rewrite <- !list_ascii_of_string_app, string_of_list_ascii_of_string.
    + now rewrite length_list_ascii_of_string.
    + exact Hyd.
    + now rewrite length_list_ascii_of_string.
    + exact HUu.
    + destruct roll; [congruence | discriminate].
    + exact Hrd.
Qed.

(** X4. The documented registration formats: an optional year of two
    or four digits, two to four letters, and a roll number of at least
    one digit (22BCE10100, 2024BCE001, BCE001). The list handler
    extracts the letters in upper case whatever their case; the
    single-assignment handler extracts them when they are capitals. *)
Theorem extractBranch_documented_formats (year letters roll : string)
    (Hyear : (String.length year = 0 \/ String.length year = 2
              \/ String.length year = 4)%nat)
    (Hyear_digits : allChars JS.isDigit year = true)
    (Hlen : (2 <= String.length letters <= 4)%nat)
    (Hletters : allChars (fun c => JS.isUpper c || JS.isLower c) letters = true)
    (Hroll : roll <> "")
    (Hroll_digits : allChars JS.isDigit roll = true) :
  AssignmentController.GetCandidateAssignments.extractBranch (year ++ letters ++ roll)
  = Some (JS.toUpperCase letters)
  /\ (allChars JS.isUpper letters = true ->
      AssignmentController.GetSingleAssignment.extractBranch (year ++ letters ++ roll)
      = Some letters).
Proof.
  split.
  - unfold AssignmentController.GetCandidateAssignments.extractBranch.
    assert (Ht : JS.truthy (year ++ letters ++ roll) = true).
    { destruct year; cbn; [|reflexivity].
      destruct letters; cbn in Hlen |- *; [lia | reflexivity]. }
    rewrite Ht. cbn [negb]. unfold JS.toUpperCase at 1. rewrite !mapChars_app.
    rewrite (mapChars_fixed _ JS.isDigit year upperChar_of_digit Hyear_digits).
    rewrite (mapChars_fixed _ JS.isDigit roll upperChar_of_digit Hroll_digits).
    apply firstBranch_trim_documented; try assumption.
    + unfold JS.toUpperCase. now rewrite mapChars_length.
    + now apply toUpperCase_letters.
  - intros Hup. unfold AssignmentController.GetSingleAssignment.extractBranch.
    destruct (firstBranch_trim_documented year letters roll) as [Ht Hb]; try assumption.
    now rewrite Ht.
Qed.

Lemma extractBranch_documented_formats_witness :
  AssignmentController.GetCandidateAssignments.extractBranch "2024BCE001" = Some "BCE"
  /\ AssignmentController.GetSingleAssignment.extractBranch "2024BCE001" = Some "BCE".
Proof.
  destruct (extractBranch_documented_formats "2024" "BCE" "001") as [Hlist Hsingle];
    first [reflexivity | discriminate | cbn; lia | (right; right; reflexivity) | idtac].
  split; [exact Hlist | exact (Hsingle eq_refl)].
Defined.

(** ** Short answers: case and surrounding white space *)

Lemma lower_upper_char (c : ascii) : JS.lowerChar (JS.upperChar c) = JS.lowerChar c.
Proof. destruct c as [[] [] [] [] [] [] [] []]; reflexivity. Qed.

Lemma lower_lower_char (c : ascii) : JS.lowerChar (JS.lowerChar c) = JS.lowerChar c.
Proof. destruct c as [[] [] [] [] [] [] [] []]; reflexivity. Qed.

Lemma isSpace_upperChar (c : ascii) : JS.isSpace (JS.upperChar c) = JS.isSpace c.
Proof. destruct c as [[] [] [] [] [] [] [] []]; reflexivity. Qed.

Lemma isSpace_lowerChar (c : ascii) : JS.isSpace (JS.lowerChar c) = JS.isSpace c.
Proof. destruct c as [[] [] [] [] [] [] [] []]; reflexivity. Qed.

Lemma mapChars_mapChars (f g : ascii -> ascii) (s : string) :
  JS.mapChars f (JS.mapChars g s) = JS.mapChars (fun c => f (g c)) s.
Proof. induction s as [|c s IH]; cbn; [reflexivity | now rewrite IH]. Qed.

Lemma mapChars_ext (f g : ascii -> ascii) (s : string) :
  (forall c, f c = g c) -> JS.mapChars f s = JS.mapChars g s.
Proof. intros H. induction s as [|c s IH]; cbn; [reflexivity | now rewrite H, IH]. Qed.

Section TrimMap.
Variable f : ascii -> ascii.
Hypothesis f_space : forall c, JS.isSpace (f c) = JS.isSpace c.

Lemma trimStart_mapChars (s : string) :
  JS.trimStart (JS.mapChars f s) = JS.mapChars f (JS.trimStart s).
Proof.
  induction s as [|c s IH]; cbn; [reflexivity|].
  rewrite f_space. destruct (JS.isSpace c); [exact IH | reflexivity].
Qed.

Lemma trimEnd_mapChars (s : string) :
  JS.trimEnd (JS.mapChars f s) = JS.mapChars f (JS.trimEnd s).
Proof.
  induction s as [|c s IH]; cbn; [reflexivity|].
  rewrite IH, f_space. destruct (JS.trimEnd s); cbn; [|reflexivity].
  destruct (JS.isSpace c); reflexivity.
Qed.

Lemma trim_mapChars (s : string) : JS.trim (JS.mapChars f s) = JS.mapChars f (JS.trim s).
Proof. unfold JS.trim. now rewrite trimStart_mapChars, trimEnd_mapChars. Qed.

End TrimMap.

Lemma trimEnd_spaces (pad : string) : allChars JS.isSpace pad = true -> JS.trimEnd pad = "".
Proof.
  unfold allChars. induction pad as [|c pad IH]; cbn; [reflexivity|].
  intros H. apply andb_prop in H as [Hc Hp]. now rewrite (IH Hp), Hc.
Qed.

Lemma trimEnd_app_spaces (s pad : string) :
  allChars JS.isSpace pad = true -> JS.trimEnd (s ++ pad) = JS.trimEnd s.
Proof.
  intros Hp. induction s as [|c s IH].
  - cbn. now apply trimEnd_spaces.
  - rewrite append_cons. cbn [JS.trimEnd]. now rewrite IH.
Qed.

Lemma trimStart_spaces_app (pad s : string) :
  allChars JS.isSpace pad = true -> JS.trimStart (pad ++ s) = JS.trimStart s.
Proof.
  unfold allChars. induction pad as [|c pad IH]; [reflexivity|].
  cbn [list_ascii_of_string forallb]. intros H. apply andb_prop in H as [Hc Hp].
  rewrite append_cons. cbn [JS.trimStart]. now rewrite Hc, (IH Hp).
Qed.

Lemma trimStart_spaces (pad : string) :
  allChars JS.isSpace pad = true -> JS.trimStart pad = "".
Proof.
  unfold allChars. induction pad as [|c pad IH]; cbn; [reflexivity|].
  intros H. apply andb_prop in H as [Hc Hp]. now rewrite Hc, (IH Hp).
Qed.

Lemma trim_app_spaces (s pad : string) :
  allChars JS.isSpace pad = true -> JS.trim (s ++ pad) = JS.trim s.
Proof.
  intros Hp. unfold JS.trim. induction s as [|c s IH].
  - change ("" ++ pad) with pad. now rewrite (trimStart_spaces pad Hp).
  - rewrite append_cons. cbn [JS.trimStart]. destruct (JS.isSpace c); [exact IH|].
    rewrite <- append_cons. now apply trimEnd_app_spaces.
Qed.

Lemma trim_padded (lead s trail : string) :
  allChars JS.isSpace lead = true -> allChars JS.isSpace trail = true ->
  JS.trim (lead ++ s ++ trail) = JS.trim s.
Proof.
  intros Hl Ht. unfold JS.trim at 1. rewrite trimStart_spaces_app by assumption.
  fold (JS.trim (s ++ trail)). now apply trim_app_spaces.
Qed.

Lemma toLowerCase_trim_toUpperCase (s : string) :
  JS.toLowerCase (JS.trim (JS.toUpperCase s)) = JS.toLowerCase (JS.trim s).
Proof.
  unfold JS.toUpperCase, JS.toLowerCase.
  rewrite (trim_mapChars _ isSpace_upperChar), mapChars_mapChars.
  apply mapChars_ext, lower_upper_char.
Qed.

Lemma toLowerCase_trim_toLowerCase (s : string) :
  JS.toLowerCase (JS.trim (JS.toLowerCase s)) = JS.toLowerCase (JS.trim s).
Proof.
  unfold JS.toLowerCase.
  rewrite (trim_mapChars _ isSpace_lowerChar), mapChars_mapChars.
  apply mapChars_ext, lower_lower_char.
Qed.

(** X5. A short answer in ASCII to a question whose reference answer
    is in ASCII is graded without regard to the case of its letters or
    to white space around it: typing the answer in capitals or in small
    letters, with spaces, tabs or line breaks (the ASCII white space)
    before and after, gets the verdict of the answer itself. Outside
    ASCII the primitives of JavaScript do more than those modelled
    here (a sharp s becomes two capitals, a no-break space is trimmed),
    and nothing is claimed. *)
Theorem short_answer_ignores_case_and_padding (question : Question.t)
    (given lead trail : string)
    (Hshort : Question.type question = "short_answer")
    (Hgiven : JS.isAscii given = true)
    (Hreference : JS.isAscii (Question.answer question) = true)
    (Hlead : allChars JS.isSpace lead = true)
    (Htrail : allChars JS.isSpace trail = true) :
  AssignmentController.isCorrectAnswer question (lead ++ given ++ trail)
  = AssignmentController.isCorrectAnswer question given
  /\ AssignmentController.isCorrectAnswer question (lead ++ JS.toUpperCase given ++ trail)
     = AssignmentController.isCorrectAnswer question given
  /\ AssignmentController.isCorrectAnswer question (lead ++ JS.toLowerCase given ++ trail)
     = AssignmentController.isCorrectAnswer question given.
Proof.
  unfold AssignmentController.isCorrectAnswer. rewrite Hshort, String.eqb_refl.
  rewrite !trim_padded by assumption.
  now rewrite toLowerCase_trim_toUpperCase, toLowerCase_trim_toLowerCase.
Qed.

Lemma short_answer_ignores_case_and_padding_witness :
  AssignmentController.isCorrectAnswer
    (Question.mk "q2" "short_answer" "Capital of France" [] "Paris")
    (" " ++ JS.toUpperCase "Paris" ++ "  ")
  = AssignmentController.isCorrectAnswer
      (Question.mk "q2" "short_answer" "Capital of France" [] "Paris") "Paris".
Proof.
  exact (proj1 (proj2 (short_answer_ignores_case_and_padding
    (Question.mk "q2" "short_answer" "Capital of France" [] "Paris") "Paris" " " "  "
    eq_refl eq_refl eq_refl eq_refl eq_refl))).
Defined.

(** ** submitQuiz: what the response shows *)

Lemma correctCount_le (answers : gmap string string) (qs : list Question.t) :
  (GradingSpec.correctCount answers qs <= length qs)%nat.
Proof. unfold GradingSpec.correctCount. apply length_filter. Qed.

(** X6. An accepted submission is stored with its score
    [(correct / total) * 100], the correct answers being at most the
    quiz's questions; the response to the candidate carries neither the
    score nor the number of questions nor the number of correct answers,
    and its [showResults] is [undefined]: [classSchema] declares no
    [showResults] path, so [classData.showResults] is [undefined] on
    every class and the three fields are [null]. *)
Theorem submitQuiz_response_hides_results (now : Z) (user : AuthUser)
    (assignmentId : ObjectId) (body : AssignmentController.SubmitBody) (db db' : DB)
    (resp : AssignmentController.SubmitResponse)
    (Haccepted : AssignmentController.submitQuiz now user assignmentId body db
                 = (Ok resp, db')) :
  exists assignment quiz stored,
    Coll.findById assignmentId (assignments db) = Some assignment
    /\ Coll.findById (Assignment.quizId assignment) (quizzes db) = Some quiz
    /\ Coll.findById assignmentId (assignments db')
       = Some (Assignment.setSubmissions
                 (Assignment.submissions assignment ++ [stored])%list assignment)
    /\ Submission.candidateId stored = uid user
    /\ let correct := GradingSpec.correctCount (default ∅ (AssignmentController.answers body))
                        (Quiz.questions quiz) in
       let total := length (Quiz.questions quiz) in
       Submission.score stored = AssignmentController.percentageScore correct total
       /\ (correct <= total)%nat
       /\ AssignmentController.sr_showResults resp = None
       /\ AssignmentController.sr_score resp = None
       /\ AssignmentController.sr_totalQuestions resp = None
       /\ AssignmentController.sr_correctCount resp = None.
Proof.
  revert Haccepted. unfold AssignmentController.submitQuiz. unfold_handler.
  destruct (Coll.findById assignmentId (assignments db)) as [assignment|] eqn:Ha;
    cbv beta iota; [|discriminate].
  destruct (Coll.findOne _ (classes db)) as [[cid classData]|] eqn:Hc;
    cbv beta iota; [|discriminate].
  destruct (bool_decide (is_Some _)) eqn:Hex; cbv beta iota; [discriminate|].
  destruct (_ && negb (JS.truthyBool _)) eqn:Hlate;
    cbv beta iota; [discriminate|].
  destruct (Coll.findById _ (quizzes db)) as [quiz|] eqn:Hq; cbv beta iota; [|discriminate].
  destruct (negb (bool_decide _) && _); cbv beta iota; [discriminate|].
  rewrite gradeQuiz_spec. cbv beta iota.
  destruct (negb (Mongoose.validSubmission _)) eqn:Hv; cbv beta iota; [discriminate|].
  intros H; injection H as <- <-.
  eexists assignment, quiz, _.
  split; [assumption || reflexivity|]. split; [assumption || reflexivity|].
  split; [cbn [assignments withAssignments]; apply (findById_save _ _ _ _ Ha)|].
  split; [reflexivity|]. cbn zeta.
  split; [reflexivity|]. split; [apply correctCount_le|].
  repeat split; reflexivity.
Qed.

Lemma submitQuiz_response_hides_results_witness :
  exists resp stored,
    AssignmentController.submitQuiz 500 Sample.asha "asg1" (Sample.ashaBody None None None)
      (Sample.database [Sample.raviSubmission])
    = (Ok resp,
       snd (AssignmentController.submitQuiz 500 Sample.asha "asg1"
              (Sample.ashaBody None None None)
              (Sample.database [Sample.raviSubmission])))
    /\ Coll.findById "asg1"
         (assignments
            (snd (AssignmentController.submitQuiz 500 Sample.asha "asg1"
                    (Sample.ashaBody None None None)
                    (Sample.database [Sample.raviSubmission]))))
       = Some (Sample.assignment [Sample.raviSubmission; stored])
    /\ Submission.score stored = AssignmentController.percentageScore 3 5
    /\ AssignmentController.sr_score resp = None
    /\ AssignmentController.sr_totalQuestions resp = None
    /\ AssignmentController.sr_correctCount resp = None.
Proof.
  assert (Hrun : exists resp,
             AssignmentController.submitQuiz 500 Sample.asha "asg1"
               (Sample.ashaBody None None None)
               (Sample.database [Sample.raviSubmission])
             = (Ok resp,
                snd (AssignmentController.submitQuiz 500 Sample.asha "asg1"
                       (Sample.ashaBody None None None)
                       (Sample.database [Sample.raviSubmission])))).
  { eexists. vm_compute. reflexivity. }
  destruct Hrun as [resp Hrun].
  destruct (submitQuiz_response_hides_results _ _ _ _ _ _ _ Hrun)
    as (assignment & quiz & stored & Ha & Hq & Hdb & _ & Hrest).
  vm_compute in Ha. injection Ha as <-. vm_compute in Hq. injection Hq as <-.
  cbv zeta in Hrest. destruct Hrest as (Hscore & _ & _ & Hs & Htotal & Hcorrect).
  exists resp, stored. split; [exact Hrun|]. split; [exact Hdb|].
  split; [rewrite Hscore; vm_compute; reflexivity|].
  repeat split; assumption.
Defined.

(** ** Lookups after a change of the collection *)

Lemma findOne_ext {D} (f g : string -> D -> bool) (c : Coll.t D) :
  (forall i d, f i d = g i d) -> Coll.findOne f c = Coll.findOne g c.
Proof.
  intros H. unfold Coll.findOne. induction c as [|[i d] c IH]; cbn; [reflexivity|].
  now rewrite H, IH.
Qed.

Lemma findById_save_other {D} (id j : string) (d : D) (c : Coll.t D) :
  j <> id -> Coll.findById j (Coll.save id d c) = Coll.findById j c.
Proof.
  intros Hne. unfold Coll.findById, Coll.findOne, Coll.save.
  induction c as [|[i x] c IH]; cbn; [reflexivity|].
  destruct (String.eqb_spec i id) as [->|Hi]; cbn.
  - assert (E : (id =? j) = false) by (apply eqb_false; congruence).
    rewrite E. exact IH.
  - destruct (i =? j); [reflexivity | exact IH].
Qed.

(** A change of the documents that keeps their ids. *)
Lemma findById_map {D} (g : D -> D) (h : string * D -> string * D) (c : Coll.t D)
    (id : string) :
  (forall p, h p = (fst p, g (snd p))) ->
  Coll.findById id (List.map h c) = g <$> Coll.findById id c.
Proof.
  intros Hh. unfold Coll.findById, Coll.findOne.
  induction c as [|[i x] c IH]; cbn; [reflexivity|].
  rewrite Hh. cbn. destruct (i =? id); [reflexivity | exact IH].
Qed.

Lemma findById_insert {D} (id newId : string) (d : D) (c : Coll.t D) :
  Coll.findById id (Coll.insert newId d c)
  = match Coll.findById id c with
    | Some x => Some x
    | None => if newId =? id then Some d else None
    end.
Proof.
  unfold Coll.findById, Coll.findOne, Coll.insert.
  induction c as [|[i x] c IH]; cbn.
  - now destruct (newId =? id).
  - destruct (i =? id); [reflexivity | exact IH].
Qed.

Lemma findById_deleteById {D} (id j : string) (c : Coll.t D) :
  Coll.findById j (Coll.deleteById id c)
  = if j =? id then None else Coll.findById j c.
Proof.
  unfold Coll.findById, Coll.findOne, Coll.deleteById.
  induction c as [|[i x] c IH]; cbn.
  - now destruct (j =? id).
  - destruct (String.eqb_spec i id) as [->|Hi]; cbn.
    + rewrite IH. rewrite (String.eqb_sym id j). now destruct (j =? id).
    + destruct (String.eqb_spec i j) as [->|Hj]; cbn.
      * apply eqb_false in Hi. now rewrite Hi.
      * exact IH.
Qed.

Lemma filter_all_length {A} (p : A -> bool) (l : list A) :
  length (List.filter p l) = length l -> List.filter p l = l.
Proof.
  induction l as [|x l IH]; cbn; [reflexivity|].
  destruct (p x); cbn; intros H.
  - f_equal. apply IH. lia.
  - pose proof (List.filter_length_le p l). lia.
Qed.

Lemma filter_split_length {A} (p : A -> bool) (l : list A) :
  (length (List.filter p l) + length (List.filter (fun x => negb (p x)) l))%nat = length l.
Proof. induction l as [|x l IH]; cbn; [reflexivity|]. destruct (p x); cbn; lia. Qed.

Lemma setSubmissions_same (a : Assignment.t) :
  Assignment.setSubmissions (Assignment.submissions a) a = a.
Proof. now destruct a. Qed.

(** The loop of [removeStudentFromClass] saves an assignment only when
    it removed a submission; the stored result is the filtered list
    either way. *)
Lemma dropSubmissionsOf_spec (id sid : string) (p : string * Assignment.t) :
  ClassController.dropSubmissionsOf id sid p
  = (fst p, if Assignment.classId (snd p) =? id then withoutCandidate sid (snd p)
            else snd p).
Proof.
  unfold ClassController.dropSubmissionsOf, withoutCandidate. destruct p as [i a]. cbn [fst snd].
  destruct (Assignment.classId a =? id); [|reflexivity].
  destruct (0 <? _)%nat eqn:E; [reflexivity|].
  apply Nat.ltb_ge in E.
  pose proof (List.filter_length_le (fun sub => negb (Submission.candidateId sub =? sid))
                (Assignment.submissions a)) as Hle.
  rewrite filter_all_length by lia. now rewrite setSubmissions_same.
Qed.

Lemma removedCount_spec (id sid : string) (p : string * Assignment.t) :
  (ClassController.removedCount id sid p
   + length (Assignment.submissions (snd (ClassController.dropSubmissionsOf id sid p))))%nat
  = length (Assignment.submissions (snd p)).
Proof.
  rewrite dropSubmissionsOf_spec. unfold ClassController.removedCount, withoutCandidate.
  cbn [snd]. destruct (Assignment.classId (snd p) =? id); [|reflexivity].
  destruct (snd p) as [? ? ? ? ? ? ? ? ? subs]. cbn.
  apply (filter_split_length (fun sub => Submission.candidateId sub =? sid)).
Qed.

(** ** removeStudentFromClass: what a successful removal leaves *)

Lemma submissionCount_removed (id sid : string) (l : Coll.t Assignment.t) :
  (list_sum (List.map (ClassController.removedCount id sid) l)
   + list_sum (List.map (fun p => length (Assignment.submissions (snd p)))
                 (List.map (ClassController.dropSubmissionsOf id sid) l)))%nat
  = list_sum (List.map (fun p => length (Assignment.submissions (snd p))) l).
Proof.
  unfold list_sum. induction l as [|p l IH]; cbn [List.map fold_right]; [reflexivity|].
  pose proof (removedCount_spec id sid p). lia.
Qed.

(** X7. A successful removal: the requester owns the class and the
    student was enrolled; afterwards the student is off the roster of
    that class and the other students stay; every assignment of the
    class has lost exactly the student's submissions, assignments of
    other classes are untouched; the reported number is the number of
    submissions that disappeared; other classes, quizzes and users are
    as before. *)
Theorem removeStudent_postcondition (user : AuthUser) (id : ObjectId)
    (studentId : option string) (db db' : DB) (cls : Class.t) (removed : nat)
    (Hok : ClassController.removeStudentFromClass user id studentId db
           = (Ok (cls, removed), db')) :
  exists sid old,
    studentId = Some sid
    /\ Coll.findById id (classes db) = Some old
    /\ Class.adminId old = uid user
    /\ In sid (Class.students old)
    /\ Coll.findById id (classes db') = Some cls
    /\ (forall s, In s (Class.students cls) <-> In s (Class.students old) /\ s <> sid)
    /\ (forall other, other <> id ->
          Coll.findById other (classes db') = Coll.findById other (classes db))
    /\ (forall aid,
          Coll.findById aid (assignments db')
          = (fun a => if Assignment.classId a =? id then withoutCandidate sid a else a)
              <$> Coll.findById aid (assignments db))
    /\ (forall aid a, Coll.findById aid (assignments db') = Some a ->
          Assignment.classId a = id ->
          ~ In sid (List.map Submission.candidateId (Assignment.submissions a)))
    /\ (removed + submissionCount db')%nat = submissionCount db
    /\ quizzes db' = quizzes db /\ users db' = users db.
Proof.
  revert Hok. unfold ClassController.removeStudentFromClass. unfold_handler.
  destruct studentId as [sid|]; cbn [JS.truthyOpt negb]; [|discriminate].
  destruct (JS.truthy sid) eqn:Hsid; cbn [negb]; cbv beta iota; [|discriminate].
  destruct (Coll.findById id (classes db)) as [old|] eqn:Hc; cbv beta iota; [|discriminate].
  destruct (Class.adminId old =? uid user) eqn:Hown; cbn [negb]; cbv beta iota;
    [|discriminate].
  change (default "" (Some sid)) with sid.
  destruct (JS.includes sid (Class.students old)) eqn:Hin; cbn [negb]; cbv beta iota;
    [|discriminate].
  intros H. injection H as <- <- <-.
  cbn [classes assignments quizzes users withClasses withAssignments].
  assert (Hassign : forall aid,
    Coll.findById aid (List.map (ClassController.dropSubmissionsOf id sid) (assignments db))
    = (fun a => if Assignment.classId a =? id then withoutCandidate sid a else a)
        <$> Coll.findById aid (assignments db)).
  { intros aid. apply findById_map. intros p. apply dropSubmissionsOf_spec. }
  exists sid, old. split; [reflexivity|]. split; [reflexivity|].
  split; [now apply eqb_true|]. split; [now apply includes_In|].
  split; [now apply (findById_save id old)|].
  split.
  { intros s. destruct old; cbn. rewrite filter_In. rewrite negb_true_iff.
    now rewrite eqb_false. }
  split; [intros other Hne; now apply findById_save_other|].
  split; [exact Hassign|].
  split.
  { intros aid a Ha Hcls. rewrite Hassign in Ha.
    destruct (Coll.findById aid (assignments db)) as [a0|]; [|discriminate].
    cbn in Ha. injection Ha as <-.
    destruct (Assignment.classId a0 =? id) eqn:E.
    - destruct a0; cbn. intros Hsub. apply in_map_iff in Hsub as [sub [Heq Hsub]].
      apply filter_In in Hsub as [_ Hsub]. apply negb_true_iff, eqb_false in Hsub.
      congruence.
    - apply eqb_false in E. contradiction. }
  split; [|split; reflexivity].
  unfold submissionCount. cbn [assignments]. apply submissionCount_removed.
Qed.

Lemma removeStudent_postcondition_witness :
  exists cls removed,
    ClassController.removeStudentFromClass Sample.admin "cls1" (Some "u1")
      (Sample.database [Sample.raviSubmission; Sample.ashaSubmission])
    = (Ok (cls, removed),
       snd (ClassController.removeStudentFromClass Sample.admin "cls1" (Some "u1")
              (Sample.database [Sample.raviSubmission; Sample.ashaSubmission])))
    /\ ~ In "u1" (Class.students cls)
    /\ (removed
        + submissionCount
            (snd (ClassController.removeStudentFromClass Sample.admin "cls1" (Some "u1")
                    (Sample.database [Sample.raviSubmission; Sample.ashaSubmission]))))%nat
       = 2%nat.
Proof.
  assert (Hrun : exists cls removed,
    ClassController.removeStudentFromClass Sample.admin "cls1" (Some "u1")
      (Sample.database [Sample.raviSubmission; Sample.ashaSubmission])
    = (Ok (cls, removed),
       snd (ClassController.removeStudentFromClass Sample.admin "cls1" (Some "u1")
              (Sample.database [Sample.raviSubmission; Sample.ashaSubmission])))).
  { do 2 eexists. vm_compute. reflexivity. }
  destruct Hrun as (cls & removed & Hrun).
  destruct (removeStudent_postcondition _ _ _ _ _ _ _ Hrun)
    as (sid & old & Hsid & _ & _ & _ & _ & Hroster & _ & _ & _ & Hcount & _).
  injection Hsid as <-.
  exists cls, removed. split; [exact Hrun|]. split.
  - intros Hin. apply Hroster in Hin as [_ Hne]. now apply Hne.
  - exact Hcount.
Defined.

(** ** updateAssignment: what an accepted edit changes *)

Lemma editAssignment_fields (body : AssignmentController.UpdateAssignmentBody)
    (a edited : Assignment.t) :
  AssignmentController.editAssignment body a = Ok edited ->
  Assignment.quizId edited = Assignment.quizId a
  /\ Assignment.classId edited = Assignment.classId a
  /\ Assignment.adminId edited = Assignment.adminId a
  /\ Assignment.subclasses edited = Assignment.subclasses a
  /\ default (Some (Assignment.dueDate a)) (AssignmentController.ua_dueDate body)
     = Some (Assignment.dueDate edited)
  /\ match AssignmentController.ua_timeLimit body with
     | Some t => t = Some (Assignment.timeLimit edited) /\ (0 < Assignment.timeLimit edited)%Z
     | None => Assignment.timeLimit edited = Assignment.timeLimit a
     end
  /\ match AssignmentController.ua_weightage body with
     | Some w => Assignment.weightage edited = w
                 /\ PrimFloat.is_nan w = false /\ PrimFloat.leb w PrimFloat.zero = false
     | None => Assignment.weightage edited = Assignment.weightage a
     end
  /\ match AssignmentController.ua_weightageType body with
     | Some ty => Assignment.weightageType edited = ty /\ (ty = "percentage" \/ ty = "marks")
     | None => Assignment.weightageType edited = Assignment.weightageType a
     end
  /\ Assignment.subgroup edited
     = default (Assignment.subgroup a) (JS.trim <$> AssignmentController.ua_subgroup body).
Proof.
  unfold AssignmentController.editAssignment.
  destruct (AssignmentController.ua_dueDate body) as [[t|]|]; try discriminate;
    (destruct (AssignmentController.ua_timeLimit body) as [[n|]|]; try discriminate;
     [destruct (n <=? 0)%Z eqn:Hn; [discriminate|apply Z.leb_gt in Hn]; cbn [andb]
     |rewrite andb_false_r]);
    (destruct (AssignmentController.ua_weightage body) as [w|];
     [destruct (PrimFloat.is_nan w) eqn:Hnan; [discriminate|];
      destruct (PrimFloat.leb w PrimFloat.zero) eqn:Hle; [discriminate|]; cbn [orb]|]);
    (destruct (AssignmentController.ua_weightageType body) as [ty|];
     [destruct (JS.includes ty ["percentage"; "marks"]) eqn:Hty;
      [apply includes_In in Hty; cbn [In] in Hty |]|]);
    cbn [negb]; cbv beta iota zeta;
    repeat match goal with
           | |- context [if ?c then Fail _ _ else _] => destruct c eqn:?; [discriminate|]
           end;
    try discriminate;
    intros Hedit; injection Hedit as <-;
    cbn [Assignment.quizId Assignment.classId Assignment.adminId Assignment.subclasses
         Assignment.dueDate Assignment.timeLimit Assignment.weightage
         Assignment.weightageType Assignment.subgroup default from_option fmap option_fmap
         option_map];
    repeat split; try reflexivity; try assumption;
    try (destruct Hty as [<-|[<-|[]]]; auto);
    destruct (AssignmentController.ua_subgroup body); reflexivity.
Qed.

(** X8. An accepted [updateAssignment]: the requester owns the
    assignment; the quiz, class, owner and subclasses of the assignment
    never change; a field the request provides is stored only after its
    validation (a positive time limit, a positive weightage, a
    weightage type of the two allowed, the subgroup trimmed) and a
    field it omits keeps its value; the submissions are emptied when
    allowRetake is set and kept otherwise; no other document changes. *)
Theorem updateAssignment_postcondition (user : AuthUser) (id : ObjectId)
    (body : AssignmentController.UpdateAssignmentBody) (db db' : DB)
    (edited : Assignment.t)
    (Hok : AssignmentController.updateAssignment user id body db = (Ok edited, db')) :
  exists old,
    Coll.findById id (assignments db) = Some old
    /\ Assignment.adminId old = uid user
    /\ Coll.findById id (assignments db') = Some edited
    /\ (forall other, other <> id ->
          Coll.findById other (assignments db') = Coll.findById other (assignments db))
    /\ classes db' = classes db /\ quizzes db' = quizzes db /\ users db' = users db
    /\ Assignment.quizId edited = Assignment.quizId old
    /\ Assignment.classId edited = Assignment.classId old
    /\ Assignment.adminId edited = Assignment.adminId old
    /\ Assignment.subclasses edited = Assignment.subclasses old
    /\ default (Some (Assignment.dueDate old)) (AssignmentController.ua_dueDate body)
       = Some (Assignment.dueDate edited)
    /\ match AssignmentController.ua_timeLimit body with
       | Some t => t = Some (Assignment.timeLimit edited)
                   /\ (0 < Assignment.timeLimit edited)%Z
       | None => Assignment.timeLimit edited = Assignment.timeLimit old
       end
    /\ match AssignmentController.ua_weightage body with
       | Some w => Assignment.weightage edited = w
                   /\ PrimFloat.is_nan w = false /\ PrimFloat.leb w PrimFloat.zero = false
       | None => Assignment.weightage edited = Assignment.weightage old
       end
    /\ match AssignmentController.ua_weightageType body with
       | Some ty => Assignment.weightageType edited = ty
                    /\ (ty = "percentage" \/ ty = "marks")
       | None => Assignment.weightageType edited = Assignment.weightageType old
       end
    /\ Assignment.subgroup edited
       = default (Assignment.subgroup old)
           (JS.trim <$> AssignmentController.ua_subgroup body)
    /\ Assignment.submissions edited
       = if AssignmentController.ua_allowRetake body then []
         else Assignment.submissions old.
Proof.
  revert Hok. unfold AssignmentController.updateAssignment. unfold_handler.
  destruct (Coll.findById id (assignments db)) as [old|] eqn:Ha; cbv beta iota;
    [|discriminate].
  destruct (Assignment.adminId old =? uid user) eqn:Hown; cbn [negb]; cbv beta iota;
    [|discriminate].
  destruct (AssignmentController.editAssignment body old) as [e|s msg] eqn:He;
    cbv beta iota; [|discriminate].
  intros H. injection H as <- <-.
  cbn [classes assignments quizzes users withAssignments].
  exists old. split; [reflexivity|]. split; [now apply eqb_true|].
  split; [now apply (findById_save id old)|].
  split; [intros other Hne; now apply findById_save_other|].
  split; [reflexivity|]. split; [reflexivity|]. split; [reflexivity|].
  pose proof (editAssignment_fields _ _ _ He) as (H1 & H2 & H3 & H4 & H5 & H6 & H7 & H8 & H9).
  pose proof (editAssignment_submissions _ _ _ He) as H10.
  repeat (split; [assumption|]). assumption.
Qed.

Lemma updateAssignment_postcondition_witness :
  exists edited,
    AssignmentController.updateAssignment Sample.admin "asg1"
      {| AssignmentController.ua_dueDate := None;
         AssignmentController.ua_timeLimit := Some (Some 45%Z);
         AssignmentController.ua_weightage := None;
         AssignmentController.ua_weightageType := None;
         AssignmentController.ua_allowRetake := true;
         AssignmentController.ua_subgroup := Some " BCE, BAI " |}
      (Sample.database [Sample.raviSubmission])
    = (Ok edited,
       snd (AssignmentController.updateAssignment Sample.admin "asg1"
              {| AssignmentController.ua_dueDate := None;
                 AssignmentController.ua_timeLimit := Some (Some 45%Z);
                 AssignmentController.ua_weightage := None;
                 AssignmentController.ua_weightageType := None;
                 AssignmentController.ua_allowRetake := true;
                 AssignmentController.ua_subgroup := Some " BCE, BAI " |}
              (Sample.database [Sample.raviSubmission])))
    /\ Assignment.subgroup edited = "BCE, BAI"
    /\ Assignment.submissions edited = [].
Proof.
  assert (Hrun : exists edited,
    AssignmentController.updateAssignment Sample.admin "asg1"
      {| AssignmentController.ua_dueDate := None;
         AssignmentController.ua_timeLimit := Some (Some 45%Z);
         AssignmentController.ua_weightage := None;
         AssignmentController.ua_weightageType := None;
         AssignmentController.ua_allowRetake := true;
         AssignmentController.ua_subgroup := Some " BCE, BAI " |}
      (Sample.database [Sample.raviSubmission])
    = (Ok edited,
       snd (AssignmentController.updateAssignment Sample.admin "asg1"
              {| AssignmentController.ua_dueDate := None;
                 AssignmentController.ua_timeLimit := Some (Some 45%Z);
                 AssignmentController.ua_weightage := None;
                 AssignmentController.ua_weightageType := None;
                 AssignmentController.ua_allowRetake := true;
                 AssignmentController.ua_subgroup := Some " BCE, BAI " |}
              (Sample.database [Sample.raviSubmission])))).
  { eexists. vm_compute. reflexivity. }
  destruct Hrun as [edited Hrun].
  destruct (updateAssignment_postcondition _ _ _ _ _ _ Hrun)
    as (old & _ & _ & _ & _ & _ & _ & _ & _ & _ & _ & _ & _ & _ & _ & _ & Hsub & Hsubs).
  exists edited. split; [exact Hrun|]. split; [exact Hsub | exact Hsubs].
Defined.

(** ** Errors come before writes *)

Ltac fails_before_writing :=
  intros db db' status message; unfold_handler;
  repeat (first
    [ progress cbv beta iota
    | match goal with
      | |- context [if ?c then _ else _] => destruct c
      | |- context [match ?o with Some _ => _ | None => _ end] => destruct o
      | |- context [match ?r with Ok _ => _ | Fail _ _ => _ end] => destruct r
      | |- context [let '(_, _) := ?p in _] => destruct p
      end ]);
  first [discriminate | now intros [= _ _ <-] | now intros [= <-]].

(** X9. Every handler that writes validates first: a request of
    createClass, updateClass, deleteClass, joinClass,
    removeStudentFromClass, createAssignment, updateAssignment,
    deleteAssignment or submitQuiz that is answered with an error
    status leaves the database exactly as it was. *)
Theorem failed_requests_change_nothing :
  (forall user newId suffix title courseCode description,
     allOrNothing (ClassController.createClass user newId suffix title courseCode description))
  /\ (forall user id body, allOrNothing (ClassController.updateClass user id body))
  /\ (forall user id, allOrNothing (ClassController.deleteClass user id))
  /\ (forall user inviteCode, allOrNothing (ClassController.joinClass user inviteCode))
  /\ (forall user id studentId,
        allOrNothing (ClassController.removeStudentFromClass user id studentId))
  /\ (forall user newId body,
        allOrNothing (AssignmentController.createAssignment user newId body))
  /\ (forall user id body, allOrNothing (AssignmentController.updateAssignment user id body))
  /\ (forall user id, allOrNothing (AssignmentController.deleteAssignment user id))
  /\ (forall now user assignmentId body,
        allOrNothing (AssignmentController.submitQuiz now user assignmentId body)).
Proof.
  repeat split; intros.
  - unfold ClassController.createClass. fails_before_writing.
  - unfold ClassController.updateClass. fails_before_writing.
  - unfold ClassController.deleteClass. fails_before_writing.
  - unfold ClassController.joinClass. fails_before_writing.
  - unfold ClassController.removeStudentFromClass. fails_before_writing.
  - unfold AssignmentController.createAssignment. fails_before_writing.
  - unfold AssignmentController.updateAssignment. fails_before_writing.
  - unfold AssignmentController.deleteAssignment. fails_before_writing.
  - intros db db' status message. apply submitQuiz_rejected.
Qed.

(** ** Retakes, and the submitted flag *)

Lemma submitQuiz_duplicate (now : Z) (user : AuthUser) (assignmentId : ObjectId)
    (body : AssignmentController.SubmitBody) (db : DB) (assignment : Assignment.t) :
  Coll.findById assignmentId (assignments db) = Some assignment ->
  List.find (fun sub => Submission.candidateId sub =? uid user)
    (Assignment.submissions assignment) = None ->
  fst (AssignmentController.submitQuiz now user assignmentId body db)
  <> Fail 400 "You have already submitted this quiz".
Proof.
  intros Ha Hnone. unfold AssignmentController.submitQuiz. unfold_handler.
  rewrite Ha. cbv beta iota.
  destruct (Coll.findOne _ (classes db)) as [[cid classData]|]; cbv beta iota;
    [|cbn; discriminate].
  rewrite Hnone.
  replace (bool_decide (is_Some (@None Submission.t))) with false
    by (symmetry; apply bool_decide_eq_false; intros [x Hx]; discriminate).
  cbv beta iota.
  destruct (_ && negb (JS.truthyBool _)); cbv beta iota; [cbn; discriminate|].
  destruct (Coll.findById _ (quizzes db)) as [quiz|]; cbv beta iota; [|cbn; discriminate].
  destruct (negb (bool_decide _) && _); cbv beta iota; [cbn; discriminate|].
  rewrite gradeQuiz_spec. cbv beta iota.
  destruct (negb (Mongoose.validSubmission _)); cbv beta iota; cbn; discriminate.
Qed.

(** X10. After an update with allowRetake the assignment has no
    submissions left, and no candidate's submission to it is refused
    as a second one any more. *)
Theorem allowRetake_reopens_the_quiz (user : AuthUser) (id : ObjectId)
    (body : AssignmentController.UpdateAssignmentBody) (db db' : DB)
    (edited : Assignment.t)
    (Hok : AssignmentController.updateAssignment user id body db = (Ok edited, db'))
    (Hretake : AssignmentController.ua_allowRetake body = true) :
  Coll.findById id (assignments db') = Some edited
  /\ Assignment.submissions edited = []
  /\ forall now candidate answers,
       fst (AssignmentController.submitQuiz now candidate id answers db')
       <> Fail 400 "You have already submitted this quiz".
Proof.
  revert Hok. unfold AssignmentController.updateAssignment. unfold_handler.
  destruct (Coll.findById id (assignments db)) as [old|] eqn:Ha; cbv beta iota;
    [|discriminate].
  destruct (negb _); cbv beta iota; [discriminate|].
  destruct (AssignmentController.editAssignment body old) as [e|s msg] eqn:He;
    cbv beta iota; [|discriminate].
  intros H. injection H as <- <-.
  pose proof (editAssignment_submissions _ _ _ He) as Hsubs. rewrite Hretake in Hsubs.
  assert (Hfound : Coll.findById id (assignments (withAssignments (Coll.save id e) db))
                   = Some e) by (now apply (findById_save id old)).
  split; [exact Hfound|]. split; [exact Hsubs|].
  intros now candidate answers. apply (submitQuiz_duplicate _ _ _ _ _ e Hfound).
  now rewrite Hsubs.
Qed.

Lemma allowRetake_reopens_the_quiz_witness :
  fst (AssignmentController.submitQuiz 500 Sample.ravi "asg1" (Sample.ashaBody None None None)
         (Sample.database [Sample.raviSubmission]))
  = Fail 400 "You have already submitted this quiz"
  /\ fst (AssignmentController.submitQuiz 500 Sample.ravi "asg1"
            (Sample.ashaBody None None None)
            (snd (AssignmentController.updateAssignment Sample.admin "asg1"
                    {| AssignmentController.ua_dueDate := None;
                       AssignmentController.ua_timeLimit := None;
                       AssignmentController.ua_weightage := None;
                       AssignmentController.ua_weightageType := None;
                       AssignmentController.ua_allowRetake := true;
                       AssignmentController.ua_subgroup := None |}
                    (Sample.database [Sample.raviSubmission]))))
     <> Fail 400 "You have already submitted this quiz".
Proof.
  split; [vm_compute; reflexivity|].
  assert (Hrun : exists edited,
    AssignmentController.updateAssignment Sample.admin "asg1"
      {| AssignmentController.ua_dueDate := None;
         AssignmentController.ua_timeLimit := None;
         AssignmentController.ua_weightage := None;
         AssignmentController.ua_weightageType := None;
         AssignmentController.ua_allowRetake := true;
         AssignmentController.ua_subgroup := None |}
      (Sample.database [Sample.raviSubmission])
    = (Ok edited,
       snd (AssignmentController.updateAssignment Sample.admin "asg1"
              {| AssignmentController.ua_dueDate := None;
                 AssignmentController.ua_timeLimit := None;
                 AssignmentController.ua_weightage := None;
                 AssignmentController.ua_weightageType := None;
                 AssignmentController.ua_allowRetake := true;
                 AssignmentController.ua_subgroup := None |}
              (Sample.database [Sample.raviSubmission])))).
  { eexists. vm_compute. reflexivity. }
  destruct Hrun as [edited Hrun].
  exact (proj2 (proj2 (allowRetake_reopens_the_quiz _ _ _ _ _ _ Hrun eq_refl))
           500%Z Sample.ravi (Sample.ashaBody None None None)).
Defined.

(** X11. The submitted flag the quiz page receives agrees with what
    the server does with a submission: when [getSingleAssignment]
    reports hasSubmitted, a submission by the same candidate is refused
    as a second one; when it reports that nothing was submitted, a
    submission is never refused for that reason. *)
Theorem hasSubmitted_agrees_with_submitQuiz (now now' : Z) (random : nat -> nat)
    (user : AuthUser) (assignmentId : ObjectId) (db db' : DB)
    (payload : AssignmentController.GetSingleAssignment.Payload)
    (answers : AssignmentController.SubmitBody)
    (Hget : AssignmentController.GetSingleAssignment.getSingleAssignment
              now random user assignmentId db = (Ok payload, db')) :
  db' = db
  /\ (AssignmentController.GetSingleAssignment.hasSubmitted payload = true <->
      fst (AssignmentController.submitQuiz now' user assignmentId answers db)
      = Fail 400 "You have already submitted this quiz").
Proof.
  revert Hget.
  unfold AssignmentController.GetSingleAssignment.getSingleAssignment. unfold_handler.
  destruct (negb (urole user =? "candidate")); cbv beta iota; [discriminate|].
  destruct (Coll.findById assignmentId (assignments db)) as [assignment|] eqn:Ha;
    cbv beta iota; [|discriminate].
  destruct (Coll.findById (Assignment.classId assignment) (classes db)) as [pc|];
    cbv beta iota; [|discriminate].
  destruct (Coll.findOne _ (classes db)) as [[cid classData]|] eqn:Hc; cbv beta iota;
    [|discriminate].
  destruct (negb (AssignmentController.GetSingleAssignment.subgroupAllows _ _));
    cbv beta iota; [discriminate|].
  destruct (Coll.findById _ (quizzes db)) as [quiz|]; cbv beta iota; [|discriminate].
  intros H. injection H as <- <-. split; [reflexivity|].
  cbn [AssignmentController.GetSingleAssignment.hasSubmitted].
  destruct (List.find _ (Assignment.submissions assignment)) as [sub|] eqn:Hfind.
  - split; [intros _ | intros _; apply bool_decide_eq_true; now eexists].
    unfold AssignmentController.submitQuiz. unfold_handler.
    rewrite Ha. cbv beta iota. rewrite Hc. cbv beta iota. rewrite Hfind.
    replace (bool_decide (is_Some (Some sub))) with true
      by (symmetry; apply bool_decide_eq_true; now eexists).
    reflexivity.
  - split.
    + intros Hb. apply bool_decide_eq_true in Hb as [x Hx]. discriminate.
    + intros Hf. exfalso. now apply (submitQuiz_duplicate now' user assignmentId answers db
                                       assignment Ha Hfind).
Qed.

Lemma hasSubmitted_agrees_with_submitQuiz_witness :
  fst (AssignmentController.submitQuiz 600 Sample.ravi "asg1" (Sample.ashaBody None None None)
         (Sample.database [Sample.raviSubmission]))
  = Fail 400 "You have already submitted this quiz".
Proof.
  assert (Hrun : exists payload,
    AssignmentController.GetSingleAssignment.getSingleAssignment 500 (fun _ => 0%nat)
      Sample.ravi "asg1" (Sample.database [Sample.raviSubmission])
    = (Ok payload, Sample.database [Sample.raviSubmission])
    /\ AssignmentController.GetSingleAssignment.hasSubmitted payload = true).
  { eexists. split; vm_compute; reflexivity. }
  destruct Hrun as (payload & Hrun & Hflag).
  exact (proj1 (proj2 (hasSubmitted_agrees_with_submitQuiz 500 600 _ _ _ _ _ payload
                         (Sample.ashaBody None None None) Hrun)) Hflag).
Defined.

(** ** updateAssignment: the cap on a percentage weightage *)

(** X12. The cap of 100 on a percentage weightage is tested against the
    weightage type sent in the same request, not against the stored
    one. For a weightage above 100 and an assignment the requester
    owns: the request that sends it with weightageType 'percentage' is
    refused with status 400, and the request that sends the weightage
    alone is accepted, also when the stored type is 'percentage', and
    stores it. *)
Theorem percentage_cap_needs_type_in_request (user : AuthUser) (id : ObjectId) (db : DB)
    (old : Assignment.t) (w : float)
    (Hfound : Coll.findById id (assignments db) = Some old)
    (Hown : Assignment.adminId old = uid user)
    (Hnan : PrimFloat.is_nan w = false)
    (Hpos : PrimFloat.leb w PrimFloat.zero = false)
    (Hover : PrimFloat.ltb Num.hundred w = true) :
  fst (AssignmentController.updateAssignment user id
         {| AssignmentController.ua_dueDate := None;
            AssignmentController.ua_timeLimit := None;
            AssignmentController.ua_weightage := Some w;
            AssignmentController.ua_weightageType := Some "percentage";
            AssignmentController.ua_allowRetake := false;
            AssignmentController.ua_subgroup := None |} db)
  = Fail 400 "Percentage weightage cannot exceed 100%"
  /\ exists edited,
       AssignmentController.updateAssignment user id
         {| AssignmentController.ua_dueDate := None;
            AssignmentController.ua_timeLimit := None;
            AssignmentController.ua_weightage := Some w;
            AssignmentController.ua_weightageType := None;
            AssignmentController.ua_allowRetake := false;
            AssignmentController.ua_subgroup := None |} db
       = (Ok edited, withAssignments (Coll.save id edited) db)
       /\ Assignment.weightage edited = w
       /\ Assignment.weightageType edited = Assignment.weightageType old.
Proof.
  apply eqb_true in Hown.
  unfold AssignmentController.updateAssignment. unfold_handler.
  rewrite Hfound. cbv beta iota. rewrite Hown. cbn [negb]. cbv beta iota.
  unfold AssignmentController.editAssignment.
  cbn [AssignmentController.ua_dueDate AssignmentController.ua_timeLimit
       AssignmentController.ua_weightage AssignmentController.ua_weightageType
       AssignmentController.ua_allowRetake AssignmentController.ua_subgroup].
  rewrite andb_false_r, Hnan, Hpos, Hover. cbn [orb]. cbv beta iota.
  split; [reflexivity|].
  eexists. split; [reflexivity|]. split; reflexivity.
Qed.

Lemma percentage_cap_needs_type_in_request_witness :
  exists edited,
    AssignmentController.updateAssignment Sample.admin "asg1"
      {| AssignmentController.ua_dueDate := None;
         AssignmentController.ua_timeLimit := None;
         AssignmentController.ua_weightage := Some (Num.ofNat 150);
         AssignmentController.ua_weightageType := None;
         AssignmentController.ua_allowRetake := false;
         AssignmentController.ua_subgroup := None |}
      (mkDB [] [("asg1", Assignment.mk "quizA" "cls1" "admin1" "" [] 1000 30
                           (Num.ofNat 20) "percentage" [])] [] [])
    = (Ok edited,
       withAssignments (Coll.save "asg1" edited)
         (mkDB [] [("asg1", Assignment.mk "quizA" "cls1" "admin1" "" [] 1000 30
                              (Num.ofNat 20) "percentage" [])] [] []))
    /\ Assignment.weightage edited = Num.ofNat 150
    /\ Assignment.weightageType edited = "percentage".
Proof.
  exact (proj2 (percentage_cap_needs_type_in_request Sample.admin "asg1"
    (mkDB [] [("asg1", Assignment.mk "quizA" "cls1" "admin1" "" [] 1000 30
                         (Num.ofNat 20) "percentage" [])] [] [])
    (Assignment.mk "quizA" "cls1" "admin1" "" [] 1000 30 (Num.ofNat 20) "percentage" [])
    (Num.ofNat 150) eq_refl eq_refl eq_refl eq_refl eq_refl)).
Defined.

(** ** createAssignment: what an accepted request stores *)

Lemma findOne_owned {D} (id owner : string) (adminOf : D -> string) (c : Coll.t D)
    (p : string * D) :
  Coll.findOne (fun i d => (i =? id) && (adminOf d =? owner)) c = Some p ->
  In (id, snd p) c /\ adminOf (snd p) = owner.
Proof.
  intros H. apply findOne_Some in H as [Hin Hf]. destruct p as [i d]. cbn in *.
  apply andb_prop in Hf as [Hi Ho]. apply eqb_true in Hi, Ho. now subst.
Qed.

(** X13. An accepted [createAssignment]: the requester owns both the
    quiz and the class named in the request; the new assignment is
    theirs, points to that quiz and class, starts without submissions
    and has a weightage type of the two allowed ('percentage' when the
    request names none) and a weightage that is not negative (0 when
    the request names none); it is added after the existing
    assignments, none of which changes, and no other collection
    changes. *)
Theorem createAssignment_postcondition (user : AuthUser) (newId : ObjectId)
    (body : AssignmentController.CreateAssignmentBody) (db db' : DB)
    (id : ObjectId) (created : Assignment.t)
    (Hok : AssignmentController.createAssignment user newId body db
           = (Ok (id, created), db')) :
  id = newId
  /\ (exists quiz, In (AssignmentController.ca_quizId body, quiz) (quizzes db)
                   /\ Quiz.adminId quiz = uid user)
  /\ (exists class, In (AssignmentController.ca_classId body, class) (classes db)
                    /\ Class.adminId class = uid user)
  /\ Assignment.quizId created = AssignmentController.ca_quizId body
  /\ Assignment.classId created = AssignmentController.ca_classId body
  /\ Assignment.adminId created = uid user
  /\ Assignment.submissions created = []
  /\ (Assignment.weightageType created = "percentage"
      \/ Assignment.weightageType created = "marks")
  /\ (AssignmentController.ca_weightageType body = None ->
      Assignment.weightageType created = "percentage")
  /\ PrimFloat.ltb (Assignment.weightage created) PrimFloat.zero = false
  /\ (AssignmentController.ca_weightage body = None ->
      Assignment.weightage created = PrimFloat.zero)
  /\ assignments db' = (assignments db ++ [(newId, created)])%list
  /\ classes db' = classes db /\ quizzes db' = quizzes db /\ users db' = users db.
Proof.
  revert Hok. unfold AssignmentController.createAssignment. unfold_handler.
  destruct (_ || (AssignmentController.ca_timeLimit body =? 0)%Z);
    cbv beta iota; [discriminate|].
  destruct (negb (JS.truthy (uid user))); cbv beta iota; [discriminate|].
  destruct (Coll.findOne _ (quizzes db)) as [q|] eqn:Hq; cbv beta iota; [|discriminate].
  destruct (Coll.findOne _ (classes db)) as [c|] eqn:Hc; cbv beta iota; [|discriminate].
  destruct (PrimFloat.is_nan _) eqn:Hnan; cbn [orb]; cbv beta iota; [discriminate|].
  destruct (PrimFloat.ltb _ _) eqn:Hneg; cbn [orb]; cbv beta iota; [discriminate|].
  destruct (JS.includes _ _) eqn:Hty; cbn [negb]; cbv beta iota; [|discriminate].
  intros H. injection H as <- <- <-.
  apply (findOne_owned _ _ Quiz.adminId) in Hq as [Hq1 Hq2].
  apply (findOne_owned _ _ Class.adminId) in Hc as [Hc1 Hc2].
  apply includes_In in Hty. cbn [In] in Hty.
  cbn [Assignment.quizId Assignment.classId Assignment.adminId Assignment.submissions
       Assignment.weightageType Assignment.weightage classes assignments quizzes users
       withAssignments].
  split; [reflexivity|]. split; [eauto|]. split; [eauto|].
  do 4 (split; [reflexivity|]).
  split; [destruct Hty as [<-|[<-|[]]]; auto|].
  split; [intros ->; reflexivity|].
  split; [exact Hneg|].
  split; [intros ->; reflexivity|].
  repeat split; reflexivity.
Qed.

Lemma createAssignment_postcondition_witness :
  exists created,
    AssignmentController.createAssignment Sample.admin "asg2" Requests.newAssignment
      Requests.database
    = (Ok ("asg2", created),
       snd (AssignmentController.createAssignment Sample.admin "asg2" Requests.newAssignment
              Requests.database))
    /\ Assignment.submissions created = []
    /\ Assignment.weightageType created = "percentage".
Proof.
  assert (Hrun : exists created,
    AssignmentController.createAssignment Sample.admin "asg2" Requests.newAssignment
      Requests.database
    = (Ok ("asg2", created),
       snd (AssignmentController.createAssignment Sample.admin "asg2" Requests.newAssignment
              Requests.database))).
  { eexists. vm_compute. reflexivity. }
  destruct Hrun as [created Hrun].
  destruct (createAssignment_postcondition _ _ _ _ _ _ _ Hrun)
    as (_ & _ & _ & _ & _ & _ & Hsubs & _ & Htype & _).
  exists created. split; [exact Hrun|]. split; [exact Hsubs | exact (Htype eq_refl)].
Defined.

(** ** createClass, then joinClass *)

Lemma findOne_insert {D} (f : string -> D -> bool) (id : string) (d : D) (c : Coll.t D) :
  Coll.findOne f c = None ->
  Coll.findOne f (Coll.insert id d c) = if f id d then Some (id, d) else None.
Proof.
  unfold Coll.findOne, Coll.insert. induction c as [|[i x] c IH]; cbn; [reflexivity|].
  destruct (f i x); [discriminate | exact IH].
Qed.

Lemma findOne_None_weaken {D} (f g : string -> D -> bool) (c : Coll.t D) :
  Coll.findOne f c = None -> (forall i d, g i d = true -> f i d = true) ->
  Coll.findOne g c = None.
Proof.
  unfold Coll.findOne. intros Hf Hgf. induction c as [|[i x] c IH]; cbn in *; [reflexivity|].
  destruct (f i x) eqn:E; [discriminate|].
  destruct (g i x) eqn:G; [|now apply IH]. apply Hgf in G. congruence.
Qed.

Lemma truthy_app_dash (a b : string) : JS.truthy (a ++ "-" ++ b) = true.
Proof. now destruct a. Qed.

(** X14. A class that was just created has no students, belongs to the
    requester and carries the upper-cased course code, a dash and the
    random suffix as its invite code; any candidate who sends that
    code joins it and is its only student, and the same candidate's
    second attempt is answered 400. *)
Theorem created_class_can_be_joined (admin candidate : AuthUser) (newId : ObjectId)
    (suffix title courseCode : string) (description : option string) (db db1 : DB)
    (id : ObjectId) (created : Class.t)
    (Hcreate : ClassController.createClass admin newId suffix title courseCode description db
               = (Ok (id, created), db1))
    (Hrole : urole candidate = "candidate") :
  id = newId
  /\ Class.students created = []
  /\ Class.adminId created = uid admin
  /\ Class.isActive created = true
  /\ Class.inviteCode created = JS.toUpperCase courseCode ++ "-" ++ suffix
  /\ exists db2,
       ClassController.joinClass candidate (Some (Query.Str (Class.inviteCode created))) db1
       = (Ok (newId, Class.setStudents [uid candidate] created), db2)
       /\ Coll.findById newId (classes db2)
          = Some (Class.setStudents [uid candidate] created)
       /\ fst (ClassController.joinClass candidate
                 (Some (Query.Str (Class.inviteCode created))) db2)
          = Fail 400 "You are already enrolled in this class".
Proof.
  revert Hcreate. unfold ClassController.createClass. unfold_handler.
  destruct (_ || negb (JS.truthy courseCode)); cbv beta iota; [discriminate|].
  destruct (negb (JS.truthy (uid admin))); cbv beta iota; [discriminate|].
  destruct (bool_decide (is_Some _)) eqn:Htaken; cbv beta iota; [discriminate|].
  apply find_none_is_Some in Htaken.
  intros H. injection H as <- <- <-.
  cbn [Class.students Class.adminId Class.isActive Class.inviteCode].
  do 5 (split; [reflexivity|]).
  set (code := JS.toUpperCase courseCode ++ "-" ++ suffix) in *.
  set (created := Class.mk title courseCode (default "" description) (uid admin) [] code true).
  set (db1 := withClasses (Coll.insert newId created) db).
  set (joined := Class.setStudents [uid candidate] created).
  assert (Hfind : Coll.findOne (fun _ c => (Class.inviteCode c =? code) && Class.isActive c)
                    (classes db1) = Some (newId, created)).
  { unfold db1. cbn [classes withClasses]. rewrite findOne_insert.
    - cbn [Class.inviteCode Class.isActive created]. now rewrite String.eqb_refl.
    - apply (findOne_None_weaken _ _ _ Htaken). intros i d Hd.
      now apply andb_prop in Hd as [Hd _]. }
  assert (Hid : exists d, Coll.findById newId (classes db1) = Some d).
  { unfold db1. cbn [classes withClasses]. rewrite findById_insert.
    destruct (Coll.findById newId (classes db)); [eauto|].
    rewrite String.eqb_refl. eauto. }
  destruct Hid as [d Hid].
  exists (withClasses (Coll.save newId joined) db1).
  split; [|split].
  - unfold ClassController.joinClass. unfold_handler.
    cbn [Query.truthyOpt Query.truthy]. unfold code at 1. rewrite truthy_app_dash.
    cbn [negb]. cbv beta iota.
    rewrite Hrole, String.eqb_refl. cbn [negb]. cbv beta iota.
    cbn [Query.holdsOpt Query.holds]. rewrite Hfind. cbv beta iota.
    reflexivity.
  - cbn [classes withClasses]. apply (findById_save newId d). exact Hid.
  - unfold ClassController.joinClass. unfold_handler.
    cbn [Query.truthyOpt Query.truthy]. unfold code at 1. rewrite truthy_app_dash.
    cbn [negb]. cbv beta iota.
    rewrite Hrole, String.eqb_refl. cbn [negb]. cbv beta iota.
    cbn [Query.holdsOpt Query.holds].
    cbn [classes withClasses].
    rewrite (findOne_save _ newId created joined _ Hfind).
    + cbv beta iota. cbn [joined Class.setStudents Class.students JS.includes existsb].
      now rewrite String.eqb_refl.
    + cbn [joined created Class.setStudents Class.inviteCode Class.isActive].
      now rewrite String.eqb_refl.
Qed.

Lemma created_class_can_be_joined_witness :
  exists db2,
    ClassController.joinClass Sample.asha (Some (Query.Str "CS2-X7K2QP"))
      (snd (ClassController.createClass Sample.admin "cls2" "X7K2QP" "Databases" "cs2" None
              Requests.database))
    = (Ok ("cls2",
           Class.mk "Databases" "cs2" "" "admin1" ["u1"] "CS2-X7K2QP" true), db2).
Proof.
  assert (Hrun : exists created,
    ClassController.createClass Sample.admin "cls2" "X7K2QP" "Databases" "cs2" None
      Requests.database
    = (Ok ("cls2", created),
       snd (ClassController.createClass Sample.admin "cls2" "X7K2QP" "Databases" "cs2" None
              Requests.database))
    /\ created = Class.mk "Databases" "cs2" "" "admin1" [] "CS2-X7K2QP" true).
  { eexists. split; vm_compute; reflexivity. }
  destruct Hrun as (created & Hrun & ->).
  destruct (created_class_can_be_joined Sample.admin Sample.asha _ _ _ _ _ _ _ _ _ Hrun eq_refl)
    as (_ & _ & _ & _ & _ & db2 & Hjoin & _).
  exists db2. exact Hjoin.
Defined.

(** ** Deleting a class or an assignment *)

Lemma findOne_deleteById {D} (id : string) (g : D -> bool) (c : Coll.t D) :
  Coll.findOne (fun i d => (i =? id) && g d) (Coll.deleteById id c) = None.
Proof.
  unfold Coll.findOne, Coll.deleteById. induction c as [|[i x] c IH]; cbn; [reflexivity|].
  destruct (i =? id) eqn:E; cbn; [exact IH|]. now rewrite E.
Qed.

(** X15. An accepted [deleteClass]: the requester owned the class; the
    class is gone and the other classes stay; the assignments of the
    class, with their submissions, are not deleted with it, and a
    submission to one of them is answered 403 from then on, whoever
    sends it. *)
Theorem deleteClass_postcondition (user : AuthUser) (id : ObjectId) (db db' : DB)
    (Hok : ClassController.deleteClass user id db = (Ok tt, db')) :
  (exists old, Coll.findById id (classes db) = Some old /\ Class.adminId old = uid user)
  /\ Coll.findById id (classes db') = None
  /\ (forall other, other <> id ->
        Coll.findById other (classes db') = Coll.findById other (classes db))
  /\ assignments db' = assignments db
  /\ quizzes db' = quizzes db /\ users db' = users db
  /\ forall assignmentId assignment now candidate answers,
       Coll.findById assignmentId (assignments db) = Some assignment ->
       Assignment.classId assignment = id ->
       AssignmentController.submitQuiz now candidate assignmentId answers db'
       = (Fail 403 "You are not enrolled in this class", db').
Proof.
  revert Hok. unfold ClassController.deleteClass. unfold_handler.
  destruct (Coll.findById id (classes db)) as [old|] eqn:Hc; cbv beta iota; [|discriminate].
  destruct (Class.adminId old =? uid user) eqn:Hown; cbn [negb]; cbv beta iota;
    [|discriminate].
  intros H. injection H as <-.
  cbn [classes assignments quizzes users withClasses].
  split; [exists old; split; [reflexivity | now apply eqb_true]|].
  split; [rewrite findById_deleteById; now rewrite String.eqb_refl|].
  split.
  { intros other Hne. rewrite findById_deleteById.
    apply eqb_false in Hne. now rewrite Hne. }
  do 3 (split; [reflexivity|]).
  intros assignmentId assignment now candidate answers Ha Hcls.
  unfold AssignmentController.submitQuiz. unfold_handler.
  cbn [classes assignments quizzes users withClasses].
  rewrite Ha. cbv beta iota. rewrite Hcls. cbn [classes withClasses].
  now rewrite (findOne_deleteById id
                 (fun c => JS.includes (uid candidate) (Class.students c))).
Qed.

Lemma deleteClass_postcondition_witness :
  AssignmentController.submitQuiz 500 Sample.asha "asg1" (Sample.ashaBody None None None)
    (snd (ClassController.deleteClass Sample.admin "cls1" Requests.database))
  = (Fail 403 "You are not enrolled in this class",
     snd (ClassController.deleteClass Sample.admin "cls1" Requests.database)).
Proof.
  assert (Hrun : ClassController.deleteClass Sample.admin "cls1" Requests.database
                 = (Ok tt, snd (ClassController.deleteClass Sample.admin "cls1"
                                  Requests.database))).
  { vm_compute. reflexivity. }
  destruct (deleteClass_postcondition _ _ _ _ Hrun) as (_ & _ & _ & _ & _ & _ & Hsubmit).
  exact (Hsubmit "asg1" (Sample.assignment [Sample.raviSubmission]) 500%Z Sample.asha
           (Sample.ashaBody None None None) eq_refl eq_refl).
Defined.

(** X16. An accepted [deleteAssignment]: the requester owned the
    assignment; it is gone with its submissions, the other assignments
    and all other collections stay; a submission to it is answered
    404 from then on. *)
Theorem deleteAssignment_postcondition (user : AuthUser) (id : ObjectId) (db db' : DB)
    (Hok : AssignmentController.deleteAssignment user id db = (Ok tt, db')) :
  (exists old, Coll.findById id (assignments db) = Some old
               /\ Assignment.adminId old = uid user)
  /\ Coll.findById id (assignments db') = None
  /\ (forall other, other <> id ->
        Coll.findById other (assignments db') = Coll.findById other (assignments db))
  /\ classes db' = classes db /\ quizzes db' = quizzes db /\ users db' = users db
  /\ forall now candidate answers,
       AssignmentController.submitQuiz now candidate id answers db'
       = (Fail 404 "Assignment not found", db').
Proof.
  revert Hok. unfold AssignmentController.deleteAssignment. unfold_handler.
  destruct (Coll.findById id (assignments db)) as [old|] eqn:Ha; cbv beta iota;
    [|discriminate].
  destruct (Assignment.adminId old =? uid user) eqn:Hown; cbn [negb]; cbv beta iota;
    [|discriminate].
  intros H. injection H as <-.
  cbn [classes assignments quizzes users withAssignments].
  assert (Hgone : Coll.findById id (Coll.deleteById id (assignments db)) = None)
    by (rewrite findById_deleteById; now rewrite String.eqb_refl).
  split; [exists old; split; [reflexivity | now apply eqb_true]|].
  split; [exact Hgone|].
  split.
  { intros other Hne. rewrite findById_deleteById.
    apply eqb_false in Hne. now rewrite Hne. }
  do 3 (split; [reflexivity|]).
  intros now candidate answers.
  unfold AssignmentController.submitQuiz. unfold_handler.
  cbn [classes assignments quizzes users withAssignments].
  now rewrite Hgone.
Qed.

Lemma deleteAssignment_postcondition_witness :
  AssignmentController.submitQuiz 500 Sample.asha "asg1" (Sample.ashaBody None None None)
    (snd (AssignmentController.deleteAssignment Sample.admin "asg1" Requests.database))
  = (Fail 404 "Assignment not found",
     snd (AssignmentController.deleteAssignment Sample.admin "asg1" Requests.database)).
Proof.
  assert (Hrun : AssignmentController.deleteAssignment Sample.admin "asg1" Requests.database
                 = (Ok tt, snd (AssignmentController.deleteAssignment Sample.admin "asg1"
                                  Requests.database))).
  { vm_compute. reflexivity. }
  destruct (deleteAssignment_postcondition _ _ _ _ Hrun) as (_ & _ & _ & _ & _ & _ & Hsubmit).
  exact (Hsubmit 500%Z Sample.asha (Sample.ashaBody None None None)).
Defined.

(** ** updateClass: what an accepted update leaves alone *)

(** X17. An accepted [updateClass]: the requester owns the class; the
    roster, the invite code, the owner and the active flag are never
    changed by it, so the enrolled candidates stay enrolled; title,
    course code and description take the value the request provides
    (title and course code only a non-empty one) and keep theirs
    otherwise; the other classes and all other collections are as
    before. *)
Theorem updateClass_postcondition (user : AuthUser) (id : ObjectId)
    (body : ClassController.UpdateClassBody) (db db' : DB) (updated : Class.t)
    (Hok : ClassController.updateClass user id body db = (Ok updated, db')) :
  exists old,
    Coll.findById id (classes db) = Some old
    /\ Class.adminId old = uid user
    /\ Coll.findById id (classes db') = Some updated
    /\ (forall other, other <> id ->
          Coll.findById other (classes db') = Coll.findById other (classes db))
    /\ assignments db' = assignments db /\ quizzes db' = quizzes db /\ users db' = users db
    /\ Class.students updated = Class.students old
    /\ Class.inviteCode updated = Class.inviteCode old
    /\ Class.adminId updated = Class.adminId old
    /\ Class.isActive updated = Class.isActive old
    /\ Class.title updated = default (Class.title old) (ClassController.title body)
    /\ Class.courseCode updated
       = default (Class.courseCode old) (ClassController.courseCode body)
    /\ Class.description updated
       = default (Class.description old) (ClassController.description body)
    /\ ClassController.title body <> Some ""
    /\ ClassController.courseCode body <> Some "".
Proof.
  revert Hok. unfold ClassController.updateClass. unfold_handler.
  destruct (Coll.findById id (classes db)) as [old|] eqn:Hc; cbv beta iota; [|discriminate].
  destruct (Class.adminId old =? uid user) eqn:Hown; cbn [negb]; cbv beta iota;
    [|discriminate].
  destruct (ClassController.updateValid body) eqn:Hvalid; cbn [negb]; cbv beta iota;
    [|discriminate].
  intros H. injection H as <- <-.
  cbn [classes assignments quizzes users withClasses].
  exists old. split; [reflexivity|]. split; [now apply eqb_true|].
  split; [now apply (findById_save id old)|].
  split; [intros other Hne; now apply findById_save_other|].
  do 10 (split; [reflexivity|]).
  unfold ClassController.updateValid in Hvalid. apply andb_prop in Hvalid as [Ht Hcc].
  split; intros E; rewrite E in *; discriminate.
Qed.

Lemma updateClass_postcondition_witness :
  exists updated,
    ClassController.updateClass Sample.admin "cls1"
      {| ClassController.title := Some "Algorithms and Data Structures";
         ClassController.courseCode := None;
         ClassController.description := None;
         ClassController.semester := None;
         ClassController.academicYear := None;
         ClassController.allowLateSubmissions := Some true;
         ClassController.autoGrading := None;
         ClassController.showResults := None;
         ClassController.showRosterToCandidates := None;
         ClassController.showLeaderboardToCandidates := None |}
      Requests.database
    = (Ok updated,
       snd (ClassController.updateClass Sample.admin "cls1"
              {| ClassController.title := Some "Algorithms and Data Structures";
                 ClassController.courseCode := None;
                 ClassController.description := None;
                 ClassController.semester := None;
                 ClassController.academicYear := None;
                 ClassController.allowLateSubmissions := Some true;
                 ClassController.autoGrading := None;
                 ClassController.showResults := None;
                 ClassController.showRosterToCandidates := None;
                 ClassController.showLeaderboardToCandidates := None |}
              Requests.database))
    /\ Class.students updated = ["u1"; "u2"]
    /\ Class.inviteCode updated = "CS1-AB12CD".
Proof.
  assert (Hrun : exists updated,
    ClassController.updateClass Sample.admin "cls1"
      {| ClassController.title := Some "Algorithms and Data Structures";
         ClassController.courseCode := None;
         ClassController.description := None;
         ClassController.semester := None;
         ClassController.academicYear := None;
         ClassController.allowLateSubmissions := Some true;
         ClassController.autoGrading := None;
         ClassController.showResults := None;
         ClassController.showRosterToCandidates := None;
         ClassController.showLeaderboardToCandidates := None |}
      Requests.database
    = (Ok updated,
       snd (ClassController.updateClass Sample.admin "cls1"
              {| ClassController.title := Some "Algorithms and Data Structures";
                 ClassController.courseCode := None;
                 ClassController.description := None;
                 ClassController.semester := None;
                 ClassController.academicYear := None;
                 ClassController.allowLateSubmissions := Some true;
                 ClassController.autoGrading := None;
                 ClassController.showResults := None;
                 ClassController.showRosterToCandidates := None;
                 ClassController.showLeaderboardToCandidates := None |}
              Requests.database))).
  { eexists. vm_compute. reflexivity. }
  destruct Hrun as [updated Hrun].
  destruct (updateClass_postcondition _ _ _ _ _ _ Hrun)
    as (old & Hold & _ & _ & _ & _ & _ & _ & Hroster & Hcode & _).
  vm_compute in Hold. injection Hold as <-.
  exists updated. split; [exact Hrun|]. split; [exact Hroster | exact Hcode].
Defined.

(** ** The submission report (getSubmissionDetails) *)

Lemma expectedRecord_questionId (answers : gmap string string) (q : Question.t) :
  Answer.questionId (GradingSpec.expectedRecord answers q) = Question._id q.
Proof. unfold GradingSpec.expectedRecord. now destruct (GradingSpec.answerTo answers q). Qed.

Lemma expectedRecord_isCorrect (answers : gmap string string) (q : Question.t) :
  Answer.isCorrect (GradingSpec.expectedRecord answers q) = true
  <-> GradingSpec.answeredCorrectly answers q.
Proof.
  unfold GradingSpec.expectedRecord, GradingSpec.answeredCorrectly.
  destruct (GradingSpec.answerTo answers q); cbn; [apply bool_decide_eq_true|].
  split; [discriminate | tauto].
Qed.

(** With distinct question ids, the answer found for a question is the
    record that grading made for it. *)
Lemma find_expectedRecord (answers : gmap string string) (qs : list Question.t)
    (q : Question.t) :
  List.NoDup (List.map Question._id qs) -> In q qs ->
  List.find (fun ans => Answer.questionId ans =? Question._id q)
    (List.map (GradingSpec.expectedRecord answers) qs)
  = Some (GradingSpec.expectedRecord answers q).
Proof.
  induction qs as [|q0 qs IH]; intros Hnd Hin; [destruct Hin|].
  cbn [List.map List.find]. rewrite expectedRecord_questionId.
  inversion Hnd as [|? ? Hnot Hnd']; subst.
  destruct (String.eqb_spec (Question._id q0) (Question._id q)) as [E|E].
  - destruct Hin as [->|Hin]; [reflexivity|].
    exfalso. apply Hnot. rewrite E. now apply in_map.
  - destruct Hin as [->|Hin]; [congruence|]. now apply IH.
Qed.

Lemma length_filter_decide {A} (f : A -> bool) (P : A -> Prop) `{forall x, Decision (P x)}
    (l : list A) :
  (forall x, f x = true <-> P x) ->
  length (List.filter f l) = length (filter P l).
Proof.
  intros Hf. induction l as [|x l IH]; [reflexivity|].
  cbn [List.filter]. rewrite filter_cons.
  destruct (decide (P x)) as [Hp|Hp].
  - apply Hf in Hp. rewrite Hp. cbn. now rewrite IH.
  - destruct (f x) eqn:E; [apply Hf in E; contradiction | exact IH].
Qed.

Lemma report_of_graded (candidateId : ObjectId) (now : Z) (answers : gmap string string)
    (quiz : Quiz.t) :
  List.NoDup (List.map Question._id (Quiz.questions quiz)) ->
  Quiz.questions quiz <> [] ->
  let submission := gradedSubmission candidateId now answers quiz in
  let correct := GradingSpec.correctCount answers (Quiz.questions quiz) in
  let total := length (Quiz.questions quiz) in
  AssignmentReports.report quiz submission
  = (List.map (fun q =>
       {| AssignmentReports.qa_questionId := Question._id q;
          AssignmentReports.qa_questionText := Question.text q;
          AssignmentReports.qa_questionType := Question.type q;
          AssignmentReports.qa_options := Question.options q;
          AssignmentReports.qa_correctAnswer := Question.answer q;
          AssignmentReports.qa_candidateAnswer :=
            Answer.selectedAnswer (GradingSpec.expectedRecord answers q);
          AssignmentReports.qa_isCorrect :=
            Answer.isCorrect (GradingSpec.expectedRecord answers q) |})
       (Quiz.questions quiz),
     {| AssignmentReports.st_totalQuestions := total;
        AssignmentReports.st_correctAnswers := correct;
        AssignmentReports.st_incorrectAnswers := (total - correct)%nat;
        AssignmentReports.st_percentage := Submission.score submission |}).
Proof.
  intros Hnd Hne. cbv zeta. unfold AssignmentReports.report.
  assert (Hrows : List.map (AssignmentReports.questionWithAnswer
                              (gradedSubmission candidateId now answers quiz))
                    (Quiz.questions quiz)
                  = List.map (fun q =>
       {| AssignmentReports.qa_questionId := Question._id q;
          AssignmentReports.qa_questionText := Question.text q;
          AssignmentReports.qa_questionType := Question.type q;
          AssignmentReports.qa_options := Question.options q;
          AssignmentReports.qa_correctAnswer := Question.answer q;
          AssignmentReports.qa_candidateAnswer :=
            Answer.selectedAnswer (GradingSpec.expectedRecord answers q);
          AssignmentReports.qa_isCorrect :=
            Answer.isCorrect (GradingSpec.expectedRecord answers q) |})
       (Quiz.questions quiz)).
  { apply map_ext_in. intros q Hq. unfold AssignmentReports.questionWithAnswer.
    cbn [gradedSubmission Submission.answers].
    now rewrite (find_expectedRecord answers _ q Hnd Hq). }
  rewrite Hrows. clear Hrows.
  assert (Hcount : length (List.filter AssignmentReports.qa_isCorrect
                     (List.map (fun q =>
       {| AssignmentReports.qa_questionId := Question._id q;
          AssignmentReports.qa_questionText := Question.text q;
          AssignmentReports.qa_questionType := Question.type q;
          AssignmentReports.qa_options := Question.options q;
          AssignmentReports.qa_correctAnswer := Question.answer q;
          AssignmentReports.qa_candidateAnswer :=
            Answer.selectedAnswer (GradingSpec.expectedRecord answers q);
          AssignmentReports.qa_isCorrect :=
            Answer.isCorrect (GradingSpec.expectedRecord answers q) |})
       (Quiz.questions quiz)))
     = GradingSpec.correctCount answers (Quiz.questions quiz)).
  { unfold GradingSpec.correctCount.
    rewrite <- (length_filter_decide
                  (fun q => Answer.isCorrect (GradingSpec.expectedRecord answers q))
                  (GradingSpec.answeredCorrectly answers));
      [|intros q; apply expectedRecord_isCorrect].
    clear. induction (Quiz.questions quiz) as [|q l IH]; [reflexivity|].
    cbn [List.map List.filter AssignmentReports.qa_isCorrect].
    destruct (Answer.isCorrect _); cbn [length]; now rewrite IH. }
  rewrite Hcount. rewrite !length_map.
  cbn [gradedSubmission Submission.answers Submission.score]. rewrite length_map.
  assert (Hpos : (0 <? length (Quiz.questions quiz))%nat = true).
  { apply Nat.ltb_lt. destruct (Quiz.questions quiz); [congruence | cbn; lia]. }
  rewrite Hpos. reflexivity.
Qed.

(** X18. [getSubmissionDetails] answers only an admin who owns the
    assignment, and changes nothing. Its report is computed from the
    stored answers; for a submission as [submitQuiz] stored it, on a
    quiz whose questions have distinct ids, the recomputed score is the
    stored score, the number of correct answers is the number that was
    graded correct, and every question is shown with the answer the
    candidate gave. *)
Theorem getSubmissionDetails_postcondition (idOf : Submission.t -> ObjectId)
    (user : AuthUser) (assignmentId submissionId : ObjectId) (db db' : DB)
    (payload : AssignmentReports.DetailsPayload)
    (Hok : AssignmentReports.getSubmissionDetails idOf user assignmentId submissionId db
           = (Ok payload, db')) :
  db' = db
  /\ urole user = "admin"
  /\ exists assignment quiz submission,
       Coll.findById assignmentId (assignments db) = Some assignment
       /\ Assignment.adminId assignment = uid user
       /\ In submission (Assignment.submissions assignment)
       /\ idOf submission = submissionId
       /\ Coll.findById (Assignment.quizId assignment) (quizzes db) = Some quiz
       /\ AssignmentReports.dp_candidateId payload = Submission.candidateId submission
       /\ AssignmentReports.dp_score payload
          = AssignmentReports.st_percentage (AssignmentReports.dp_statistics payload)
       /\ forall candidateId now answers,
            submission = gradedSubmission candidateId now answers quiz ->
            List.NoDup (List.map Question._id (Quiz.questions quiz)) ->
            AssignmentReports.dp_score payload = Submission.score submission
            /\ AssignmentReports.st_totalQuestions (AssignmentReports.dp_statistics payload)
               = length (Quiz.questions quiz)
            /\ AssignmentReports.st_correctAnswers (AssignmentReports.dp_statistics payload)
               = GradingSpec.correctCount answers (Quiz.questions quiz)
            /\ List.map AssignmentReports.qa_candidateAnswer
                 (AssignmentReports.dp_questions payload)
               = List.map (fun q => Answer.selectedAnswer
                                      (GradingSpec.expectedRecord answers q))
                   (Quiz.questions quiz).
Proof.
  revert Hok. unfold AssignmentReports.getSubmissionDetails. unfold_handler.
  destruct (urole user =? "admin") eqn:Hrole; cbn [negb]; cbv beta iota; [|discriminate].
  destruct (Coll.findById assignmentId (assignments db)) as [assignment|] eqn:Ha;
    cbv beta iota; [|discriminate].
  destruct (Assignment.adminId assignment =? uid user) eqn:Hown; cbn [negb]; cbv beta iota;
    [|discriminate].
  destruct (List.find _ (Assignment.submissions assignment)) as [submission|] eqn:Hsub;
    cbv beta iota; [|discriminate].
  destruct (Coll.findById _ (quizzes db)) as [quiz|] eqn:Hq; cbv beta iota; [|discriminate].
  destruct (AssignmentReports.report quiz submission) as [rows stats] eqn:Hrep.
  cbv beta iota.
  destruct (Coll.findById _ (users db)) as [candidate|]; cbv beta iota; [|discriminate].
  destruct (Coll.findById _ (classes db)) as [classData|]; cbv beta iota; [|discriminate].
  intros H. injection H as <- <-.
  apply find_some in Hsub as [Hin Hid].
  split; [reflexivity|]. split; [now apply eqb_true|].
  exists assignment, quiz, submission.
  split; [reflexivity|]. split; [now apply eqb_true|]. split; [exact Hin|].
  split; [now apply eqb_true|]. split; [exact Hq|]. split; [reflexivity|].
  split; [reflexivity|].
  intros candidateId now answers -> Hnd.
  cbn [AssignmentReports.dp_score AssignmentReports.dp_statistics
       AssignmentReports.dp_questions].
  destruct (Quiz.questions quiz) as [|q0 qs] eqn:Hqs.
  - unfold AssignmentReports.report, gradedSubmission in Hrep. rewrite Hqs in Hrep.
    cbn in Hrep. injection Hrep as <- <-.
    unfold gradedSubmission. cbn [Submission.score]. rewrite Hqs.
    repeat split; reflexivity.
  - rewrite report_of_graded in Hrep; [|now rewrite Hqs|now rewrite Hqs].
    injection Hrep as <- <-.
    unfold gradedSubmission.
    cbn [AssignmentReports.st_percentage AssignmentReports.st_totalQuestions
         AssignmentReports.st_correctAnswers Submission.score].
    rewrite ?Hqs. split; [reflexivity|]. split; [reflexivity|]. split; [reflexivity|].
    rewrite List.map_map. reflexivity.
Qed.

Lemma getSubmissionDetails_postcondition_witness :
  exists payload,
    AssignmentReports.getSubmissionDetails (fun sub => "sub-" ++ Submission.candidateId sub)
      Sample.admin "asg1" "sub-u2" Requests.database
    = (Ok payload, Requests.database)
    /\ AssignmentReports.dp_candidateId payload = "u2"
    /\ AssignmentReports.dp_score payload
       = AssignmentReports.st_percentage (AssignmentReports.dp_statistics payload).
Proof.
  assert (Hrun : exists payload,
    AssignmentReports.getSubmissionDetails (fun sub => "sub-" ++ Submission.candidateId sub)
      Sample.admin "asg1" "sub-u2" Requests.database
    = (Ok payload, Requests.database)).
  { eexists. vm_compute. reflexivity. }
  destruct Hrun as [payload Hrun].
  destruct (getSubmissionDetails_postcondition _ _ _ _ _ _ _ Hrun)
    as (_ & _ & assignment & quiz & submission & Ha & _ & Hin & Hid & _ & Hcand & Hscore & _).
  vm_compute in Ha. injection Ha as <-.
  destruct Hin as [<-|[]].
  exists payload. split; [exact Hrun|]. split; [exact Hcand | exact Hscore].
Defined.

(** X19. [getAssignmentSubmissions] answers only an admin who owns the
    assignment, changes nothing, and returns every stored submission of
    the assignment, in order, each with the candidate's user document
    when that still exists; totalSubmissions is their number. *)
Theorem getAssignmentSubmissions_postcondition (user : AuthUser) (assignmentId : ObjectId)
    (db db' : DB) (payload : AssignmentReports.SubmissionsPayload)
    (Hok : AssignmentReports.getAssignmentSubmissions user assignmentId db
           = (Ok payload, db')) :
  db' = db
  /\ urole user = "admin"
  /\ exists assignment,
       Coll.findById assignmentId (assignments db) = Some assignment
       /\ Assignment.adminId assignment = uid user
       /\ List.map fst (AssignmentReports.sp_submissions payload)
          = Assignment.submissions assignment
       /\ (forall sub candidate,
             In (sub, candidate) (AssignmentReports.sp_submissions payload) ->
             candidate = Coll.findById (Submission.candidateId sub) (users db))
       /\ AssignmentReports.sp_totalSubmissions payload
          = length (AssignmentReports.sp_submissions payload).
Proof.
  revert Hok. unfold AssignmentReports.getAssignmentSubmissions. unfold_handler.
  destruct (urole user =? "admin") eqn:Hrole; cbn [negb]; cbv beta iota; [|discriminate].
  destruct (Coll.findById assignmentId (assignments db)) as [assignment|] eqn:Ha;
    cbv beta iota; [|discriminate].
  destruct (Assignment.adminId assignment =? uid user) eqn:Hown; cbn [negb]; cbv beta iota;
    [|discriminate].
  destruct (Coll.findById _ (quizzes db)) as [quiz|]; cbv beta iota; [|discriminate].
  destruct (Coll.findById _ (classes db)) as [classData|]; cbv beta iota; [|discriminate].
  intros H. injection H as <- <-.
  split; [reflexivity|]. split; [now apply eqb_true|].
  exists assignment. split; [reflexivity|]. split; [now apply eqb_true|].
  cbn [AssignmentReports.sp_submissions AssignmentReports.sp_totalSubmissions].
  split; [rewrite List.map_map; cbn [fst]; apply List.map_id|].
  split; [|now rewrite length_map].
  intros sub candidate Hin. apply in_map_iff in Hin as [s [E _]]. now injection E as <- <-.
Qed.

Lemma getAssignmentSubmissions_postcondition_witness :
  exists payload,
    AssignmentReports.getAssignmentSubmissions Sample.admin "asg1" Requests.database
    = (Ok payload, Requests.database)
    /\ List.map fst (AssignmentReports.sp_submissions payload) = [Sample.raviSubmission].
Proof.
  assert (Hrun : exists payload,
    AssignmentReports.getAssignmentSubmissions Sample.admin "asg1" Requests.database
    = (Ok payload, Requests.database)).
  { eexists. vm_compute. reflexivity. }
  destruct Hrun as [payload Hrun].
  destruct (getAssignmentSubmissions_postcondition _ _ _ _ _ Hrun)
    as (_ & _ & assignment & Ha & _ & Hsubs & _).
  vm_compute in Ha. injection Ha as <-.
  exists payload. split; [exact Hrun | exact Hsubs].
Defined.

(** ** getCandidateAssignments: order and status *)







(** ** getClassResults: whose submissions are reported *)

Lemma some_student_In (candidateId : string) (students : list string) :
  existsb (fun studentId => studentId =? candidateId) students = true
  <-> In candidateId students.
Proof.
  rewrite existsb_exists. split.
  - intros [s [Hs E]]. apply eqb_true in E. now subst.
  - intros H. exists candidateId. split; [assumption | apply String.eqb_refl].
Qed.

Lemma resultRow_enrolled classData aid quiz w wt sub row :
  In row (AssignmentController.resultRow classData aid quiz w wt sub) ->
  In (Submission.candidateId sub) (Class.students classData)
  /\ AssignmentController.rr_candidateId row = Submission.candidateId sub
  /\ AssignmentController.rr_submittedAt row = Submission.submittedAt sub.
Proof.
  unfold AssignmentController.resultRow.
  destruct (existsb _ _) eqn:E; cbn [negb In]; [|tauto].
  apply some_student_In in E. intros [<- | []]. cbn. repeat split. exact E.
Qed.

Lemma resultRow_of_enrolled classData aid quiz w wt sub :
  In (Submission.candidateId sub) (Class.students classData) ->
  exists row, AssignmentController.resultRow classData aid quiz w wt sub = [row].
Proof.
  intros H. apply some_student_In in H. unfold AssignmentController.resultRow.
  rewrite H. cbn [negb]. eauto.
Qed.

(** X21. [getClassResults] answers only the owner of the class and
    changes nothing. Every row belongs to a candidate who is on the
    class roster now, and every stored submission of such a candidate
    to an assignment of the class has its row, with the stored score
    and submission time: a submission of someone who is no longer
    enrolled is never reported. *)
Theorem getClassResults_enrolled_only (user : AuthUser) (classId : ObjectId) (db db' : DB)
    (rows : list AssignmentController.ResultRow)
    (Hok : AssignmentController.getClassResults user classId db = (Ok rows, db')) :
  db' = db
  /\ exists classData,
       In (classId, classData) (classes db)
       /\ Class.adminId classData = uid user
       /\ (forall row, In row rows ->
             In (AssignmentController.rr_candidateId row) (Class.students classData))
       /\ (forall aid a sub,
             In (aid, a) (assignments db) -> Assignment.classId a = classId ->
             In sub (Assignment.submissions a) ->
             In (Submission.candidateId sub) (Class.students classData) ->
             exists row,
               In row rows
               /\ AssignmentController.rr_assignmentId row = aid
               /\ AssignmentController.rr_candidateId row = Submission.candidateId sub
               /\ AssignmentController.rr_percentage row = Num.orZero (Submission.score sub)
               /\ AssignmentController.rr_submittedAt row = Submission.submittedAt sub).
Proof.
  revert Hok. unfold AssignmentController.getClassResults. unfold_handler.
  destruct (Coll.findOne _ (classes db)) as [[cid classData]|] eqn:Hc; [|discriminate].
  destruct (_ && existsb _ _); [discriminate|].
  intros Hok; injection Hok as <- <-.
  split; [reflexivity|].
  apply (findOne_owned _ _ Class.adminId) in Hc as [Hin Hown]. cbn [snd] in Hin, Hown.
  exists classData. split; [exact Hin|]. split; [exact Hown|]. split.
  - intros row Hrow.
    apply in_flat_map in Hrow as [[aid a] [_ Hrow]].
    unfold AssignmentController.resultRows in Hrow.
    apply in_flat_map in Hrow as [sub [_ Hrow]].
    apply resultRow_enrolled in Hrow as (He & -> & _). exact He.
  - intros aid a sub Ha Hcls Hsub Henrolled.
    assert (Hfound : In (aid, a)
              (Coll.find (fun _ x => Assignment.classId x =? classId) (assignments db))).
    { unfold Coll.find. apply filter_In. split; [exact Ha|]. cbn. now apply eqb_true. }
    set (rowsOf := AssignmentController.resultRows classData (quizzes db)
                     (Coll.find (fun _ x => Assignment.classId x =? classId)
                        (assignments db))).
    assert (Hrows : exists row, In row (rowsOf (aid, a))
              /\ AssignmentController.rr_assignmentId row = aid
              /\ AssignmentController.rr_candidateId row = Submission.candidateId sub
              /\ AssignmentController.rr_percentage row = Num.orZero (Submission.score sub)
              /\ AssignmentController.rr_submittedAt row = Submission.submittedAt sub).
    { unfold rowsOf, AssignmentController.resultRows. cbn [fst snd].
      match goal with
      | |- exists row, In row (flat_map (AssignmentController.resultRow _ _ ?q ?w ?wt) _) /\ _ =>
          destruct (resultRow_of_enrolled classData aid q w wt sub Henrolled) as [row Hrow];
          assert (Hinrow : In row (AssignmentController.resultRow classData aid q w wt sub))
            by (rewrite Hrow; now left);
          exists row; split; [apply in_flat_map; exists sub; split; assumption|];
          pose proof (resultRow_inv _ _ _ _ _ _ _ Hinrow) as (H1 & H2 & _);
          pose proof (resultRow_enrolled _ _ _ _ _ _ _ Hinrow) as (_ & H3 & H4)
      end.
      repeat split; assumption. }
    destruct Hrows as (row & Hrow & Hfacts).
    exists row. split; [|exact Hfacts].
    apply in_flat_map. exists (aid, a). split; [|exact Hrow].
    apply filter_In. split; [exact Hfound|]. cbn [snd].
    apply negb_true_iff, bool_decide_eq_false. intros E. rewrite E in Hsub. destruct Hsub.
Qed.

Lemma getClassResults_enrolled_only_witness :
  exists rows row,
    AssignmentController.getClassResults Sample.admin "cls1" Requests.database
    = (Ok rows, Requests.database)
    /\ In row rows
    /\ AssignmentController.rr_candidateId row = "u2".
Proof.
  assert (Hrun : exists rows,
    AssignmentController.getClassResults Sample.admin "cls1" Requests.database
    = (Ok rows, Requests.database)).
  { eexists. vm_compute. reflexivity. }
  destruct Hrun as [rows Hrun].
  destruct (getClassResults_enrolled_only _ _ _ _ _ Hrun)
    as (_ & classData & Hclass & _ & _ & Hall).
  destruct Hclass as [Hclass|[]]. injection Hclass as <-.
  destruct (Hall "asg1" (Sample.assignment [Sample.raviSubmission]) Sample.raviSubmission)
    as (row & Hrow & _ & Hcand & _).
  - left. reflexivity.
  - reflexivity.
  - left. reflexivity.
  - right. left. reflexivity.
  - exists rows, row. split; [exact Hrun|]. split; [exact Hrow | exact Hcand].
Defined.

(** ** Regenerating the invite code *)

Lemma NoDup_map_inj_In {A B} (f : A -> B) (l : list A) (x y : A) :
  List.NoDup (List.map f l) -> In x l -> In y l -> f x = f y -> x = y.
Proof.
  induction l as [|a l IH]; intros Hnd Hx Hy E; [destruct Hx|].
  cbn in Hnd. inversion Hnd as [|? ? Hnot Hnd']; subst.
  destruct Hx as [->|Hx], Hy as [->|Hy]; try reflexivity.
  - exfalso. apply Hnot. rewrite E. now apply in_map.
  - exfalso. apply Hnot. rewrite <- E. now apply in_map.
  - now apply IH.
Qed.

Lemma findOne_none_all {D} (f : string -> D -> bool) (c : Coll.t D) :
  (forall p, In p c -> f (fst p) (snd p) = false) -> Coll.findOne f c = None.
Proof.
  intros H. unfold Coll.findOne. induction c as [|p c IH]; cbn; [reflexivity|].
  rewrite (H p (or_introl eq_refl)). apply IH. intros q Hq. apply H. now right.
Qed.

Lemma save_In_other {D} (id : string) (d : D) (c : Coll.t D) (p : string * D) :
  In p (Coll.save id d c) -> (In p c /\ fst p <> id) \/ p = (id, d).
Proof.
  unfold Coll.save. intros H. apply in_map_iff in H as [q [<- Hq]].
  destruct (String.eqb_spec (fst q) id); [now right | now left].
Qed.

Lemma findOne_save_first {D} (f : string -> D -> bool) (id : string) (d d' : D)
    (c : Coll.t D) :
  Coll.findById id c = Some d -> f id d' = true ->
  (forall p, In p c -> fst p <> id -> f (fst p) (snd p) = false) ->
  Coll.findOne f (Coll.save id d' c) = Some (id, d').
Proof.
  unfold Coll.findById, Coll.findOne, Coll.save. intros Hfind Hf Hother.
  induction c as [|[i x] c IH]; cbn in *; [discriminate|].
  destruct (String.eqb_spec i id) as [->|Hne]; cbn.
  - now rewrite Hf.
  - pose proof (Hother (i, x) (or_introl eq_refl) Hne) as Hix. cbn in Hix.
    rewrite Hix. apply IH; [exact Hfind|].
    intros p Hp. apply Hother. now right.
Qed.

(** X22. An accepted regeneration of the invite code: the requester
    owns the class; the new code is the upper-cased course code, a dash
    and the new suffix; the roster and every other field stay. From
    then on a candidate who is not yet enrolled joins this class, if it
    is active, with the new code; and with the old code, when it
    differs from the new one and invite codes were unique, nobody joins
    anything. *)
Theorem regenerateInvite_postcondition (user : AuthUser) (id : ObjectId) (suffix : string)
    (db db' : DB) (code : string)
    (Hok : ClassRoutes.regenerateInvite user id suffix db = (Ok code, db')) :
  exists old,
    Coll.findById id (classes db) = Some old
    /\ Class.adminId old = uid user
    /\ code = JS.toUpperCase (Class.courseCode old) ++ "-" ++ suffix
    /\ (exists new,
          Coll.findById id (classes db') = Some new
          /\ Class.inviteCode new = code
          /\ Class.students new = Class.students old
          /\ Class.adminId new = Class.adminId old
          /\ Class.isActive new = Class.isActive old
          /\ (forall candidate,
                urole candidate = "candidate" -> Class.isActive old = true ->
                ~ In (uid candidate) (Class.students old) ->
                exists db2,
                  ClassController.joinClass candidate (Some (Query.Str code)) db'
                  = (Ok (id, Class.setStudents (Class.students old ++ [uid candidate])%list
                               new), db2)))
    /\ assignments db' = assignments db
    /\ (Class.inviteCode old <> code -> uniqueInviteCodes db ->
        forall candidate,
          isOk (fst (ClassController.joinClass candidate
                       (Some (Query.Str (Class.inviteCode old))) db'))
          = false).
Proof.
  revert Hok. unfold ClassRoutes.regenerateInvite. unfold_handler.
  destruct (Coll.findById id (classes db)) as [old|] eqn:Hc; cbv beta iota; [|discriminate].
  destruct (Class.adminId old =? uid user) eqn:Hown; cbn [negb]; cbv beta iota;
    [|discriminate].
  destruct (bool_decide (is_Some _)) eqn:Htaken; cbv beta iota; [discriminate|].
  apply find_none_is_Some in Htaken.
  intros H. injection H as <- <-.
  set (code := JS.toUpperCase (Class.courseCode old) ++ "-" ++ suffix) in *.
  set (new := Class.mk (Class.title old) (Class.courseCode old) (Class.description old)
                (Class.adminId old) (Class.students old) code (Class.isActive old)).
  cbn [classes assignments withClasses].
  exists old. split; [reflexivity|]. split; [now apply eqb_true|]. split; [reflexivity|].
  split; [|split; [reflexivity|]].
  - exists new. split; [now apply (findById_save id old)|].
    do 4 (split; [reflexivity|]).
    intros candidate Hrole Hactive Hnot.
    eexists. unfold ClassController.joinClass. unfold_handler.
    cbn [Query.truthyOpt Query.truthy]. unfold code at 1. rewrite truthy_app_dash.
    cbn [negb]. cbv beta iota.
    rewrite Hrole, String.eqb_refl. cbn [negb]. cbv beta iota.
    cbn [Query.holdsOpt Query.holds]. cbn [classes withClasses].
    rewrite (findOne_save_first _ id old new _ Hc).
    + cbv beta iota. cbn [new Class.students].
      apply includes_not_In in Hnot. rewrite Hnot. cbv beta iota. reflexivity.
    + cbn [new Class.inviteCode Class.isActive]. now rewrite String.eqb_refl, Hactive.
    + intros p Hp Hne.
      unfold Coll.findOne in Htaken. apply (find_none _ _ Htaken) in Hp. cbn in Hp.
      apply eqb_false in Hne. rewrite Hne in Hp. cbn [negb andb] in Hp. now rewrite Hp.
  - intros Hdiff Huniq candidate.
    unfold ClassController.joinClass. unfold_handler.
    destruct (negb (Query.truthyOpt _)); cbv beta iota; [reflexivity|].
    destruct (negb (urole candidate =? "candidate")); cbv beta iota; [reflexivity|].
    cbn [Query.holdsOpt Query.holds].
    cbn [classes withClasses].
    rewrite findOne_none_all; [reflexivity|].
    intros p Hp. apply save_In_other in Hp as [[Hp Hne] | ->].
    + destruct (Class.inviteCode (snd p) =? Class.inviteCode old) eqn:E; [|reflexivity].
      exfalso. apply eqb_true in E.
      pose proof (findById_Some _ _ _ Hc) as Hold.
      assert (Heq : p = (id, old)).
      { apply (NoDup_map_inj_In (fun q => Class.inviteCode (snd q)) (classes db));
          [exact Huniq | exact Hp | exact Hold | exact E]. }
      subst p. now apply Hne.
    + cbn [snd new Class.inviteCode].
      apply eqb_false in Hdiff. rewrite String.eqb_sym in Hdiff. now rewrite Hdiff.
Qed.

Lemma regenerateInvite_postcondition_witness :
  exists db',
    ClassRoutes.regenerateInvite Sample.admin "cls1" "Q9Z8Y7" Requests.database
    = (Ok "CS1-Q9Z8Y7", db')
    /\ forall candidate,
         isOk (fst (ClassController.joinClass candidate
                      (Some (Query.Str "CS1-AB12CD")) db')) = false.
Proof.
  assert (Hrun : exists db',
    ClassRoutes.regenerateInvite Sample.admin "cls1" "Q9Z8Y7" Requests.database
    = (Ok "CS1-Q9Z8Y7", db')).
  { eexists. vm_compute. reflexivity. }
  destruct Hrun as [db' Hrun].
  destruct (regenerateInvite_postcondition _ _ _ _ _ _ Hrun)
    as (old & Hold & _ & _ & _ & _ & Hgone).
  vm_compute in Hold. injection Hold as <-.
  exists db'. split; [exact Hrun|].
  apply Hgone; [discriminate|].
  unfold uniqueInviteCodes. cbn. constructor; [intros [] | constructor].
Defined.

(** ** The matcher against what a pattern accepts *)

Lemma tryDown_complete {R} (n lo m : nat) (k : nat -> option R) :
  (lo <= m <= n)%nat -> k m <> None -> Regex.tryDown n lo k <> None.
Proof.
  intros Hm Hk. induction n as [|n IH]; cbn [Regex.tryDown].
  - assert (m = 0%nat) by lia. subst m.
    destruct (0 <? lo)%nat eqn:E; [apply Nat.ltb_lt in E; lia|].
    destruct (k 0%nat); [discriminate | contradiction].
  - destruct (S n <? lo)%nat eqn:E; [apply Nat.ltb_lt in E; lia|].
    destruct (k (S n)) eqn:Hn; [discriminate|].
    apply IH. destruct (decide (m = S n)) as [->|Hne]; [congruence | lia].
Qed.

Lemma run_at_least (p : ascii -> bool) (cap : option nat) (piece s : list ascii) :
  forallb p piece = true ->
  (forall m, cap = Some m -> (length piece <= m)%nat) ->
  (length piece <= Regex.run p cap (piece ++ s))%nat.
Proof.
  revert cap. induction piece as [|c piece IH]; intros cap Hall Hcap; cbn; [lia|].
  cbn in Hall. apply andb_prop in Hall as [Hc Hp]. rewrite Hc.
  destruct cap as [[|m]|].
  - specialize (Hcap 0%nat eq_refl). cbn in Hcap. lia.
  - cbn. apply le_n_S. apply IH; [exact Hp|].
    intros m' [= <-]. specialize (Hcap (S m) eq_refl). cbn in Hcap. lia.
  - cbn. apply le_n_S. apply IH; [exact Hp | discriminate].
Qed.

Lemma matchItems_sound (atEnd : bool) (its : list Regex.item) (s : list ascii)
    (c : option (list ascii)) :
  Regex.matchItems atEnd its s = Some c -> matches atEnd its s.
Proof.
  revert s c. induction its as [|it rest IH]; intros s c; cbn [Regex.matchItems].
  - destruct atEnd; [|intros _; now constructor].
    destruct s; [|discriminate]. intros _. now constructor.
  - intros H. apply tryDown_Some in H as (n & Hn & Hk).
    destruct (Regex.matchItems atEnd rest (drop n s)) as [c'|] eqn:Hrest; [|discriminate].
    pose proof (run_le_length (Regex.cls it) (Regex.rmax it) s) as Hlen.
    rewrite <- (take_drop n s).
    assert (Hl : length (take n s) = n) by (rewrite length_take; lia).
    constructor.
    + apply (run_take_all _ (Regex.rmax it)). lia.
    + lia.
    + intros m Hm. rewrite Hm in Hn. pose proof (run_le_cap (Regex.cls it) m s). lia.
    + now apply (IH _ c').
Qed.

Lemma matchItems_complete (atEnd : bool) (its : list Regex.item) (s : list ascii) :
  matches atEnd its s -> Regex.matchItems atEnd its s <> None.
Proof.
  induction 1 as [s Hs|it rest piece s Hall Hlo Hhi Hrest IH]; cbn [Regex.matchItems].
  - destruct atEnd; [|discriminate]. now rewrite (Hs eq_refl).
  - apply (tryDown_complete _ _ (length piece)).
    + split; [exact Hlo | now apply run_at_least].
    + rewrite drop_app_length.
      destruct (Regex.matchItems atEnd rest s); [discriminate | contradiction].
Qed.

Lemma matchItems_iff (atEnd : bool) (its : list Regex.item) (s : list ascii) :
  Regex.matchItems atEnd its s <> None <-> matches atEnd its s.
Proof.
  split; [|apply matchItems_complete].
  destruct (Regex.matchItems atEnd its s) as [c|] eqn:E; [|congruence].
  intros _. now apply (matchItems_sound _ _ _ c).
Qed.

(** ** The email pattern *)

Lemma string_of_list_ascii_app (a b : list ascii) :
  string_of_list_ascii (a ++ b) = string_of_list_ascii a ++ string_of_list_ascii b.
Proof.
  induction a as [|c a IH]; [reflexivity|].
  cbn [app string_of_list_ascii]. now rewrite append_cons, IH.
Qed.

Lemma literal_piece (c : ascii) (piece : list ascii) :
  forallb (Ascii.eqb c) piece = true -> (1 <= length piece)%nat ->
  (length piece <= 1)%nat -> piece = [c].
Proof.
  destruct piece as [|x [|y piece]]; cbn; try lia. intros H _ _.
  apply andb_prop in H as [H _]. apply Ascii.eqb_eq in H. now subst.
Qed.

Lemma nonempty_string_of_list (l : list ascii) :
  (1 <= length l)%nat -> string_of_list_ascii l <> "".
Proof. destruct l; cbn; [lia | discriminate]. Qed.

Lemma nonempty_list_of_string (s : string) :
  s <> "" -> (1 <= length (list_ascii_of_string s))%nat.
Proof. destruct s; cbn; [congruence | lia]. Qed.

Lemma emailRegex_accepts_exactly_aux (s : string) :
  CandidateController.test CandidateController.emailRegex s = true <-> emailShaped s.
Proof.
  unfold CandidateController.test, CandidateController.emailRegex.
  cbn [Regex.anchoredStart Regex.anchoredEnd Regex.items].
  set (its := [Regex.Item CandidateController.isAddressChar 1 None false;
               CandidateController.literal "@";
               Regex.Item CandidateController.isAddressChar 1 None false;
               CandidateController.literal ".";
               Regex.Item CandidateController.isAddressChar 1 None false]).
  transitivity (matches true its (list_ascii_of_string s)).
  { rewrite <- matchItems_iff.
    destruct (Regex.matchItems true its (list_ascii_of_string s)); split; congruence. }
  unfold emailShaped, allChars. split.
  - intros H. unfold its in H.
    remember (list_ascii_of_string s) as ls eqn:Els.
    apply (f_equal string_of_list_ascii) in Els.
    rewrite string_of_list_ascii_of_string in Els.
    inversion H as [|? ? l r1 Hl Hl1 _ M1 E1]; subst.
    inversion M1 as [|? ? a r2 Ha Ha1 Ha2 M2 E2]; subst.
    inversion M2 as [|? ? d r3 Hd Hd1 _ M3 E3]; subst.
    inversion M3 as [|? ? o r4 Ho Ho1 Ho2 M4 E4]; subst.
    inversion M4 as [|? ? t r5 Ht Ht1 _ M5 E5]; subst.
    inversion M5 as [r Hr|]; subst. rewrite (Hr eq_refl) in *.
    cbn [Regex.cls Regex.rmin Regex.rmax CandidateController.literal] in *.
    apply literal_piece in Ha; [|exact Ha1|exact (Ha2 _ eq_refl)].
    apply literal_piece in Ho; [|exact Ho1|exact (Ho2 _ eq_refl)].
    subst a o.
    exists (string_of_list_ascii l), (string_of_list_ascii d), (string_of_list_ascii t).
    rewrite !list_ascii_of_string_of_list_ascii.
    split.
    { rewrite app_nil_r, !string_of_list_ascii_app. reflexivity. }
    repeat split; try assumption; now apply nonempty_string_of_list.
  - intros (l & d & t & -> & Hl & Hd & Ht & Hla & Hda & Hta).
    rewrite !list_ascii_of_string_app. unfold its.
    constructor; [exact Hla | now apply nonempty_list_of_string | discriminate |].
    change (list_ascii_of_string "@") with ["@"%char].
    constructor; [reflexivity | cbn; lia | intros m [= <-]; cbn; lia |].
    constructor; [exact Hda | now apply nonempty_list_of_string | discriminate |].
    change (list_ascii_of_string ".") with ["."%char].
    constructor; [reflexivity | cbn; lia | intros m [= <-]; cbn; lia |].
    rewrite <- (app_nil_r (list_ascii_of_string t)).
    constructor; [exact Hta | now apply nonempty_list_of_string | discriminate |].
    now constructor.
Qed.

(** ** The rows of an uploaded sheet *)

Lemma emailOf_lowercase (r : CandidateController.Row) (email : string) :
  CandidateController.emailOf r = Some email -> JS.toLowerCase email = email.
Proof.
  unfold CandidateController.emailOf.
  destruct (CandidateController.orElse _ _) as [s| |]; [|discriminate|discriminate].
  intros [= <-].
  rewrite toLowerCase_trim_toLowerCase.
  unfold JS.toLowerCase. now rewrite (trim_mapChars _ isSpace_lowerChar).
Qed.

(** A row whose address cell is a number or a boolean stops the loop. *)
Lemma parseFrom_throws (i : nat) (rows : list CandidateController.Row)
    (acc : list CandidateController.Candidate * list CandidateController.RowError) :
  (exists r, In r rows /\ CandidateController.emailOf r = None) ->
  CandidateController.parseFrom i rows acc = None.
Proof.
  revert i acc. induction rows as [|r rows IH]; intros i acc (r0 & Hin & Hnone);
    [destruct Hin|].
  cbn [CandidateController.parseFrom]. unfold CandidateController.parseRow.
  destruct acc as [cs es].
  destruct (CandidateController.emailOf r) as [email|] eqn:He; [|reflexivity].
  apply IH. destruct Hin as [->|Hin]; [congruence|]. now exists r0.
Qed.

Lemma parseFrom_inv (i : nat) (rows : list CandidateController.Row)
    (cs0 cs : list CandidateController.Candidate)
    (es0 es : list CandidateController.RowError) :
  CandidateController.parseFrom i rows (cs0, es0) = Some (cs, es) ->
  exists cs1 es1,
    cs = (cs0 ++ cs1)%list /\ es = (es0 ++ es1)%list
    /\ (length cs1 + length es1)%nat = length rows
    /\ (forall c, In c cs1 ->
          exists r, In r rows
            /\ CandidateController.name c = CandidateController.nameOf r
            /\ CandidateController.emailOf r = Some (CandidateController.email c)
            /\ CandidateController.truthyCell (CandidateController.nameOf r) = true
            /\ CandidateController.test CandidateController.emailRegex
                 (CandidateController.email c) = true)
    /\ (forall e, In e es1 ->
          exists j r email, nth_error rows j = Some r
            /\ CandidateController.emailOf r = Some email
            /\ CandidateController.row e = (i + j + 2)%nat
            /\ ((CandidateController.reason e = "Missing name or email"
                 /\ CandidateController.data e = Some r
                 /\ (CandidateController.truthyCell (CandidateController.nameOf r) = false
                     \/ JS.truthy email = false))
                \/ (CandidateController.reason e = "Invalid email format"
                    /\ CandidateController.address e = Some email
                    /\ CandidateController.test CandidateController.emailRegex email
                       = false))).
Proof.
  revert i cs0 es0. induction rows as [|r rows IH]; intros i cs0 es0;
    cbn [CandidateController.parseFrom].
  - intros [= <- <-]. exists [], []. rewrite !app_nil_r.
    repeat split; try reflexivity; intros ? [].
  - unfold CandidateController.parseRow.
    destruct (CandidateController.emailOf r) as [email|] eqn:Hemail; [|discriminate].
    destruct (CandidateController.truthyCell (CandidateController.nameOf r)) eqn:Hn;
      cbn [negb orb].
    + destruct (JS.truthy email) eqn:He; cbn [negb].
      * destruct (CandidateController.test _ _) eqn:Ht; cbn [negb].
        -- intros H. apply IH in H as (cs1 & es1 & -> & -> & Hlen & Hcs & Hes).
           eexists (_ :: cs1), es1. rewrite <- app_assoc. split; [reflexivity|].
           split; [reflexivity|]. split; [cbn; lia|]. split.
           ++ intros c [<-|Hc].
              ** exists r. split; [now left|]. repeat split; assumption.
              ** destruct (Hcs c Hc) as (r' & Hr' & Hrest). exists r'.
                 split; [now right | exact Hrest].
           ++ intros e Hin. destruct (Hes e Hin) as (j & r' & em & Hj & Hem & Hrow & Hwhy).
              exists (S j), r', em. split; [exact Hj|]. split; [exact Hem|].
              split; [lia | exact Hwhy].
        -- intros H. apply IH in H as (cs1 & es1 & -> & -> & Hlen & Hcs & Hes).
           eexists cs1, (_ :: es1). rewrite <- app_assoc. split; [reflexivity|].
           split; [reflexivity|]. split; [cbn; lia|]. split.
           ++ intros c Hc. destruct (Hcs c Hc) as (r' & Hr' & Hrest). exists r'.
              split; [now right | exact Hrest].
           ++ intros e [<-|Hin].
              ** exists 0%nat, r, email. split; [reflexivity|]. split; [exact Hemail|].
                 split; [cbn; lia|]. right. repeat split. exact Ht.
              ** destruct (Hes e Hin) as (j & r' & em & Hj & Hem & Hrow & Hwhy).
                 exists (S j), r', em. split; [exact Hj|]. split; [exact Hem|].
                 split; [lia | exact Hwhy].
      * intros H. apply IH in H as (cs1 & es1 & -> & -> & Hlen & Hcs & Hes).
        eexists cs1, (_ :: es1). rewrite <- app_assoc. split; [reflexivity|].
        split; [reflexivity|]. split; [cbn; lia|]. split.
        -- intros c Hc. destruct (Hcs c Hc) as (r' & Hr' & Hrest). exists r'.
           split; [now right | exact Hrest].
        -- intros e [<-|Hin].
           ++ exists 0%nat, r, email. split; [reflexivity|]. split; [exact Hemail|].
              split; [cbn; lia|]. left. repeat split. now right.
           ++ destruct (Hes e Hin) as (j & r' & em & Hj & Hem & Hrow & Hwhy).
              exists (S j), r', em. split; [exact Hj|]. split; [exact Hem|].
              split; [lia | exact Hwhy].
    + intros H. apply IH in H as (cs1 & es1 & -> & -> & Hlen & Hcs & Hes).
      eexists cs1, (_ :: es1). rewrite <- app_assoc. split; [reflexivity|].
      split; [reflexivity|]. split; [cbn; lia|]. split.
      * intros c Hc. destruct (Hcs c Hc) as (r' & Hr' & Hrest). exists r'.
        split; [now right | exact Hrest].
      * intros e [<-|Hin].
        -- exists 0%nat, r, email. split; [reflexivity|]. split; [exact Hemail|].
           split; [cbn; lia|]. left. repeat split. now left.
        -- destruct (Hes e Hin) as (j & r' & em & Hj & Hem & Hrow & Hwhy).
           exists (S j), r', em. split; [exact Hj|]. split; [exact Hem|].
           split; [lia | exact Hwhy].
Qed.

(** When no row throws, the loop runs to its end. *)
Lemma parseFrom_runs (i : nat) (rows : list CandidateController.Row)
    (acc : list CandidateController.Candidate * list CandidateController.RowError) :
  (forall r, In r rows -> is_Some (CandidateController.emailOf r)) ->
  is_Some (CandidateController.parseFrom i rows acc).
Proof.
  revert i acc. induction rows as [|r rows IH]; intros i acc Hall;
    cbn [CandidateController.parseFrom]; [now eexists|].
  unfold CandidateController.parseRow. destruct acc as [cs es].
  destruct (Hall r (or_introl eq_refl)) as [email ->].
  apply IH. intros r' Hr'. apply Hall. now right.
Qed.

(** X24. The preview of an uploaded sheet. Without a file, or with a
    sheet without rows, the answer is status 400. A sheet with a row
    whose address cell (the first truthy one of email, Email, EMAIL) is
    a number or a boolean is answered 500 as a whole: [toLowerCase] is
    called on the cell and throws. Otherwise, the text of the columns
    read being ASCII, every row ends up either among the candidates or
    among the errors, never in both and never in neither. A candidate
    carries a truthy name cell and the address of one of the rows, in
    lower case and of the shape local part, at sign, domain, dot,
    ending. An error names the sheet row it is about (the index of the
    row plus two, for the header line and counting from one) and why: a
    missing name or address, or an address that is not of that shape.
    The errors are left out of the answer when there is none. *)
Theorem parseFileForPreview_partitions_rows (rows : list CandidateController.Row) :
  CandidateController.parseFileForPreview None = Fail 400 "No file uploaded"
  /\ CandidateController.parseFileForPreview (Some [])
     = Fail 400 "The uploaded file is empty or has no valid data"
  /\ (rows <> [] ->
      (exists r, In r rows /\ CandidateController.emailOf r = None) ->
      CandidateController.parseFileForPreview (Some rows) = Fail 500 "Failed to parse file")
  /\ (rows <> [] ->
      (forall r, In r rows -> is_Some (CandidateController.emailOf r)) ->
      (forall r, In r rows -> CandidateController.asciiRow r = true) ->
      exists preview,
        CandidateController.parseFileForPreview (Some rows) = Ok preview
        /\ CandidateController.errors preview <> Some []
        /\ (length (CandidateController.candidates preview)
            + length (default [] (CandidateController.errors preview)))%nat = length rows
        /\ (forall c, In c (CandidateController.candidates preview) ->
              CandidateController.truthyCell (CandidateController.name c) = true
              /\ emailShaped (CandidateController.email c)
              /\ JS.toLowerCase (CandidateController.email c) = CandidateController.email c
              /\ exists r, In r rows
                   /\ CandidateController.name c = CandidateController.nameOf r
                   /\ CandidateController.emailOf r = Some (CandidateController.email c))
        /\ (forall e, In e (default [] (CandidateController.errors preview)) ->
              exists r email,
                (2 <= CandidateController.row e)%nat
                /\ nth_error rows (CandidateController.row e - 2) = Some r
                /\ CandidateController.emailOf r = Some email
                /\ ((CandidateController.reason e = "Missing name or email"
                     /\ (CandidateController.truthyCell (CandidateController.nameOf r)
                         = false
                         \/ email = ""))
                    \/ (CandidateController.reason e = "Invalid email format"
                        /\ CandidateController.address e = Some email
                        /\ ~ emailShaped email)))).
Proof.
  split; [reflexivity|]. split; [reflexivity|]. split.
  { intros Hne Hthrows. unfold CandidateController.parseFileForPreview.
    destruct rows as [|r0 rows0] eqn:Hrows; [congruence|]. rewrite <- Hrows in *.
    unfold CandidateController.parseRows. now rewrite parseFrom_throws. }
  intros Hne Hall _. unfold CandidateController.parseFileForPreview.
  destruct rows as [|r0 rows0] eqn:Hrows; [congruence|]. rewrite <- Hrows in *. clear Hne.
  unfold CandidateController.parseRows.
  destruct (parseFrom_runs 0 rows ([], []) Hall) as [[cs es] Hparse]. rewrite Hparse.
  apply parseFrom_inv in Hparse as (cs1 & es1 & -> & -> & Hlen & Hcs & Hes).
  cbn [app]. eexists. split; [reflexivity|].
  cbn [CandidateController.candidates CandidateController.errors].
  assert (Herrs : default [] (if (0 <? length es1)%nat then Some es1 else None) = es1).
  { destruct es1; reflexivity. }
  rewrite Herrs.
  split; [destruct es1; cbn; discriminate|]. split; [exact Hlen|]. split.
  - intros c Hc. destruct (Hcs c Hc) as (r & Hr & Hname & Hemail & Htruthy & Htest).
    split; [now rewrite Hname|].
    split; [now apply emailRegex_accepts_exactly_aux|].
    split; [exact (emailOf_lowercase r _ Hemail)|].
    exists r. repeat split; assumption.
  - intros e He. destruct (Hes e He) as (j & r & email & Hj & Hemail & Hrow & Hwhy).
    exists r, email. rewrite Hrow. split; [lia|].
    replace (0 + j + 2 - 2)%nat with j by lia. split; [exact Hj|]. split; [exact Hemail|].
    destruct Hwhy as [(Hreason & _ & Hmissing) | (Hreason & Haddr & Htest)].
    + left. split; [exact Hreason|].
      destruct Hmissing as [H|H]; [now left | right].
      unfold JS.truthy in H. apply negb_false_iff, eqb_true in H. exact H.
    + right. split; [exact Hreason|]. split; [exact Haddr|].
      intros Hshape. apply emailRegex_accepts_exactly_aux in Hshape. congruence.
Qed.

Lemma address_part_no_at (x : string) :
  allChars CandidateController.isAddressChar x = true ->
  List.filter (Ascii.eqb "@") (list_ascii_of_string x) = [].
Proof.
  unfold allChars. induction (list_ascii_of_string x) as [|c l IH];
    cbn [forallb List.filter]; [reflexivity|].
  intros H. apply andb_prop in H as [Hc Hl].
  unfold CandidateController.isAddressChar in Hc. apply andb_prop in Hc as [_ Hc].
  apply negb_true_iff in Hc. rewrite Ascii.eqb_sym, Hc. now apply IH.
Qed.

Lemma address_part_no_space (x : string) :
  allChars CandidateController.isAddressChar x = true ->
  allChars (fun c => negb (JS.isSpace c)) x = true.
Proof.
  apply allChars_impl. intros c Hc.
  unfold CandidateController.isAddressChar in Hc. now apply andb_prop in Hc as [Hc _].
Qed.

(** X23. The address test of the sheet parser accepts exactly the texts
    made of a local part, an at sign, a domain, a dot and an ending,
    where the three parts are not empty and contain neither white
    space nor an at sign. An accepted address therefore holds exactly
    one at sign and no white space, and trimming leaves it as it is. *)
Theorem emailRegex_accepts_exactly (s : string) :
  (CandidateController.test CandidateController.emailRegex s = true <-> emailShaped s)
  /\ (CandidateController.test CandidateController.emailRegex s = true ->
      length (List.filter (Ascii.eqb "@") (list_ascii_of_string s)) = 1%nat
      /\ allChars (fun c => negb (JS.isSpace c)) s = true
      /\ JS.trim s = s).
Proof.
  split; [apply emailRegex_accepts_exactly_aux|].
  intros H. apply emailRegex_accepts_exactly_aux in H.
  destruct H as (l & d & t & -> & _ & _ & _ & Hl & Hd & Ht).
  assert (Hns : allChars (fun c => negb (JS.isSpace c)) (l ++ "@" ++ d ++ "." ++ t) = true).
  { rewrite !allChars_app.
    rewrite (address_part_no_space l Hl), (address_part_no_space d Hd),
      (address_part_no_space t Ht). reflexivity. }
  split; [|split; [exact Hns | now apply trim_nospace]].
  rewrite !list_ascii_of_string_app, !List.filter_app.
  rewrite (address_part_no_at l Hl), (address_part_no_at d Hd), (address_part_no_at t Ht).
  reflexivity.
Qed.

(** A sheet of three text rows, and the same sheet with a number in
    the address column of a fourth. *)
Lemma parseFileForPreview_partitions_rows_witness :
  let asha : CandidateController.Row :=
    {[ "Name" := CandidateController.Text "Asha Rao";
       "Email" := CandidateController.Text " Asha.Rao@Example.org " ]} in
  let ravi : CandidateController.Row :=
    {[ "name" := CandidateController.Text "Ravi";
       "email" := CandidateController.Text "ravi.example.org" ]} in
  let nobody : CandidateController.Row :=
    {[ "email" := CandidateController.Text "nobody@example.org" ]} in
  let number : CandidateController.Row :=
    {[ "name" := CandidateController.Text "Mina";
       "email" := CandidateController.Number (Num.ofNat 42) ]} in
  (exists preview,
     CandidateController.parseFileForPreview (Some [asha; ravi; nobody]) = Ok preview
     /\ CandidateController.candidates preview
        = [CandidateController.Build_Candidate (CandidateController.Text "Asha Rao")
             "asha.rao@example.org"]
     /\ List.map CandidateController.row (default [] (CandidateController.errors preview))
        = [3; 4]%nat)
  /\ CandidateController.parseFileForPreview (Some [asha; ravi; nobody; number])
     = Fail 500 "Failed to parse file".
Proof.
  intros asha ravi nobody number. split.
  - destruct (proj2 (proj2 (proj2 (parseFileForPreview_partitions_rows
                                     [asha; ravi; nobody]))) ltac:(discriminate))
      as (preview & Hrun & _).
    + intros r [<-|[<-|[<-|[]]]]; eexists; vm_compute; reflexivity.
    + intros r [<-|[<-|[<-|[]]]]; vm_compute; reflexivity.
    + exists preview. split; [exact Hrun|].
      vm_compute in Hrun. injection Hrun as <-. split; reflexivity.
  - apply (proj1 (proj2 (proj2 (parseFileForPreview_partitions_rows
                                  [asha; ravi; nobody; number])))); [discriminate|].
    exists number. split; [cbn; tauto | vm_compute; reflexivity].
Defined.

Lemma emailRegex_accepts_exactly_witness :
  emailShaped "asha.rao@example.org" /\ ~ emailShaped "asha@example"
  /\ ~ emailShaped "asha rao@example.org".
Proof.
  split; [|split].
  - apply (proj1 (emailRegex_accepts_exactly "asha.rao@example.org")). reflexivity.
  - intros H. apply (proj1 (emailRegex_accepts_exactly "asha@example")) in H. discriminate.
  - intros H. apply (proj1 (emailRegex_accepts_exactly "asha rao@example.org")) in H.
    discriminate.
Defined.

(** ** The quiz page: its state, and what it submits *)

Lemma initialAnswers_out (ids : list ObjectId) (m : gmap string string) (id : string) :
  ~ In id ids -> fold_left (fun acc id => <[id := ""]> acc) ids m !! id = m !! id.
Proof.
  revert m. induction ids as [|x ids IH]; intros m Hnot; cbn [fold_left]; [reflexivity|].
  rewrite IH by (intros H; apply Hnot; now right).
  apply lookup_insert_ne. intros ->. apply Hnot. now left.
Qed.

Lemma initialAnswers_in (ids : list ObjectId) (m : gmap string string) (id : string) :
  In id ids -> fold_left (fun acc id => <[id := ""]> acc) ids m !! id = Some "".
Proof.
  revert m. induction ids as [|x ids IH]; intros m Hin; cbn [fold_left]; [destruct Hin|].
  destruct (in_dec string_dec id ids) as [Hi|Hi]; [now apply IH|].
  destruct Hin as [->|Hin]; [|contradiction].
  rewrite initialAnswers_out by exact Hi. apply lookup_insert_eq.
Qed.

Lemma load_invariant (ids : list ObjectId) : pageInvariant ids (TakeQuizPage.load ids).
Proof.
  unfold pageInvariant, TakeQuizPage.load. cbn.
  split; [reflexivity|]. split; [destruct ids; [congruence | cbn; lia]|].
  split; [reflexivity|].
  intros id. unfold TakeQuizPage.initialAnswers.
  destruct (in_dec string_dec id ids) as [E|E].
  - rewrite initialAnswers_in by exact E. split; [eauto | intros _; exact E].
  - rewrite initialAnswers_out by exact E. rewrite lookup_empty.
    split; [contradiction | intros [x Hx]; discriminate].
Qed.

Lemma handle_invariant (ids : list ObjectId) (s : TakeQuizPage.State)
    (e : TakeQuizPage.Event) :
  pageInvariant ids s -> pageInvariant ids (TakeQuizPage.handle s e).
Proof.
  intros Hs. pose proof Hs as (Hids & Hidx & Hzero & Hdom).
  destruct e as [value| |]; cbn [TakeQuizPage.handle].
  - destruct (nth_error _ _) as [qid|] eqn:Hq; [|exact Hs].
    unfold pageInvariant. cbn.
    split; [exact Hids|]. split; [exact Hidx|]. split; [exact Hzero|].
    intros id. destruct (decide (qid = id)) as [->|Hne].
    + rewrite lookup_insert_eq. split; [eauto|].
      intros _. apply nth_error_In in Hq. now rewrite Hids in Hq.
    + rewrite lookup_insert_ne by exact Hne. apply Hdom.
  - destruct (_ <? _)%Z eqn:E; [|exact Hs].
    apply Z.ltb_lt in E. rewrite Hids in E.
    unfold pageInvariant. cbn.
    split; [exact Hids|]. split; [intros _; lia|].
    split; [intros ->; cbn in E; lia | exact Hdom].
  - destruct (0 <? _)%nat eqn:E; [|exact Hs].
    apply Nat.ltb_lt in E.
    unfold pageInvariant. cbn.
    split; [exact Hids|]. split; [intros Hne; specialize (Hidx Hne); lia|].
    split; [intros Hnil; specialize (Hzero Hnil); lia | exact Hdom].
Qed.

Lemma run_invariant (ids : list ObjectId) (events : list TakeQuizPage.Event) :
  pageInvariant ids (TakeQuizPage.run ids events).
Proof.
  unfold TakeQuizPage.run. generalize (load_invariant ids).
  generalize (TakeQuizPage.load ids). induction events as [|e events IH]; intros s Hs;
    cbn [fold_left]; [exact Hs|].
  apply IH. now apply handle_invariant.
Qed.

Lemma answerTo_Some (answers : gmap string string) (q : Question.t) (a : string) :
  GradingSpec.answerTo answers q = Some a -> answers !! Question._id q = Some a /\ a <> "".
Proof.
  unfold GradingSpec.answerTo. destruct (answers !! Question._id q) as [x|]; [|discriminate].
  destruct (decide (x = "")); [discriminate|]. intros [= <-]. now split.
Qed.

(** A submission without answers is never accepted: a question is
    left open, or the quiz has none and the score is not a number. *)
Lemma submitQuiz_no_answers_rejected (now : Z) (user : AuthUser) (assignmentId : ObjectId)
    (body : AssignmentController.SubmitBody) (db : DB) :
  default ∅ (AssignmentController.answers body) = ∅ ->
  isOk (fst (AssignmentController.submitQuiz now user assignmentId body db)) = false.
Proof.
  intros Hempty.
  destruct (AssignmentController.submitQuiz now user assignmentId body db)
    as [[resp|status msg] db'] eqn:E; [|reflexivity].
  exfalso.
  destruct (submitQuiz_accepted _ _ _ _ _ _ _ E)
    as (a & quiz & _ & _ & Ha & Hq & _ & _ & _ & Hv & _).
  rewrite Hempty in Hv.
  unfold Mongoose.validSubmission in Hv.
  cbn [Submission.answers Submission.score] in Hv.
  apply andb_prop in Hv as [Hv Hanswers]. apply andb_prop in Hv as [_ Hnan].
  destruct (Quiz.questions quiz) as [|q qs] eqn:Hqs.
  - vm_compute in Hnan. discriminate.
  - destruct (valid_records_answered _ _ Hanswers q (or_introl eq_refl)) as [x Hx].
    unfold GradingSpec.answerTo in Hx. rewrite lookup_empty in Hx. discriminate.
Qed.

(** X25. Whatever the candidate does on the quiz page, the page keeps
    the questions it loaded, its index points at one of them, and its
    answers have an entry for exactly those questions (the empty text
    until something is typed). A submission confirmed in the dialog
    posts these answers alone, and the server accepts it only when
    every question of the quiz has an answer that is not empty. The
    submission the countdown makes at the end of the time posts no
    answers at all, whatever was typed, and the server never accepts
    it: the countdown calls the [handleSubmit] of the render that
    started the fetch of the quiz (the page's [assignmentId] and
    [token] being the same throughout). *)
Theorem quiz_page_submission_needs_every_answer (ids : list ObjectId)
    (events : list TakeQuizPage.Event) :
  let s := TakeQuizPage.run ids events in
  TakeQuizPage.questionIds s = ids
  /\ (ids <> [] -> (TakeQuizPage.currentQuestionIndex s < length ids)%nat)
  /\ (forall id, In id ids <-> is_Some (TakeQuizPage.answers s !! id))
  /\ (events = [] -> forall id, In id ids -> TakeQuizPage.answers s !! id = Some "")
  /\ (forall now user assignmentId db assignment quiz,
        Coll.findById assignmentId (assignments db) = Some assignment ->
        Coll.findById (Assignment.quizId assignment) (quizzes db) = Some quiz ->
        isOk (fst (AssignmentController.submitQuiz now user assignmentId
                     (TakeQuizPage.submitBody false s) db)) = true ->
        forall q, In q (Quiz.questions quiz) ->
          exists a, TakeQuizPage.answers s !! Question._id q = Some a /\ a <> "")
  /\ AssignmentController.answers (TakeQuizPage.submitBody true s) = Some ∅
  /\ forall now user assignmentId db,
       isOk (fst (AssignmentController.submitQuiz now user assignmentId
                    (TakeQuizPage.submitBody true s) db)) = false.
Proof.
  intros s. destruct (run_invariant ids events) as (Hids & Hidx & _ & Hdom).
  split; [exact Hids|]. split; [exact Hidx|]. split; [exact Hdom|]. split; [|split; [|split]].
  - intros -> id Hin. unfold s, TakeQuizPage.run. cbn.
    unfold TakeQuizPage.initialAnswers. now apply initialAnswers_in.
  - intros now user assignmentId db assignment quiz Ha Hq Hok q Hin.
    destruct (GradingSpec.answerTo (TakeQuizPage.answers s) q) as [a|] eqn:E.
    + exists a. now apply answerTo_Some.
    + pose proof (submitQuiz_unanswered_rejected now user assignmentId
                    (TakeQuizPage.submitBody false s) db assignment quiz q Ha Hq Hin E)
        as Hrej.
      congruence.
  - reflexivity.
  - intros now user assignmentId db. now apply submitQuiz_no_answers_rejected.
Qed.

(** Asha answers every question of the sample quiz as in her request,
    and three correctly. Sent from the dialog, her answers are
    accepted; sent by the countdown, nothing of them arrives. With two
    questions answered the dialog's submission is refused as well. *)
Lemma quiz_page_submission_needs_every_answer_witness :
  let typed :=
    [TakeQuizPage.AnswerChange "True"; TakeQuizPage.GoToNext;
     TakeQuizPage.AnswerChange "4"; TakeQuizPage.GoToNext;
     TakeQuizPage.AnswerChange "water"; TakeQuizPage.GoToNext;
     TakeQuizPage.AnswerChange "  PARIS "; TakeQuizPage.GoToNext;
     TakeQuizPage.AnswerChange "jupiter"] in
  let page := TakeQuizPage.run ["q3"; "q1"; "q5"; "q2"; "q4"] typed in
  TakeQuizPage.answers page = Sample.ashaAnswers
  /\ isOk (fst (AssignmentController.submitQuiz 500 Sample.asha "asg1"
                  (TakeQuizPage.submitBody false page) Requests.database)) = true
  /\ isOk (fst (AssignmentController.submitQuiz 500 Sample.asha "asg1"
                  (TakeQuizPage.submitBody true page) Requests.database)) = false
  /\ isOk (fst (AssignmentController.submitQuiz 500 Sample.asha "asg1"
                  (TakeQuizPage.submitBody false
                     (TakeQuizPage.run ["q3"; "q1"; "q5"; "q2"; "q4"]
                        [TakeQuizPage.AnswerChange "False"; TakeQuizPage.GoToNext;
                         TakeQuizPage.AnswerChange "4"]))
                  Requests.database)) = false.
Proof.
  intros typed page.
  split; [vm_compute; reflexivity|]. split; [vm_compute; reflexivity|]. split.
  - exact (proj2 (proj2 (proj2 (proj2 (proj2 (proj2
             (quiz_page_submission_needs_every_answer ["q3"; "q1"; "q5"; "q2"; "q4"]
                typed))))))
             500%Z Sample.asha "asg1" Requests.database).
  - destruct (isOk (fst (AssignmentController.submitQuiz 500 Sample.asha "asg1"
                 (TakeQuizPage.submitBody false
                    (TakeQuizPage.run ["q3"; "q1"; "q5"; "q2"; "q4"]
                       [TakeQuizPage.AnswerChange "False"; TakeQuizPage.GoToNext;
                        TakeQuizPage.AnswerChange "4"]))
                 Requests.database))) eqn:Hok; [|reflexivity].
    exfalso.
    destruct (proj1 (proj2 (proj2 (proj2 (proj2
        (quiz_page_submission_needs_every_answer ["q3"; "q1"; "q5"; "q2"; "q4"]
           [TakeQuizPage.AnswerChange "False"; TakeQuizPage.GoToNext;
            TakeQuizPage.AnswerChange "4"])))))
        500%Z Sample.asha "asg1" Requests.database
        (Sample.assignment [Sample.raviSubmission]) Sample.quiz eq_refl eq_refl Hok
        (Question.mk "q5" "short_answer" "H2O is" [] "water"))
      as (a & Ha & Hne).
    + cbn. tauto.
    + vm_compute in Ha. injection Ha as <-. now apply Hne.
Defined.

(** ** The quiz page: the countdown that survives a refresh *)

Lemma roundSeconds_positive (ms : Z) : (0 < TakeQuizPage.roundSeconds ms <-> 500 <= ms)%Z.
Proof. unfold TakeQuizPage.roundSeconds. split; intros H; Z.to_euclidean_division_equations; lia. Qed.

Lemma roundSeconds_minutes (timeLimit : Z) :
  TakeQuizPage.roundSeconds (timeLimit * 60 * 1000) = (timeLimit * 60)%Z.
Proof. unfold TakeQuizPage.roundSeconds. Z.to_euclidean_division_equations; lia. Qed.

(** X26. The countdown of the quiz page. A time limit that is not
    positive is refused. Otherwise the set-up yields an end time that
    lies at least half a second ahead and is what the storage then
    holds; a stored end time is kept, with the storage untouched, when
    the stored time limit is the current one, the assignment was not
    updated since, and the stored end is still at least half a second
    away; in every other case the countdown starts afresh with the full
    time limit. Setting the page up again later (a refresh) with the
    same assignment data, while at least half a second remains, gives
    the same end time and leaves the storage as it is. A tick submits
    the quiz automatically exactly when less than half a second
    remains. *)
Theorem setupTimer_survives_refresh (now later stamp timeLimit : Z) (updatedAt : option Z)
    (stored : TakeQuizPage.Storage) :
  ((timeLimit <= 0)%Z ->
   TakeQuizPage.setupTimer now later stamp timeLimit updatedAt stored = None)
  /\ ((0 < timeLimit)%Z -> (now <= later)%Z ->
      exists endTime storage,
        TakeQuizPage.setupTimer now later stamp timeLimit updatedAt stored
        = Some (endTime, storage)
        /\ TakeQuizPage.quizEndTime storage = Some endTime
        /\ (now + 500 <= endTime)%Z
        /\ ((endTime = (now + timeLimit * 60 * 1000)%Z
             \/ endTime = (later + timeLimit * 60 * 1000)%Z)
            \/ (storage = stored
                /\ TakeQuizPage.quizEndTime stored = Some endTime))
        /\ (forall kept,
              TakeQuizPage.quizEndTime stored = Some kept ->
              (now + 500 <= kept)%Z ->
              (forall old, TakeQuizPage.quizTimeLimit stored = Some old -> old = timeLimit) ->
              (forall old new, TakeQuizPage.quizUpdatedAt stored = Some old ->
                               updatedAt = Some new -> (new <= old)%Z) ->
              endTime = kept /\ storage = stored)
        /\ (forall now' later' stamp',
              (now' + 500 <= endTime)%Z ->
              TakeQuizPage.setupTimer now' later' stamp' timeLimit updatedAt storage
              = Some (endTime, storage))
        /\ (forall clock,
              snd (TakeQuizPage.tick endTime clock) = true <-> (endTime - clock < 500)%Z)).
Proof.
  split.
  - intros Hle. unfold TakeQuizPage.setupTimer.
    now rewrite (proj2 (Z.leb_le _ _) Hle).
  - intros Hpos Hclock.
    assert (Htick : forall endTime clock,
              snd (TakeQuizPage.tick endTime clock) = true <-> (endTime - clock < 500)%Z).
    { intros endTime clock. unfold TakeQuizPage.tick.
      pose proof (roundSeconds_positive (endTime - clock)) as Hr.
      destruct (_ <=? 0)%Z eqn:E; cbn [snd].
      - apply Z.leb_le in E. split; [intros _; lia | reflexivity].
      - apply Z.leb_gt in E. split; [discriminate | intros; lia]. }
    assert (Hfresh : forall clock now' later' stamp',
      (now' + 500 <= clock + timeLimit * 60 * 1000)%Z ->
      TakeQuizPage.setupTimer now' later' stamp' timeLimit updatedAt
        {| TakeQuizPage.quizEndTime := Some (clock + timeLimit * 60 * 1000)%Z;
           TakeQuizPage.quizTimeLimit := Some timeLimit;
           TakeQuizPage.quizUpdatedAt := Some (default stamp updatedAt) |}
      = Some ((clock + timeLimit * 60 * 1000)%Z,
              {| TakeQuizPage.quizEndTime := Some (clock + timeLimit * 60 * 1000)%Z;
                 TakeQuizPage.quizTimeLimit := Some timeLimit;
                 TakeQuizPage.quizUpdatedAt := Some (default stamp updatedAt) |})).
    { intros clock now' later' stamp' Hleft. unfold TakeQuizPage.setupTimer.
      rewrite (proj2 (Z.leb_gt _ _) Hpos).
      cbn [TakeQuizPage.quizEndTime TakeQuizPage.quizTimeLimit TakeQuizPage.quizUpdatedAt].
      rewrite Z.eqb_refl. cbn [negb].
      assert (Hsame : match updatedAt with
                      | Some new => (default stamp updatedAt <? new)%Z
                      | None => false
                      end = false).
      { destruct updatedAt as [u|]; [cbn; apply Z.ltb_irrefl | reflexivity]. }
      rewrite Hsame. cbn [orb].
      pose proof (roundSeconds_positive (clock + timeLimit * 60 * 1000 - now')) as Hr.
      destruct (_ <=? 0)%Z eqn:E; [apply Z.leb_le in E; lia | reflexivity]. }
    unfold TakeQuizPage.setupTimer at 1. rewrite (proj2 (Z.leb_gt _ _) Hpos).
    set (updated := match TakeQuizPage.quizUpdatedAt stored, updatedAt with
                    | Some old, Some new => (old <? new)%Z
                    | _, _ => false
                    end).
    set (changed := match TakeQuizPage.quizTimeLimit stored with
                    | Some old => negb (old =? timeLimit)%Z
                    | None => false
                    end).
    assert (Hkept_flags : forall kept,
              TakeQuizPage.quizEndTime stored = Some kept ->
              (forall old, TakeQuizPage.quizTimeLimit stored = Some old -> old = timeLimit) ->
              (forall old new, TakeQuizPage.quizUpdatedAt stored = Some old ->
                               updatedAt = Some new -> (new <= old)%Z) ->
              updated || changed = false).
    { intros kept _ Hlimit Hupd. unfold updated, changed.
      destruct (TakeQuizPage.quizTimeLimit stored) as [old|];
        [rewrite (Hlimit old eq_refl), Z.eqb_refl|]; cbn [negb]; rewrite orb_false_r;
        (destruct (TakeQuizPage.quizUpdatedAt stored) as [o|]; [|reflexivity];
         destruct updatedAt as [n|]; [|reflexivity];
         apply Z.ltb_ge; now apply Hupd). }
    destruct (updated || changed) eqn:Hflags.
    + (* the stored timer is dropped: a fresh one from [now] *)
      eexists _, _. split; [reflexivity|].
      cbn [TakeQuizPage.quizEndTime]. split; [reflexivity|]. split; [lia|].
      split; [left; left; reflexivity|]. split.
      * intros kept Hk _ Hlimit Hupd.
        pose proof (Hkept_flags kept Hk Hlimit Hupd) as Hcontra. congruence.
      * split; [|apply Htick]. intros now' later' stamp' Hleft. now apply Hfresh.
    + destruct (TakeQuizPage.quizEndTime stored) as [e|] eqn:He.
      * pose proof (roundSeconds_positive (e - now)) as Hr.
        destruct (TakeQuizPage.roundSeconds (e - now) <=? 0)%Z eqn:E.
        -- (* run out: a fresh one from [later] *)
           apply Z.leb_le in E.
           eexists _, _. split; [reflexivity|].
           cbn [TakeQuizPage.quizEndTime]. split; [reflexivity|]. split; [lia|].
           split; [left; right; reflexivity|]. split.
           ++ intros kept [= <-] Hk _ _. lia.
           ++ split; [|apply Htick]. intros now' later' stamp' Hleft. now apply Hfresh.
        -- (* resumed *)
           apply Z.leb_gt in E.
           exists e, stored. split; [reflexivity|].
           split; [first [exact He | reflexivity]|]. split; [lia|].
           split; [right; split; [reflexivity | first [exact He | reflexivity]]|]. split.
           ++ intros kept [= <-] _ _ _. split; reflexivity.
           ++ split; [|apply Htick]. intros now' later' stamp' Hleft.
              unfold TakeQuizPage.setupTimer. rewrite (proj2 (Z.leb_gt _ _) Hpos).
              fold updated. fold changed. rewrite Hflags, He.
              pose proof (roundSeconds_positive (e - now')) as Hr'.
              destruct (_ <=? 0)%Z eqn:E'; [apply Z.leb_le in E'; lia | reflexivity].
      * (* nothing stored: a fresh one from [now] *)
        eexists _, _. split; [reflexivity|].
        cbn [TakeQuizPage.quizEndTime]. split; [reflexivity|]. split; [lia|].
        split; [left; left; reflexivity|]. split.
        -- intros kept Hk. discriminate.
        -- split; [|apply Htick]. intros now' later' stamp' Hleft. now apply Hfresh.
Qed.

Lemma setupTimer_survives_refresh_witness :
  exists storage,
    TakeQuizPage.setupTimer 1000000 1000001 1000002 30 None
      (TakeQuizPage.Build_Storage None None None)
    = Some (2800000%Z, storage)
    /\ TakeQuizPage.setupTimer 1600000 1600001 1600002 30 None storage
       = Some (2800000%Z, storage).
Proof.
  destruct (proj2 (setupTimer_survives_refresh 1000000 1000001 1000002 30 None
                     (TakeQuizPage.Build_Storage None None None))
              ltac:(lia) ltac:(lia))
    as (endTime & storage & Hrun & _ & _ & _ & _ & Hrefresh & _).
  vm_compute in Hrun. injection Hrun as <- <-.
  eexists. split; [reflexivity|].
  apply (Hrefresh 1600000%Z 1600001%Z 1600002%Z). lia.
Defined.

(** ** The quiz page: the time shown *)

Lemma string_of_uint_digits (d : Decimal.uint) :
  allChars JS.isDigit (NilEmpty.string_of_uint d) = true.
Proof. unfold allChars. induction d; cbn; auto. Qed.

Lemma decimal_inj (a b : nat) :
  CandidateController.decimal a = CandidateController.decimal b -> a = b.
Proof.
  unfold CandidateController.decimal. intros H.
  apply (f_equal NilEmpty.uint_of_string) in H. rewrite !NilEmpty.usu in H.
  injection H as H. now apply DecimalNat.Unsigned.to_uint_inj.
Qed.

Lemma colon_not_digit : JS.isDigit ":" = false.
Proof. reflexivity. Qed.

(** Digits, a colon and the rest: the colon is where the digits end. *)
Lemma split_at_colon (a a' b b' : string) :
  allChars JS.isDigit a = true -> allChars JS.isDigit a' = true ->
  a ++ ":" ++ b = a' ++ ":" ++ b' -> a = a' /\ b = b'.
Proof.
  unfold allChars. revert a'. induction a as [|c a IH]; intros [|c' a'] Ha Ha' E.
  - now injection E.
  - rewrite append_cons in E. injection E as <- _. cbn in Ha'. discriminate.
  - rewrite append_cons in E. injection E as -> _. cbn in Ha. discriminate.
  - rewrite !append_cons in E. injection E as <- E.
    cbn in Ha, Ha'. apply andb_prop in Ha as [_ Ha]. apply andb_prop in Ha' as [_ Ha'].
    destruct (IH a' Ha Ha' E) as [-> ->]. now split.
Qed.

Lemma seconds_field (a b : nat) :
  (a < 60)%nat -> (b < 60)%nat ->
  String.length (TakeQuizPage.padStart2 (CandidateController.decimal a)) = 2%nat
  /\ (TakeQuizPage.padStart2 (CandidateController.decimal a)
      = TakeQuizPage.padStart2 (CandidateController.decimal b) -> a = b).
Proof.
  intros Ha Hb.
  assert (Htable : forallb (fun x =>
            (String.length (TakeQuizPage.padStart2 (CandidateController.decimal x)) =? 2)%nat
            && forallb (fun y =>
                 implb (TakeQuizPage.padStart2 (CandidateController.decimal x)
                        =? TakeQuizPage.padStart2 (CandidateController.decimal y))
                       (x =? y)%nat) (seq 0 60)) (seq 0 60) = true)
    by (vm_compute; reflexivity).
  rewrite forallb_forall in Htable.
  assert (Hina : In a (seq 0 60)) by (apply in_seq; lia).
  assert (Hinb : In b (seq 0 60)) by (apply in_seq; lia).
  specialize (Htable a Hina).
  apply andb_prop in Htable as [Hlen Hrow]. apply Nat.eqb_eq in Hlen.
  split; [exact Hlen|]. intros E.
  rewrite forallb_forall in Hrow.
  specialize (Hrow b Hinb).
  rewrite E, String.eqb_refl in Hrow. cbn in Hrow. now apply Nat.eqb_eq.
Qed.

(** X27. The time the page shows. Before the countdown runs it is
    three dots. A number of seconds is shown as the minutes, a colon
    and the seconds in exactly two digits; no time is shown as the
    three dots, and different numbers of seconds are shown
    differently. *)
Theorem formatTime_shows_the_time (seconds seconds' : nat) :
  TakeQuizPage.formatTime None = "..."
  /\ TakeQuizPage.formatTime (Some seconds) <> "..."
  /\ (exists field,
        TakeQuizPage.formatTime (Some seconds)
        = CandidateController.decimal (seconds / 60) ++ ":" ++ field
        /\ String.length field = 2%nat)
  /\ (TakeQuizPage.formatTime (Some seconds) = TakeQuizPage.formatTime (Some seconds') ->
      seconds = seconds').
Proof.
  pose proof (Nat.mod_upper_bound seconds 60 ltac:(lia)) as Hs.
  pose proof (Nat.mod_upper_bound seconds' 60 ltac:(lia)) as Hs'.
  destruct (seconds_field (seconds mod 60) (seconds' mod 60) Hs Hs') as [Hlen Hinj].
  split; [reflexivity|]. split; [|split].
  - unfold TakeQuizPage.formatTime. intros E.
    pose proof (string_of_uint_digits (Nat.to_uint (seconds / 60))) as Hd.
    fold (CandidateController.decimal (seconds / 60)) in Hd.
    destruct (CandidateController.decimal (seconds / 60)) as [|c m]; [discriminate|].
    rewrite append_cons in E. injection E as -> _.
    unfold allChars in Hd. cbn in Hd. discriminate.
  - eexists. split; [reflexivity | exact Hlen].
  - unfold TakeQuizPage.formatTime. intros E.
    apply split_at_colon in E as [Hm Hf]; try apply string_of_uint_digits.
    apply decimal_inj in Hm. apply Hinj in Hf.
    rewrite (Nat.div_mod_eq seconds 60), (Nat.div_mod_eq seconds' 60). lia.
Qed.

Lemma formatTime_shows_the_time_witness :
  TakeQuizPage.formatTime (Some 125%nat) = "2:05"
  /\ TakeQuizPage.formatTime (Some 125%nat) <> "...".
Proof.
  split; [reflexivity|].
  exact (proj1 (proj2 (formatTime_shows_the_time 125 0))).
Defined.
